(** * fidelityAPI.py: ledger bookkeeping, positions export parsing and
      order-entry decisions of the Fidelity automation

    A shallow embedding of [src/fidelityAPI.py].  Python values are modelled as
    the code has them: a [float] is an IEEE 754 binary64 number (the Standard
    Library's [spec_float] with 53 bits of mantissa), a [str] is the [string]
    of the bytes of its UTF-8 encoding, the account dictionary is an insertion-ordered association list, a stock
    dictionary is a finite map from field names to Python values, and code that
    can raise returns a [result]. *)

From Stdlib Require Import ZArith List String Ascii Bool Lia SpecFloat.
From stdpp Require Import base option list strings gmap.
Import ListNotations.
Local Open Scope string_scope.
Local Open Scope list_scope.
Local Open Scope Z_scope.

(** ** Python floats *)

Module PyFloat.

Definition prec : Z := 53.
Definition emax : Z := 1024.

(** [float] of the interpreter: binary64. *)
Definition float : Type := spec_float.

Definition fadd (x y : float) : float := SFadd prec emax x y.
Definition fsub (x y : float) : float := SFsub prec emax x y.
Definition flt (x y : float) : bool := SFltb x y.
Definition fle (x y : float) : bool := SFleb x y.
Definition fgt (x y : float) : bool := SFltb y x.
Definition fge (x y : float) : bool := SFleb y x.

(** The double nearest to the integer [z] (ties to even). *)
Definition of_Z (z : Z) : float := binary_normalize prec emax z 0 false.

(** The double nearest to [m / d] for a magnitude [m] and a positive
    denominator [d], with sign [s]: the correctly rounded quotient. *)
Definition of_ratio (s : bool) (m : Z) (d : positive) : float :=
  match m with
  | Zpos p =>
      let '(mz, ez, lz) := SFdiv_core_binary prec emax (Zpos p) 0 (Zpos d) 0 in
      binary_round_aux prec emax s mz ez lz
  | _ => S754_zero s
  end.

(** The double nearest to [m * 10^e] with sign [s]: what the interpreter
    computes for a decimal literal or a decimal string. *)
Definition of_decimal (s : bool) (m : Z) (e : Z) : float :=
  match e with
  | Zneg p => of_ratio s m (Pos.pow 10 p)
  | _ =>
      match m * 10 ^ e with
      | Zpos q => binary_round prec emax s q 0
      | _ => S754_zero s
      end
  end.

(** Literals of the source. *)
Definition f0 : float := S754_zero false.            (* 0.0 *)
Definition f1 : float := of_Z 1.                     (* 1 *)
Definition f0_1 : float := of_decimal false 1 (-1).  (* 0.1 *)
Definition f0_01 : float := of_decimal false 1 (-2). (* 0.01 *)
Definition f0_0001 : float := of_decimal false 1 (-4). (* 0.0001 *)

(** Integer nearest to [n / d], ties to the even integer. *)
Definition div_half_even (n : Z) (d : Z) : Z :=
  let q := n / d in
  let r := n mod d in
  match Z.compare (2 * r) d with
  | Lt => q
  | Gt => q + 1
  | Eq => if Z.even q then q else q + 1
  end.

(** [round(x, ndigits)] on a float, for [0 <= ndigits] (the source uses 2 and
    3): infinities and NaN round to themselves; a finite [x] is rounded, on
    its exact binary value, to the nearest multiple of [10^-ndigits] with ties
    to even, and that decimal is converted back to the nearest double. *)
Definition round (x : float) (ndigits : Z) : float :=
  match x with
  | S754_finite s m e =>
      match e with
      | Zneg p =>
          let k := div_half_even (Zpos m * 10 ^ ndigits) (Zpos (Pos.pow 2 p)) in
          of_decimal s k (- ndigits)
      | _ => x
      end
  | _ => x
  end.

(** Not negative: [0.0 <= x], or [x] is NaN with no sign to speak of. *)
Definition nonneg (x : float) : bool :=
  match x with
  | S754_nan => false
  | _ => fle f0 x
  end.

End PyFloat.

(** ** Python strings *)

Module PyStr.

Definition chars (s : string) : list ascii := list_ascii_of_string s.
Definition of_chars (l : list ascii) : string := string_of_list_ascii l.

Definition is_digit (c : ascii) : bool :=
  let n := nat_of_ascii c in (48 <=? n)%nat && (n <=? 57)%nat.

Definition is_upper (c : ascii) : bool :=
  let n := nat_of_ascii c in (65 <=? n)%nat && (n <=? 90)%nat.

(** Whitespace removed by [float()] at both ends of an ASCII argument. *)
Definition is_space (c : ascii) : bool :=
  let n := nat_of_ascii c in
  ((9 <=? n)%nat && (n <=? 13)%nat) || (n =? 32)%nat.

Definition lower_char (c : ascii) : ascii :=
  if is_upper c then ascii_of_nat (nat_of_ascii c + 32) else c.

(** [s.lower()] *)
Definition lower (s : string) : string := of_chars (map lower_char (chars s)).

(** [len(s)] *)
Definition len (s : string) : nat := String.length s.

Fixpoint is_prefix (p l : list ascii) : bool :=
  match p, l with
  | [], _ => true
  | a :: p', b :: l' => Ascii.eqb a b && is_prefix p' l'
  | _ :: _, [] => false
  end.

Fixpoint contains_chars (p l : list ascii) : bool :=
  is_prefix p l ||
  match l with
  | [] => false
  | _ :: l' => contains_chars p l'
  end.

(** [sub in s] *)
Definition contains (sub s : string) : bool := contains_chars (chars sub) (chars s).

(** [s.replace(c, "")] for a one-character [c] *)
Definition remove_char (c : ascii) (s : string) : string :=
  of_chars (filter (fun a => negb (Ascii.eqb a c)) (chars s)).

Definition has_char (c : ascii) (s : string) : bool :=
  existsb (Ascii.eqb c) (chars s).

Definition is_lower (c : ascii) : bool :=
  let n := nat_of_ascii c in (97 <=? n)%nat && (n <=? 122)%nat.

Definition upper_char (c : ascii) : ascii :=
  if is_lower c then ascii_of_nat (nat_of_ascii c - 32) else c.

(** [s.upper()] *)
Definition upper (s : string) : string := of_chars (map upper_char (chars s)).

(** [s.title()]: a letter is upper-cased after a character that is not a
    letter and lower-cased after a letter. *)
Fixpoint title_chars (prev_cased : bool) (l : list ascii) : list ascii :=
  match l with
  | [] => []
  | c :: r =>
      (if prev_cased then lower_char c else upper_char c)
        :: title_chars (is_lower c || is_upper c) r
  end.

Definition title (s : string) : string := of_chars (title_chars false (chars s)).

(** Whitespace removed by [s.strip()] in an ASCII string. *)
Definition is_strip_space (c : ascii) : bool :=
  let n := nat_of_ascii c in
  ((9 <=? n)%nat && (n <=? 13)%nat) || ((28 <=? n)%nat && (n <=? 32)%nat).

Fixpoint lstrip_chars (l : list ascii) : list ascii :=
  match l with
  | c :: l' => if is_strip_space c then lstrip_chars l' else l
  | [] => []
  end.

(** [s.strip()] *)
Definition strip (s : string) : string :=
  of_chars (rev (lstrip_chars (rev (lstrip_chars (chars s))))).

(** [s.replace(old, "")] for a non-empty [old]: occurrences are removed
    left to right without overlap; [skip] counts the characters of a found
    occurrence still to drop. *)
Fixpoint remove_sub_chars (old : list ascii) (skip : nat) (l : list ascii) : list ascii :=
  match l with
  | [] => []
  | c :: r =>
      match skip with
      | S k => remove_sub_chars old k r
      | O =>
          if is_prefix old l then remove_sub_chars old (List.length old - 1) r
          else c :: remove_sub_chars old 0 r
      end
  end.

Definition remove_sub (old s : string) : string :=
  of_chars (remove_sub_chars (chars old) 0 (chars s)).

End PyStr.

(** ** The characters of a text *)

Module Utf8.

(** A Python [str] is held as the bytes of its UTF-8 encoding. A character
    of the text: its code point and the bytes that write it. *)
Record uchar := UChar { point : N; written : list ascii }.

Definition byte (c : ascii) : N := N_of_ascii c.

(** A continuation byte, and the six bits it carries. *)
Definition is_cont (c : ascii) : bool := (128 <=? byte c)%N && (byte c <? 192)%N.
Definition low (c : ascii) : N := (byte c - 128)%N.

(** A byte that begins no character, which a well-formed text has none of:
    it stands alone, at a point outside Unicode. *)
Definition stray (b : ascii) : uchar := UChar (1114112 + byte b) [b].

(** The characters of a text, from its bytes. *)
Fixpoint uchars (l : list ascii) : list uchar :=
  match l with
  | [] => []
  | b1 :: r1 =>
      let n1 := byte b1 in
      if (n1 <? 128)%N then UChar n1 [b1] :: uchars r1 else
      match r1 with
      | b2 :: r2 =>
          if (192 <=? n1)%N && (n1 <? 224)%N && is_cont b2
          then UChar ((n1 - 192) * 64 + low b2) [b1; b2] :: uchars r2 else
          match r2 with
          | b3 :: r3 =>
              if (224 <=? n1)%N && (n1 <? 240)%N && is_cont b2 && is_cont b3
              then UChar (((n1 - 224) * 64 + low b2) * 64 + low b3) [b1; b2; b3]
                     :: uchars r3 else
              match r3 with
              | b4 :: r4 =>
                  if (240 <=? n1)%N && (n1 <? 248)%N && is_cont b2 && is_cont b3 && is_cont b4
                  then UChar ((((n1 - 240) * 64 + low b2) * 64 + low b3) * 64 + low b4)
                         [b1; b2; b3; b4] :: uchars r4
                  else stray b1 :: uchars r1
              | [] => stray b1 :: uchars r1
              end
          | [] => stray b1 :: uchars r1
          end
      | [] => stray b1 :: uchars r1
      end
  end.

(** The text a list of characters writes. *)
Definition text_of (l : list uchar) : string := PyStr.of_chars (flat_map written l).

(** The decimal digits of Unicode 14.0 (category Nd, the table of CPython
    3.11), which is what [\d] takes in a pattern over [str]: first and last
    point of each run. *)
Definition decimal_ranges : list (N * N) :=
  [(48, 57); (1632, 1641); (1776, 1785); (1984, 1993); (2406, 2415); (2534, 2543);
   (2662, 2671); (2790, 2799); (2918, 2927); (3046, 3055); (3174, 3183); (3302, 3311);
   (3430, 3439); (3558, 3567); (3664, 3673); (3792, 3801); (3872, 3881); (4160, 4169);
   (4240, 4249); (6112, 6121); (6160, 6169); (6470, 6479); (6608, 6617); (6784, 6793);
   (6800, 6809); (6992, 7001); (7088, 7097); (7232, 7241); (7248, 7257); (42528, 42537);
   (43216, 43225); (43264, 43273); (43472, 43481); (43504, 43513); (43600, 43609);
   (44016, 44025); (65296, 65305); (66720, 66729); (68912, 68921); (69734, 69743);
   (69872, 69881); (69942, 69951); (70096, 70105); (70384, 70393); (70736, 70745);
   (70864, 70873); (71248, 71257); (71360, 71369); (71472, 71481); (71904, 71913);
   (72016, 72025); (72784, 72793); (73040, 73049); (73120, 73129); (92768, 92777);
   (92864, 92873); (93008, 93017); (120782, 120831); (123200, 123209); (123632, 123641);
   (125264, 125273); (130032, 130041)]%N.

(** The points outside ASCII that [repr] does not print as they are, in
    Unicode 14.0: the control, format, surrogate, private-use and unassigned
    points and the separators. *)
Definition unprintable_ranges : list (N * N) :=
  [(128, 160); (173, 173); (888, 889); (896, 899); (907, 907); (909, 909); (930, 930);
   (1328, 1328); (1367, 1368); (1419, 1420); (1424, 1424); (1480, 1487); (1515, 1518);
   (1525, 1541); (1564, 1564); (1757, 1757); (1806, 1807); (1867, 1868); (1970, 1983);
   (2043, 2044); (2094, 2095); (2111, 2111); (2140, 2141); (2143, 2143); (2155, 2159);
   (2191, 2199); (2274, 2274); (2436, 2436); (2445, 2446); (2449, 2450); (2473, 2473);
   (2481, 2481); (2483, 2485); (2490, 2491); (2501, 2502); (2505, 2506); (2511, 2518);
   (2520, 2523); (2526, 2526); (2532, 2533); (2559, 2560); (2564, 2564); (2571, 2574);
   (2577, 2578); (2601, 2601); (2609, 2609); (2612, 2612); (2615, 2615); (2618, 2619);
   (2621, 2621); (2627, 2630); (2633, 2634); (2638, 2640); (2642, 2648); (2653, 2653);
   (2655, 2661); (2679, 2688); (2692, 2692); (2702, 2702); (2706, 2706); (2729, 2729);
   (2737, 2737); (2740, 2740); (2746, 2747); (2758, 2758); (2762, 2762); (2766, 2767);
   (2769, 2783); (2788, 2789); (2802, 2808); (2816, 2816); (2820, 2820); (2829, 2830);
   (2833, 2834); (2857, 2857); (2865, 2865); (2868, 2868); (2874, 2875); (2885, 2886);
   (2889, 2890); (2894, 2900); (2904, 2907); (2910, 2910); (2916, 2917); (2936, 2945);
   (2948, 2948); (2955, 2957); (2961, 2961); (2966, 2968); (2971, 2971); (2973, 2973);
   (2976, 2978); (2981, 2983); (2987, 2989); (3002, 3005); (3011, 3013); (3017, 3017);
   (3022, 3023); (3025, 3030); (3032, 3045); (3067, 3071); (3085, 3085); (3089, 3089);
   (3113, 3113); (3130, 3131); (3141, 3141); (3145, 3145); (3150, 3156); (3159, 3159);
   (3163, 3164); (3166, 3167); (3172, 3173); (3184, 3190); (3213, 3213); (3217, 3217);
   (3241, 3241); (3252, 3252); (3258, 3259); (3269, 3269); (3273, 3273); (3278, 3284);
   (3287, 3292); (3295, 3295); (3300, 3301); (3312, 3312); (3315, 3327); (3341, 3341);
   (3345, 3345); (3397, 3397); (3401, 3401); (3408, 3411); (3428, 3429); (3456, 3456);
   (3460, 3460); (3479, 3481); (3506, 3506); (3516, 3516); (3518, 3519); (3527, 3529);
   (3531, 3534); (3541, 3541); (3543, 3543); (3552, 3557); (3568, 3569); (3573, 3584);
   (3643, 3646); (3676, 3712); (3715, 3715); (3717, 3717); (3723, 3723); (3748, 3748);
   (3750, 3750); (3774, 3775); (3781, 3781); (3783, 3783); (3790, 3791); (3802, 3803);
   (3808, 3839); (3912, 3912); (3949, 3952); (3992, 3992); (4029, 4029); (4045, 4045);
   (4059, 4095); (4294, 4294); (4296, 4300); (4302, 4303); (4681, 4681); (4686, 4687);
   (4695, 4695); (4697, 4697); (4702, 4703); (4745, 4745); (4750, 4751); (4785, 4785);
   (4790, 4791); (4799, 4799); (4801, 4801); (4806, 4807); (4823, 4823); (4881, 4881);
   (4886, 4887); (4955, 4956); (4989, 4991); (5018, 5023); (5110, 5111); (5118, 5119);
   (5760, 5760); (5789, 5791); (5881, 5887); (5910, 5918); (5943, 5951); (5972, 5983);
   (5997, 5997); (6001, 6001); (6004, 6015); (6110, 6111); (6122, 6127); (6138, 6143);
   (6158, 6158); (6170, 6175); (6265, 6271); (6315, 6319); (6390, 6399); (6431, 6431);
   (6444, 6447); (6460, 6463); (6465, 6467); (6510, 6511); (6517, 6527); (6572, 6575);
   (6602, 6607); (6619, 6621); (6684, 6685); (6751, 6751); (6781, 6782); (6794, 6799);
   (6810, 6815); (6830, 6831); (6863, 6911); (6989, 6991); (7039, 7039); (7156, 7163);
   (7224, 7226); (7242, 7244); (7305, 7311); (7355, 7356); (7368, 7375); (7419, 7423);
   (7958, 7959); (7966, 7967); (8006, 8007); (8014, 8015); (8024, 8024); (8026, 8026);
   (8028, 8028); (8030, 8030); (8062, 8063); (8117, 8117); (8133, 8133); (8148, 8149);
   (8156, 8156); (8176, 8177); (8181, 8181); (8191, 8207); (8232, 8239); (8287, 8303);
   (8306, 8307); (8335, 8335); (8349, 8351); (8385, 8399); (8433, 8447); (8588, 8591);
   (9255, 9279); (9291, 9311); (11124, 11125); (11158, 11158); (11508, 11512);
   (11558, 11558); (11560, 11564); (11566, 11567); (11624, 11630); (11633, 11646);
   (11671, 11679); (11687, 11687); (11695, 11695); (11703, 11703); (11711, 11711);
   (11719, 11719); (11727, 11727); (11735, 11735); (11743, 11743); (11870, 11903);
   (11930, 11930); (12020, 12031); (12246, 12271); (12284, 12288); (12352, 12352);
   (12439, 12440); (12544, 12548); (12592, 12592); (12687, 12687); (12772, 12783);
   (12831, 12831); (42125, 42127); (42183, 42191); (42540, 42559); (42744, 42751);
   (42955, 42959); (42962, 42962); (42964, 42964); (42970, 42993); (43053, 43055);
   (43066, 43071); (43128, 43135); (43206, 43213); (43226, 43231); (43348, 43358);
   (43389, 43391); (43470, 43470); (43482, 43485); (43519, 43519); (43575, 43583);
   (43598, 43599); (43610, 43611); (43715, 43738); (43767, 43776); (43783, 43784);
   (43791, 43792); (43799, 43807); (43815, 43815); (43823, 43823); (43884, 43887);
   (44014, 44015); (44026, 44031); (55204, 55215); (55239, 55242); (55292, 63743);
   (64110, 64111); (64218, 64255); (64263, 64274); (64280, 64284); (64311, 64311);
   (64317, 64317); (64319, 64319); (64322, 64322); (64325, 64325); (64451, 64466);
   (64912, 64913); (64968, 64974); (64976, 65007); (65050, 65055); (65107, 65107);
   (65127, 65127); (65132, 65135); (65141, 65141); (65277, 65280); (65471, 65473);
   (65480, 65481); (65488, 65489); (65496, 65497); (65501, 65503); (65511, 65511);
   (65519, 65531); (65534, 65535); (65548, 65548); (65575, 65575); (65595, 65595);
   (65598, 65598); (65614, 65615); (65630, 65663); (65787, 65791); (65795, 65798);
   (65844, 65846); (65935, 65935); (65949, 65951); (65953, 65999); (66046, 66175);
   (66205, 66207); (66257, 66271); (66300, 66303); (66340, 66348); (66379, 66383);
   (66427, 66431); (66462, 66462); (66500, 66503); (66518, 66559); (66718, 66719);
   (66730, 66735); (66772, 66775); (66812, 66815); (66856, 66863); (66916, 66926);
   (66939, 66939); (66955, 66955); (66963, 66963); (66966, 66966); (66978, 66978);
   (66994, 66994); (67002, 67002); (67005, 67071); (67383, 67391); (67414, 67423);
   (67432, 67455); (67462, 67462); (67505, 67505); (67515, 67583); (67590, 67591);
   (67593, 67593); (67638, 67638); (67641, 67643); (67645, 67646); (67670, 67670);
   (67743, 67750); (67760, 67807); (67827, 67827); (67830, 67834); (67868, 67870);
   (67898, 67902); (67904, 67967); (68024, 68027); (68048, 68049); (68100, 68100);
   (68103, 68107); (68116, 68116); (68120, 68120); (68150, 68151); (68155, 68158);
   (68169, 68175); (68185, 68191); (68256, 68287); (68327, 68330); (68343, 68351);
   (68406, 68408); (68438, 68439); (68467, 68471); (68498, 68504); (68509, 68520);
   (68528, 68607); (68681, 68735); (68787, 68799); (68851, 68857); (68904, 68911);
   (68922, 69215); (69247, 69247); (69290, 69290); (69294, 69295); (69298, 69375);
   (69416, 69423); (69466, 69487); (69514, 69551); (69580, 69599); (69623, 69631);
   (69710, 69713); (69750, 69758); (69821, 69821); (69827, 69839); (69865, 69871);
   (69882, 69887); (69941, 69941); (69960, 69967); (70007, 70015); (70112, 70112);
   (70133, 70143); (70162, 70162); (70207, 70271); (70279, 70279); (70281, 70281);
   (70286, 70286); (70302, 70302); (70314, 70319); (70379, 70383); (70394, 70399);
   (70404, 70404); (70413, 70414); (70417, 70418); (70441, 70441); (70449, 70449);
   (70452, 70452); (70458, 70458); (70469, 70470); (70473, 70474); (70478, 70479);
   (70481, 70486); (70488, 70492); (70500, 70501); (70509, 70511); (70517, 70655);
   (70748, 70748); (70754, 70783); (70856, 70863); (70874, 71039); (71094, 71095);
   (71134, 71167); (71237, 71247); (71258, 71263); (71277, 71295); (71354, 71359);
   (71370, 71423); (71451, 71452); (71468, 71471); (71495, 71679); (71740, 71839);
   (71923, 71934); (71943, 71944); (71946, 71947); (71956, 71956); (71959, 71959);
   (71990, 71990); (71993, 71994); (72007, 72015); (72026, 72095); (72104, 72105);
   (72152, 72153); (72165, 72191); (72264, 72271); (72355, 72367); (72441, 72703);
   (72713, 72713); (72759, 72759); (72774, 72783); (72813, 72815); (72848, 72849);
   (72872, 72872); (72887, 72959); (72967, 72967); (72970, 72970); (73015, 73017);
   (73019, 73019); (73022, 73022); (73032, 73039); (73050, 73055); (73062, 73062);
   (73065, 73065); (73103, 73103); (73106, 73106); (73113, 73119); (73130, 73439);
   (73465, 73647); (73649, 73663); (73714, 73726); (74650, 74751); (74863, 74863);
   (74869, 74879); (75076, 77711); (77811, 77823); (78895, 82943); (83527, 92159);
   (92729, 92735); (92767, 92767); (92778, 92781); (92863, 92863); (92874, 92879);
   (92910, 92911); (92918, 92927); (92998, 93007); (93018, 93018); (93026, 93026);
   (93048, 93052); (93072, 93759); (93851, 93951); (94027, 94030); (94088, 94094);
   (94112, 94175); (94181, 94191); (94194, 94207); (100344, 100351); (101590, 101631);
   (101641, 110575); (110580, 110580); (110588, 110588); (110591, 110591);
   (110883, 110927); (110931, 110947); (110952, 110959); (111356, 113663);
   (113771, 113775); (113789, 113791); (113801, 113807); (113818, 113819);
   (113824, 118527); (118574, 118575); (118599, 118607); (118724, 118783);
   (119030, 119039); (119079, 119080); (119155, 119162); (119275, 119295);
   (119366, 119519); (119540, 119551); (119639, 119647); (119673, 119807);
   (119893, 119893); (119965, 119965); (119968, 119969); (119971, 119972);
   (119975, 119976); (119981, 119981); (119994, 119994); (119996, 119996);
   (120004, 120004); (120070, 120070); (120075, 120076); (120085, 120085);
   (120093, 120093); (120122, 120122); (120127, 120127); (120133, 120133);
   (120135, 120137); (120145, 120145); (120486, 120487); (120780, 120781);
   (121484, 121498); (121504, 121504); (121520, 122623); (122655, 122879);
   (122887, 122887); (122905, 122906); (122914, 122914); (122917, 122917);
   (122923, 123135); (123181, 123183); (123198, 123199); (123210, 123213);
   (123216, 123535); (123567, 123583); (123642, 123646); (123648, 124895);
   (124903, 124903); (124908, 124908); (124911, 124911); (124927, 124927);
   (125125, 125126); (125143, 125183); (125260, 125263); (125274, 125277);
   (125280, 126064); (126133, 126208); (126270, 126463); (126468, 126468);
   (126496, 126496); (126499, 126499); (126501, 126502); (126504, 126504);
   (126515, 126515); (126520, 126520); (126522, 126522); (126524, 126529);
   (126531, 126534); (126536, 126536); (126538, 126538); (126540, 126540);
   (126544, 126544); (126547, 126547); (126549, 126550); (126552, 126552);
   (126554, 126554); (126556, 126556); (126558, 126558); (126560, 126560);
   (126563, 126563); (126565, 126566); (126571, 126571); (126579, 126579);
   (126584, 126584); (126589, 126589); (126591, 126591); (126602, 126602);
   (126620, 126624); (126628, 126628); (126634, 126634); (126652, 126703);
   (126706, 126975); (127020, 127023); (127124, 127135); (127151, 127152);
   (127168, 127168); (127184, 127184); (127222, 127231); (127406, 127461);
   (127491, 127503); (127548, 127551); (127561, 127567); (127570, 127583);
   (127590, 127743); (128728, 128732); (128749, 128751); (128765, 128767);
   (128884, 128895); (128985, 128991); (129004, 129007); (129009, 129023);
   (129036, 129039); (129096, 129103); (129114, 129119); (129160, 129167);
   (129198, 129199); (129202, 129279); (129620, 129631); (129646, 129647);
   (129653, 129655); (129661, 129663); (129671, 129679); (129709, 129711);
   (129723, 129727); (129734, 129743); (129754, 129759); (129768, 129775);
   (129783, 129791); (129939, 129939); (129995, 130031); (130042, 131071);
   (173792, 173823); (177977, 177983); (178206, 178207); (183970, 183983);
   (191457, 194559); (195102, 196607); (201547, 917759); (918000, 1114111)]%N.

Definition is_unprintable (p : N) : bool :=
  existsb (fun r => (fst r <=? p)%N && (p <=? snd r)%N) unprintable_ranges.

Definition is_decimal (p : N) : bool :=
  existsb (fun r => (fst r <=? p)%N && (p <=? snd r)%N) decimal_ranges.

(** The digit a decimal digit stands for: every run counts up from zero,
    ten by ten. *)
Definition decimal_value (p : N) : N :=
  match List.find (fun r => (fst r <=? p)%N && (p <=? snd r)%N) decimal_ranges with
  | Some r => ((p - fst r) mod 10)%N
  | None => 0%N
  end.

(** The whitespace of Unicode outside ASCII. *)
Definition is_space_point (p : N) : bool :=
  existsb (N.eqb p) [133; 160; 5760; 8232; 8233; 8239; 8287; 12288]%N
  || (8192 <=? p)%N && (p <=? 8202)%N.

(** The character [c] of ASCII. *)
Definition is_char (c : ascii) (u : uchar) : bool := (point u =? byte c)%N.

End Utf8.

(** ** [float(s)] on a string *)

Module FloatParse.
Import PyStr Utf8.

(** What [float()] makes of a character before it parses: a character of
    ASCII stays, whitespace of any kind becomes a blank, a decimal digit of
    any script becomes its digit, and any other character is one that no
    number holds. *)
Definition to_ascii (u : uchar) : list ascii :=
  if (point u <? 127)%N then written u
  else if is_space_point (point u) then [" "%char]
  else if is_decimal (point u) then [ascii_of_N (48 + decimal_value (point u))]
  else ["?"%char].

Definition transform (l : list ascii) : list ascii := flat_map to_ascii (uchars l).

Fixpoint lstrip (l : list ascii) : list ascii :=
  match l with
  | c :: l' => if is_space c then lstrip l' else l
  | [] => []
  end.

Definition strip (l : list ascii) : list ascii := rev (lstrip (rev (lstrip l))).

(** Underscores are dropped when each stands after a digit and before a
    digit; any other underscore makes the string invalid. *)
Definition prev_is (test : ascii → bool) (prev : option ascii) : bool :=
  match prev with
  | Some p => test p
  | None => false
  end.

Definition is_underscore (c : ascii) : bool := Ascii.eqb c "_".

Fixpoint drop_underscores (prev : option ascii) (l : list ascii) : option (list ascii) :=
  match l with
  | [] => if prev_is is_underscore prev then None else Some []
  | c :: l' =>
      if is_underscore c then
        if prev_is is_digit prev then drop_underscores (Some c) l' else None
      else if prev_is is_underscore prev && negb (is_digit c) then None
      else option_map (cons c) (drop_underscores (Some c) l')
  end.

Fixpoint span_digits (l : list ascii) : list ascii * list ascii :=
  match l with
  | c :: l' =>
      if is_digit c then let '(d, r) := span_digits l' in (c :: d, r) else ([], l)
  | [] => ([], [])
  end.

Definition digit_val (c : ascii) : Z := Z.of_nat (nat_of_ascii c) - 48.

Definition digits_val (l : list ascii) : Z :=
  fold_left (fun acc c => 10 * acc + digit_val c) l 0.

Definition split_sign (l : list ascii) : bool * list ascii :=
  match l with
  | c :: r =>
      if Ascii.eqb c "-" then (true, r)
      else if Ascii.eqb c "+" then (false, r)
      else (false, l)
  | [] => (false, l)
  end.

(** The exponent part: nothing, or [e]/[E], an optional sign and digits. *)
Definition parse_exponent (l : list ascii) : option Z :=
  match l with
  | [] => Some 0
  | c :: r =>
      if Ascii.eqb (lower_char c) "e"%char then
        let '(neg, r1) := split_sign r in
        match span_digits r1 with
        | ((_ :: _) as d, []) => Some (if neg then - digits_val d else digits_val d)
        | _ => None
        end
      else None
  end.

Definition parse_number (sign : bool) (l : list ascii) : option PyFloat.float :=
  let '(ipart, r) := span_digits l in
  let '(fpart, r') :=
    match r with
    | c :: r1 => if Ascii.eqb c "." then span_digits r1 else ([], r)
    | [] => ([], r)
    end in
  match ipart ++ fpart with
  | [] => None
  | ds =>
      match parse_exponent r' with
      | Some e => Some (PyFloat.of_decimal sign (digits_val ds) (e - Z.of_nat (List.length fpart)))
      | None => None
      end
  end.

Definition parse_signed (l : list ascii) : option PyFloat.float :=
  let '(sign, r) := split_sign l in
  let word := of_chars (map lower_char r) in
  if (word =? "inf")%string || (word =? "infinity")%string then Some (S754_infinity sign)
  else if (word =? "nan")%string then Some S754_nan
  else parse_number sign r.

(** [float(s)]: [None] stands for the [ValueError] it raises. *)
Definition float_of_string (s : string) : option PyFloat.float :=
  match drop_underscores None (strip (transform (chars s))) with
  | Some l => parse_signed l
  | None => None
  end.

End FloatParse.

(** ** Exceptions and results *)

(** The exception classes the modelled code can meet; all derive from
    [Exception], and only [PlaywrightTimeoutError] is caught by name. *)
Inductive exn_class :=
  | KeyError | IndexError | ValueError | TypeError | OverflowError
  | AttributeError | PlaywrightError | PlaywrightTimeoutError | Exception.

Record exn := Exn { exn_cls : exn_class; exn_text : string }.

Inductive result (A : Type) :=
  | Ok (a : A)
  | Raise (e : exn).
Arguments Ok {A} a.
Arguments Raise {A} e.

#[global] Instance result_ret : MRet result := fun A a => Ok a.
#[global] Instance result_bind : MBind result := fun A B k m =>
  match m with
  | Ok a => k a
  | Raise e => Raise e
  end.

Definition is_timeout (e : exn) : bool :=
  match exn_cls e with
  | PlaywrightTimeoutError => true
  | _ => false
  end.

(** ** Python values held in a stock dictionary *)

Inductive pyval :=
  | VNone
  | VStr (s : string)
  | VFloat (f : PyFloat.float)
  | VInt (z : Z).

Definition is_none (v : pyval) : bool :=
  match v with VNone => true | _ => false end.

(** [type(v) is str], [type(v) is float] *)
Definition type_is_str (v : pyval) : bool :=
  match v with VStr _ => true | _ => false end.
Definition type_is_float (v : pyval) : bool :=
  match v with VFloat _ => true | _ => false end.

Definition hex_digit (n : nat) : ascii :=
  nth n (PyStr.chars "0123456789abcdef") "0"%char.

(** One character of [repr(s)] between the quotes [quote]. *)
Definition repr_char (quote c : ascii) : list ascii :=
  let n := nat_of_ascii c in
  let backslash := ascii_of_nat 92 in
  if Ascii.eqb c quote || Ascii.eqb c backslash then [backslash; c]
  else if (n =? 9)%nat then [backslash; "t"%char]
  else if (n =? 10)%nat then [backslash; "n"%char]
  else if (n =? 13)%nat then [backslash; "r"%char]
  else if (n <? 32)%nat || (n =? 127)%nat
  then [backslash; "x"%char; hex_digit (n / 16); hex_digit (n mod 16)]
  else [c].

(** The [width] hexadecimal digits of [p], the lowest last. *)
Fixpoint hex_digits (width : nat) (p : N) : list ascii :=
  match width with
  | O => []
  | S w => hex_digits w (p / 16) ++ [hex_digit (N.to_nat (p mod 16))]
  end.

(** One character of a text in [repr(s)]: a character outside ASCII is
    written as it is when it is printable, and by its point otherwise, on
    two, four or eight hexadecimal digits. *)
Definition repr_uchar (quote : ascii) (u : Utf8.uchar) : list ascii :=
  let p := Utf8.point u in
  let backslash := ascii_of_nat 92 in
  if (p <? 128)%N then flat_map (repr_char quote) (Utf8.written u)
  else if Utf8.is_unprintable p then
    if (p <? 256)%N then backslash :: "x"%char :: hex_digits 2 p
    else if (p <? 65536)%N then backslash :: "u"%char :: hex_digits 4 p
    else backslash :: "U"%char :: hex_digits 8 p
  else Utf8.written u.

(** [repr(s)]: the text between single quotes, or between double quotes
    when it holds a single quote and no double quote. The quote in use and
    the backslash are escaped, tab, line feed and carriage return are written
    with their letters, and the other characters that are not printable by
    their point in hexadecimal. *)
Definition py_repr (s : string) : string :=
  let l := PyStr.chars s in
  let double := ascii_of_nat 34 in
  let quote :=
    if existsb (Ascii.eqb "'"%char) l && negb (existsb (Ascii.eqb double) l)
    then double else "'"%char in
  PyStr.of_chars (quote :: flat_map (repr_uchar quote) (Utf8.uchars l) ++ [quote]).

(** [float(v)]: a string is parsed, an int converted (too large an int
    overflows), a float returned as it is. The [ValueError] names the
    string as [repr] writes it. *)
Definition py_float (v : pyval) : result PyFloat.float :=
  match v with
  | VFloat f => Ok f
  | VInt z =>
      match PyFloat.of_Z z with
      | S754_infinity _ => Raise (Exn OverflowError "int too large to convert to float")
      | f => Ok f
      end
  | VStr s =>
      match FloatParse.float_of_string s with
      | Some f => Ok f
      | None => Raise (Exn ValueError ("could not convert string to float: " ++ py_repr s))
      end
  | VNone => Raise (Exn TypeError "float() argument must be a string or a real number, not 'NoneType'")
  end.

(** [b + v] for a float [b]. *)
Definition float_plus (b : PyFloat.float) (v : pyval) : result PyFloat.float :=
  match v with
  | VFloat _ | VInt _ => f ← py_float v; Ok (PyFloat.fadd b f)
  | VStr _ => Raise (Exn TypeError "unsupported operand type(s) for +=: 'float' and 'str'")
  | VNone => Raise (Exn TypeError "unsupported operand type(s) for +=: 'float' and 'NoneType'")
  end.

(** A stock dictionary: field name to value. *)
Abbreviation stock := (gmap string pyval).

(** [d[k]] *)
Definition getitem (d : stock) (k : string) : result pyval :=
  match d !! k with
  | Some v => Ok v
  | None => Raise (Exn KeyError k)
  end.

(** [create_stock_dict(ticker, quantity, last_price, value)]; the optional
    list to append to is never passed by this file's callers. *)
Definition create_stock_dict (ticker : string) (quantity last_price value : PyFloat.float) : stock :=
  <["ticker" := VStr ticker]>
    (<["quantity" := VFloat quantity]>
      (<["last_price" := VFloat last_price]>
        (<["value" := VFloat value]> ∅))).

(** The body of the [try] in [validate_stocks]: both tests read the four
    fields left to right and stop at the first that decides. *)
Definition check_stock (s : stock) : result unit :=
  t ← getitem s "ticker";
  missing ←
    (if is_none t then Ok true else
     q ← getitem s "quantity";
     if is_none q then Ok true else
     p ← getitem s "last_price";
     if is_none p then Ok true else
     v ← getitem s "value";
     Ok (is_none v));
  if missing : bool then Raise (Exn Exception "Missing fields") else
  t ← getitem s "ticker";
  wrong ←
    (if negb (type_is_str t) then Ok true else
     q ← getitem s "quantity";
     if negb (type_is_float q) then Ok true else
     p ← getitem s "last_price";
     if negb (type_is_float p) then Ok true else
     v ← getitem s "value";
     Ok (negb (type_is_float v)));
  if wrong : bool then Raise (Exn Exception "Incorrect types for entries") else
  Ok tt.

Fixpoint validate_stock_list (stocks : list stock) : bool :=
  match stocks with
  | [] => true
  | s :: rest =>
      match check_stock s with
      | Ok _ => validate_stock_list rest
      | Raise _ => false
      end
  end.

(** [validate_stocks(stocks)]; [None] is the default argument. *)
Definition validate_stocks (stocks : option (list stock)) : bool :=
  match stocks with
  | Some l => validate_stock_list l
  | None => true
  end.

(** ** The account dictionary *)

Record account := Account {
  balance : PyFloat.float;
  nickname : option string;
  stocks : list stock
}.

(** A Python dictionary keeps its keys in insertion order, and assigning
    to a key that is present keeps its place: an association list with one
    entry per key. *)
Section OrderedDict.
Context {K V : Type} `{EqDecision K}.

Fixpoint odict_get (k : K) (d : list (K * V)) : option V :=
  match d with
  | [] => None
  | (k', v) :: rest => if bool_decide (k = k') then Some v else odict_get k rest
  end.

(** [k in d] *)
Definition odict_mem (k : K) (d : list (K * V)) : bool :=
  match odict_get k d with Some _ => true | None => false end.

(** [d[k] = v] *)
Fixpoint odict_set (k : K) (v : V) (d : list (K * V)) : list (K * V) :=
  match d with
  | [] => [(k, v)]
  | (k', v') :: rest =>
      if bool_decide (k = k') then (k, v) :: rest else (k', v') :: odict_set k v rest
  end.
End OrderedDict.

(** [self.account_dict] *)
Abbreviation account_dict := (list (string * account)).

Definition dict_get (k : string) (d : account_dict) : option account := odict_get k d.
Definition dict_mem (k : string) (d : account_dict) : bool := odict_mem k d.
Definition dict_set (k : string) (a : account) (d : account_dict) : account_dict := odict_set k a d.

(** [set_account_dict(account_num, balance, nickname, stocks, overwrite)]:
    the returned boolean and the dictionary after the call. *)
Definition set_account_dict (account_num : string) (bal : option PyFloat.float)
    (nick : option string) (stks : option (list stock)) (overwrite : bool)
    (d : account_dict) : bool * account_dict :=
  if overwrite || negb (dict_mem account_num d) then
    if negb (validate_stocks stks) then (false, d)
    else
      (true,
       dict_set account_num
         {| balance := match bal with Some b => b | None => PyFloat.f0 end;
            nickname := nick;
            stocks := match stks with Some l => l | None => [] end |} d)
  else (false, d).

(** [add_stock_to_account_dict(account_num, stock)]: the stock is appended
    first, then the balance is read, [stock["value"]] is read and added, and
    the sum is stored; an exception on the way leaves the appended stock. *)
Definition add_stock_to_account_dict (account_num : string) (s : stock)
    (d : account_dict) : result bool * account_dict :=
  match dict_get account_num d with
  | Some a =>
      let a1 := {| balance := balance a; nickname := nickname a; stocks := stocks a ++ [s] |} in
      let d1 := dict_set account_num a1 d in
      match v ← getitem s "value"; float_plus (balance a1) v with
      | Ok b =>
          (Ok true,
           dict_set account_num {| balance := b; nickname := nickname a1; stocks := stocks a1 |} d1)
      | Raise e => (Raise e, d1)
      end
  | None => (Ok false, d)
  end.

(** ** The positions export: the row loop of [getAccountInfo] *)

(** A row of [csv.DictReader] over the required columns, which the header
    check guarantees are keys of every row; a column the line is too short
    to reach reads [None]. *)
Record csv_row := CsvRow {
  Account_Number : option string;
  Account_Name : option string;
  Symbol : option string;
  Quantity : option string;
  Last_Price : option string;
  Current_Value : option string
}.

(** [str(x)] for a cell *)
Definition str_cell (x : option string) : string :=
  match x with
  | Some s => s
  | None => "None"
  end.

(** What the loop body decides for a row before it touches the dictionary:
    [continue], [break], or a position to merge under an account. *)
Inductive row_action :=
  | Skip
  | Stop
  | Merge (account_num : string) (nick : option string) (val : PyFloat.float) (s : stock).

Definition read_row (row : csv_row) : result row_action :=
  match Account_Number row with
  | None => Ok Skip
  | Some acct =>
      if PyStr.contains "and" acct then Ok Stop else
      match acct with
      | EmptyString => Raise (Exn IndexError "string index out of range")
      | String c _ =>
          if Ascii.eqb c "Y"%char then Ok Skip else
          let val := PyStr.remove_char "-" (PyStr.remove_char "$" (str_cell (Current_Value row))) in
          let last_price := PyStr.remove_char "-" (PyStr.remove_char "$" (str_cell (Last_Price row))) in
          let quantity := PyStr.remove_char "-" (str_cell (Quantity row)) in
          let ticker := str_cell (Symbol row) in
          if PyStr.contains "Pending" ticker then Ok Skip else
          if (PyStr.len val =? 0)%nat then Ok Skip else
          let val := if String.eqb (PyStr.lower val) "n/a" then VInt 0 else VStr val in
          let last_price := if (PyStr.len last_price =? 0)%nat then val else VStr last_price in
          let quantity := if (PyStr.len quantity =? 0)%nat then VInt 1 else VStr quantity in
          q ← py_float quantity;
          p ← py_float last_price;
          v ← py_float val;
          b ← py_float val;
          Ok (Merge acct (Account_Name row) b (create_stock_dict ticker q p v))
      end
  end.

(** Lines 376-384: set without overwrite, and add to the account when it is
    there already. *)
Definition merge_row (acct : string) (nick : option string) (val : PyFloat.float)
    (s : stock) (d : account_dict) : result unit * account_dict :=
  let '(created, d1) := set_account_dict acct (Some val) nick (Some [s]) false d in
  if negb created then
    match add_stock_to_account_dict acct s d1 with
    | (Ok _, d2) => (Ok tt, d2)
    | (Raise e, d2) => (Raise e, d2)
    end
  else (Ok tt, d1).

(** One iteration: the row's outcome and the dictionary after it. *)
Definition row_step (row : csv_row) (d : account_dict) : result row_action * account_dict :=
  match read_row row with
  | Ok (Merge acct nick val s) =>
      match merge_row acct nick val s d with
      | (Ok _, d') => (Ok (Merge acct nick val s), d')
      | (Raise e, d') => (Raise e, d')
      end
  | r => (r, d)
  end.

(** [for row in reader: ...] *)
Fixpoint row_loop (rows : list csv_row) (d : account_dict) : result unit * account_dict :=
  match rows with
  | [] => (Ok tt, d)
  | row :: rest =>
      match row_step row d with
      | (Ok Stop, d') => (Ok tt, d')
      | (Ok _, d') => row_loop rest d'
      | (Raise e, d') => (Raise e, d')
      end
  end.

(** ** [summary_holdings] *)

#[global] Instance spec_float_eq_dec : EqDecision spec_float.
Proof. solve_decision. Defined.
#[global] Instance pyval_eq_dec : EqDecision pyval.
Proof. solve_decision. Defined.

(** *** Dictionaries keyed by Python values *)

(** What [==] and [hash] see of a key. Numbers count by their exact value,
    so that the int 1 and the float 1.0, and 0.0 and -0.0, are one key: a
    finite binary64 float is [m * 2^e], signed, with [-1074 <= e], and the
    value is kept times [2^1074], which is an integer. *)
Inductive key_class :=
  | KNone
  | KStr (s : string)
  | KNum (scaled : Z)
  | KInf (negative : bool)
  | KNan.

#[global] Instance key_class_eq_dec : EqDecision key_class.
Proof. solve_decision. Defined.

Definition key_of (v : pyval) : key_class :=
  match v with
  | VNone => KNone
  | VStr s => KStr s
  | VInt z => KNum (z * 2 ^ 1074)
  | VFloat (S754_zero _) => KNum 0
  | VFloat (S754_finite sign m e) =>
      KNum ((if sign then Zneg m else Zpos m) * 2 ^ (e + 1074))
  | VFloat (S754_infinity sign) => KInf sign
  | VFloat S754_nan => KNan
  end.

(** [a == b] for two keys: a NaN equals nothing. A dictionary also takes a
    key for found when it is the very object stored; values here have no
    identity, so a NaN met again counts as another NaN. *)
Definition key_eq (a b : pyval) : bool :=
  match key_of a with
  | KNan => false
  | k => bool_decide (k = key_of b)
  end.

Section PyDict.
Context {V : Type}.

(** [d.get(k)] *)
Fixpoint pydict_get (k : pyval) (d : list (pyval * V)) : option V :=
  match d with
  | [] => None
  | (k', v) :: rest => if key_eq k' k then Some v else pydict_get k rest
  end.

(** [k in d] *)
Definition pydict_mem (k : pyval) (d : list (pyval * V)) : bool :=
  match pydict_get k d with Some _ => true | None => false end.

(** [d[k] = v]: an entry under an equal key keeps the key it has. *)
Fixpoint pydict_set (k : pyval) (v : V) (d : list (pyval * V)) : list (pyval * V) :=
  match d with
  | [] => [(k, v)]
  | (k', v') :: rest =>
      if key_eq k' k then (k', v) :: rest else (k', v') :: pydict_set k v rest
  end.
End PyDict.

(** The inner dictionary kept per ticker. *)
Record holding := Holding {
  h_quantity : PyFloat.float;
  h_last_price : PyFloat.float;
  h_value : PyFloat.float
}.

(** [unique_stocks]: keyed by whatever [stock_dict["ticker"]] holds. *)
Abbreviation unique_stocks := (list (pyval * holding)).

(** [float(stock_dict[k])] *)
Definition float_field (s : stock) (k : string) : result PyFloat.float :=
  v ← getitem s k; py_float v.

(** The body of the inner loop. *)
Definition summary_step (u : unique_stocks) (s : stock) : result unique_stocks :=
  t ← getitem s "ticker";
  match pydict_get t u with
  | None =>
      q ← float_field s "quantity";
      p ← float_field s "last_price";
      v ← float_field s "value";
      Ok (pydict_set t {| h_quantity := q; h_last_price := p; h_value := v |} u)
  | Some h =>
      q ← float_field s "quantity";
      v ← float_field s "value";
      Ok (pydict_set t {| h_quantity := PyFloat.fadd (h_quantity h) q;
                         h_last_price := h_last_price h;
                         h_value := PyFloat.fadd (h_value h) v |} u)
  end.

Fixpoint summary_stocks (u : unique_stocks) (l : list stock) : result unique_stocks :=
  match l with
  | [] => Ok u
  | s :: rest => u' ← summary_step u s; summary_stocks u' rest
  end.

(** [for account_number in self.account_dict:] with
    [self.account_dict[account_number]["stocks"]], the entry's own list. *)
Fixpoint summary_accounts (u : unique_stocks) (d : account_dict) : result unique_stocks :=
  match d with
  | [] => Ok u
  | (_, a) :: rest => u' ← summary_stocks u (stocks a); summary_accounts u' rest
  end.

(** [summary_holdings()]: the returned dictionary and [self.account_dict]
    after the call. The text summary the function also builds is dropped by
    the source and is not modelled. *)
Definition summary_holdings (d : account_dict) : result unique_stocks * account_dict :=
  (summary_accounts [] d, d).

(** ** [get_list_of_accounts]: the two searches and the loop over options *)

Module AccountRegex.
Import PyStr Utf8.

Definition is_account_head (u : uchar) : bool := is_char "Z" u || is_decimal (point u).

Definition starts_with_close (l : list uchar) : bool :=
  match l with
  | u :: _ => is_char ")" u
  | [] => false
  end.

Definition after_open (prev : option uchar) : bool :=
  match prev with
  | Some p => is_char "(" p
  | None => false
  end.

(** The longest run of decimal digits [l] begins with, and what follows it. *)
Fixpoint span_decimals (l : list uchar) : list uchar * list uchar :=
  match l with
  | u :: l' =>
      if is_decimal (point u) then let '(d, r) := span_decimals l' in (u :: d, r)
      else ([], l)
  | [] => ([], [])
  end.

(** [re.search(r'(?<=\()(Z|\d)\d{6,}(?=\))', text)]: [prev] is the character
    before the position tried. At a position after a ["("] that holds a [Z]
    or a decimal digit, the greedy [\d{6,}] takes the whole run of digits
    that follows, and giving digits back cannot help the lookahead, so the
    position matches exactly when that run has six digits or more and a
    [")"] follows it. *)
Fixpoint search_account_units (prev : option uchar) (l : list uchar) : option (list uchar) :=
  match l with
  | [] => None
  | c :: rest =>
      let here :=
        if after_open prev && is_account_head c then
          let '(ds, after) := span_decimals rest in
          if (6 <=? List.length ds)%nat && starts_with_close after then Some (c :: ds) else None
        else None in
      match here with
      | Some tok => Some tok
      | None => search_account_units (Some c) rest
      end
  end.

Definition search_account (text : string) : option string :=
  option_map text_of (search_account_units None (uchars (chars text))).

Definition is_newline (c : ascii) : bool := Ascii.eqb c (ascii_of_nat 10).

(** The rest of [.+?(?=\()] once one character is taken: stop at the first
    ["("], fail on a newline, which [.] does not match. The bytes are read
    one by one: those of ["("] and of the newline are part of no other
    character. *)
Fixpoint lazy_until_open (l : list ascii) : option (list ascii) :=
  match l with
  | [] => None
  | c :: rest =>
      if Ascii.eqb c "("%char then Some []
      else if is_newline c then None
      else option_map (cons c) (lazy_until_open rest)
  end.

(** [re.search(r'^.+?(?=\()', text)] *)
Definition search_nickname (text : string) : option string :=
  match chars text with
  | [] => None
  | c :: rest =>
      if is_newline c then None
      else option_map (fun l => of_chars (c :: l)) (lazy_until_open rest)
  end.

End AccountRegex.

(** The body of the loop over the options of the dropdown, on the text of
    one option: the ledger and the local dictionary after it. *)
Definition list_accounts_step (set_flag : bool) (text : string)
    (st : account_dict * account_dict) : account_dict * account_dict :=
  let '(d, local_dict) := st in
  match AccountRegex.search_account text, AccountRegex.search_nickname text with
  | Some account_number, Some nick =>
      if set_flag then (snd (set_account_dict account_number None (Some nick) None false d), local_dict)
      else (d, dict_set account_number {| balance := PyFloat.f0; nickname := Some nick; stocks := [] |} local_dict)
  | _, _ => (d, local_dict)
  end.

(** The loop of [get_list_of_accounts] over the option texts read from the
    page, from an empty [local_dict]. *)
Definition list_accounts_loop (set_flag : bool) (texts : list string) (d : account_dict)
    : account_dict * account_dict :=
  fold_left (fun st text => list_accounts_step set_flag text st) texts (d, []).

(** ** The order workflow: [transaction] *)

(** The limit price and the order type, lines 543-570. *)
Inductive order_kind :=
  | Market
  | Limit (wanted_price : PyFloat.float).

Definition difference_price (last_price : PyFloat.float) : PyFloat.float :=
  if PyFloat.fgt last_price PyFloat.f0_1 then PyFloat.f0_01 else PyFloat.f0_0001.

Definition wanted_price (last_price : PyFloat.float) (action : string) (precision : Z)
    : PyFloat.float :=
  if String.eqb (PyStr.lower action) "buy"
  then PyFloat.round (PyFloat.fadd last_price (difference_price last_price)) precision
  else PyFloat.round (PyFloat.fsub last_price (difference_price last_price)) precision.

Definition choose_order (last_price : PyFloat.float) (extended : bool) (precision : Z)
    (action : string) : order_kind :=
  if PyFloat.flt last_price PyFloat.f1 || extended
  then Limit (wanted_price last_price action precision)
  else Market.

Module Page.

(** The elements of the page the workflow addresses, by the locator the
    source uses for each. *)
Inductive target :=
  | DestAcctDropdown                    (* #dest-acct-dropdown *)
  | AccountOption (account : string)    (* option with the text account.upper() *)
  | SymbolBox                           (* label Symbol *)
  | QuotePanel                          (* #quote-panel *)
  | LastPriceSpan                       (* #eq-ticket__last-price > span.last-price *)
  | ExpandedTicketButton                (* button View expanded ticket *)
  | CalculateSharesButton               (* button Calculate shares *)
  | ExtendedHoursText                   (* text Extended hours trading *)
  | ExtendedHoursOff                    (* text Extended hours trading: OffUntil 8:00 PM ET *)
  | ActionLabel                         (* .eq-ticket-action-label *)
  | ActionOption (name : string)        (* option named action.lower().title() *)
  | QuantityDiv                         (* #eqt-mts-stock-quatity div with Quantity *)
  | QuantityBox                         (* text Quantity *)
  | OrderTypeButton                     (* #dest-dropdownlist-button-ordertype > span:nth-child(1) *)
  | LimitOption                         (* option Limit *)
  | LimitPriceText                      (* text Limit price *)
  | LimitPriceBox                       (* label Limit price *)
  | OrderTypeContainer                  (* #order-type-container-id *)
  | MarketOption                        (* option Market *)
  | PreviewOrderButton                  (* button Preview order *)
  | PlaceOrderButton                    (* button Place order *)
  | ErrorCritical                       (* label Error, third div with critical *)
  | CloseDialogButton                   (* button Close dialog *)
  | InlineAlertRed                      (* .pvd-inline-alert__content font[color="red"] *)
  | PreviewAccount (account : string)   (* preview with the text account.upper() *)
  | PreviewSymbol (stock : string)      (* text Symbol{stock.upper()} *)
  | PreviewAction (name : string)       (* text Action{action.lower().title()} *)
  | PreviewQuantity (quantity : PyFloat.float)  (* text Quantity{quantity} *)
  | OrderReceivedText.                  (* text Order received *)

(** What is typed into a box: a string, or [str(x)] of a float, kept as
    the float. *)
Inductive typed :=
  | TypedStr (s : string)
  | TypedFloat (x : PyFloat.float).

(** The calls made on the page, indexed by what they return. *)
Inductive call : Type -> Type :=
  | WaitForLoadState : call unit
  | Url : call string
  | Goto (url : string) : call unit
  | Reload : call unit
  | Click (t : target) : call unit
  | Tick (t : target) : call unit                       (* .check() *)
  | Fill (t : target) (text : typed) : call unit
  | Press (t : target) (key : string) : call unit
  | WaitFor (t : target) (timeout : option Z) : call unit
  | IsVisible (t : target) : call bool
  | TextContent (t : target) (timeout : option Z) : call (option string).

(** A call made and what came back. *)
Inductive event :=
  | Ev {A : Type} (c : call A) (r : result A).

Definition event_ok (ev : event) : Prop :=
  match ev with
  | Ev _ (Ok _) => True
  | Ev _ (Raise _) => False
  end.

(** The browser: what a call returns or raises, given everything that
    happened before. *)
Definition browser : Type := forall A : Type, list event -> call A -> result A.

End Page.

#[global] Instance target_eq_dec : EqDecision Page.target.
Proof. solve_decision. Defined.

(** The second component of the tuple [transaction] returns: [None], a
    message string, or the exception object itself. *)
Inductive error_message :=
  | ErrText (s : string)
  | ErrObject (e : exn).

Definition order_url : string :=
  "https://digital.fidelity.com/ftgw/digital/trade-equity/index/orderEntry".

(** Lines 608-617: runs of spaces, newlines and tabs are dropped (the
    character before the first is the last one, [error_message[-1]]), then
    the word critical, then blanks at both ends. *)
Fixpoint filter_error_chars (prev : ascii) (l : list ascii) : list ascii :=
  match l with
  | [] => []
  | c :: r =>
      if (Ascii.eqb c " " && Ascii.eqb prev " ")
         || Ascii.eqb c (ascii_of_nat 10) || Ascii.eqb c (ascii_of_nat 9)
      then filter_error_chars c r
      else c :: filter_error_chars c r
  end.

Definition trim_error (msg : string) : string :=
  let l := PyStr.chars msg in
  let filtered := PyStr.of_chars (filter_error_chars (List.last l " "%char) l) in
  let filtered := PyStr.strip (PyStr.remove_sub "critical" filtered) in
  PyStr.remove_char (ascii_of_nat 10) filtered.

(** A computation on the page: from the history of calls so far to a result
    and the history after it. *)
Definition M (A : Type) : Type := list Page.event -> result A * list Page.event.

#[global] Instance M_ret : MRet M := fun A a h => (Ok a, h).
#[global] Instance M_bind : MBind M := fun A B k m h =>
  match m h with
  | (Ok a, h') => k a h'
  | (Raise e, h') => (Raise e, h')
  end.

(** [raise e] *)
Definition throw {A : Type} (e : exn) : M A := fun h => (Raise e, h).

(** A computation that does not touch the page. *)
Definition lift {A : Type} (r : result A) : M A := fun h => (r, h).

(** [try: m  except PlaywrightTimeoutError as toe: handler(toe)] *)
Definition try_timeout {A : Type} (m : M A) (handler : exn -> M A) : M A := fun h =>
  match m h with
  | (Raise e, h') => if is_timeout e then handler e h' else (Raise e, h')
  | r => r
  end.

Section Transaction.
Import Page.
Variable page : browser.

(** One call on the page, recorded in the history. *)
Definition perform {A : Type} (c : call A) : M A := fun h =>
  let r := page A h c in (r, h ++ [Ev c r]).

(** Lines 587-597 and 599-605: [try:] read an error text into
    [error_message] and close the dialog, [except Exception: pass]. When the
    read raises the variable keeps [current]; when the click raises the text
    read is kept. *)
Definition read_error (t : target) (current : option string) : M (option string) := fun h =>
  match perform (TextContent t (Some 2000)) h with
  | (Ok em, h1) => let '(_, h2) := perform (Click CloseDialogButton) h1 in (Ok em, h2)
  | (Raise _, h1) => (Ok current, h1)
  end.

(** The handler of the timeout on the Place order button, lines 583-620: the
    message of the returned tuple. [text_content] may hand back [None], which
    is not [""] and cannot be enumerated. *)
Definition extract_error : M string :=
  em ← read_error ErrorCritical (Some "");
  em ← (match em with
        | Some "" => read_error InlineAlertRed em
        | _ => mret em
        end);
  match em with
  | Some "" => mret "Could not retrieve error message from popup"
  | Some msg => mret (trim_error msg)
  | None => throw (Exn TypeError "'NoneType' object is not iterable")
  end.

(** Lines 514-526: [(extended, precision)]. *)
Definition extended_hours : M (bool * Z) :=
  shown ← perform (IsVisible ExtendedHoursText);
  if shown : bool then
    off ← perform (IsVisible ExtendedHoursOff);
    _ ← (if off : bool then perform (Tick ExtendedHoursOff) else mret tt);
    mret (true, 2)
  else mret (false, 3).

(** Lines 558-570: the clicks for the chosen order type. *)
Definition enter_order (o : order_kind) : M unit :=
  match o with
  | Limit price =>
      _ ← perform (Click OrderTypeButton);
      _ ← perform (Click LimitOption);
      _ ← perform (Click LimitPriceText);
      perform (Fill LimitPriceBox (TypedFloat price))
  | Market =>
      _ ← perform (Click OrderTypeContainer);
      perform (Click MarketOption)
  end.

(** Lines 623-634: whether the preview differs from the order, read left to
    right up to the first element that is not visible. *)
Definition preview_differs (stock : string) (quantity : PyFloat.float)
    (action account : string) : M bool :=
  a ← perform (IsVisible (PreviewAccount (PyStr.upper account)));
  if negb a then mret true else
  s ← perform (IsVisible (PreviewSymbol (PyStr.upper stock)));
  if negb s then mret true else
  c ← perform (IsVisible (PreviewAction (PyStr.title (PyStr.lower action))));
  if negb c then mret true else
  q ← perform (IsVisible (PreviewQuantity quantity));
  mret (negb q).

(** The body of the outer [try], lines 463-655. *)
Definition transaction_body (stock : string) (quantity : PyFloat.float)
    (action account : string) (dry : bool) : M (bool * option error_message) :=
  _ ← perform WaitForLoadState;
  url ← perform Url;
  _ ← (if negb (String.eqb url order_url) then perform (Goto order_url) else mret tt);
  _ ← perform (Click DestAcctDropdown);
  visible ← perform (IsVisible (AccountOption (PyStr.upper account)));
  _ ← (if negb visible
       then _ ← perform Reload; perform (Click DestAcctDropdown)
       else mret tt);
  _ ← perform (Click (AccountOption (PyStr.upper account)));
  _ ← perform (Click SymbolBox);
  _ ← perform (Fill SymbolBox (TypedStr stock));
  _ ← perform (Press SymbolBox "Enter");
  _ ← perform (WaitFor QuotePanel (Some 2000));
  text ← perform (TextContent LastPriceSpan None);
  last_price ←
    (match text with
     | Some s => mret (PyStr.remove_char "$" s)
     | None => throw (Exn AttributeError "'NoneType' object has no attribute 'replace'")
     end);
  expanded ← perform (IsVisible ExpandedTicketButton);
  _ ← (if expanded : bool
       then _ ← perform (Click ExpandedTicketButton);
            perform (WaitFor CalculateSharesButton (Some 5000))
       else mret tt);
  ep ← extended_hours;
  let '(extended, precision) := ep in
  _ ← perform (Click ActionLabel);
  _ ← perform (WaitFor (ActionOption (PyStr.title (PyStr.lower action))) None);
  _ ← perform (Click (ActionOption (PyStr.title (PyStr.lower action))));
  _ ← perform (Click QuantityDiv);
  _ ← perform (Fill QuantityBox (TypedFloat quantity));
  price ← lift (py_float (VStr last_price));
  _ ← enter_order (choose_order price extended precision action);
  _ ← perform (Click PreviewOrderButton);
  failed ←
    try_timeout
      (_ ← perform (WaitFor PlaceOrderButton (Some 5000)); mret None)
      (fun _ => msg ← extract_error; mret (Some msg));
  match failed with
  | Some msg => mret (false, Some (ErrText msg))
  | None =>
      differs ← preview_differs stock quantity action account;
      if differs : bool then mret (false, Some (ErrText "Order preview is not what is expected"))
      else if negb dry then
        _ ← perform (Click PlaceOrderButton);
        try_timeout
          (_ ← perform (WaitFor OrderReceivedText (Some 5000)); mret (true, None))
          (fun toe =>
             mret (false, Some (ErrText ("Timed out waiting for 'Order received': " ++ exn_text toe))))
      else mret (true, None)
  end.

(** [transaction(stock, quantity, action, account, dry)]: the outer handlers,
    lines 656-659, turn what the body raises into the returned tuple. *)
Definition transaction (stock : string) (quantity : PyFloat.float)
    (action account : string) (dry : bool) : M (bool * option error_message) := fun h =>
  match transaction_body stock quantity action account dry h with
  | (Ok r, h') => (Ok r, h')
  | (Raise e, h') =>
      if is_timeout e
      then (Ok (false, Some (ErrText ("Driver timed out. Order not completed: " ++ exn_text e))), h')
      else (Ok (false, Some (ErrObject e)), h')
  end.

End Transaction.

(** ** [get_stocks_in_account] and the accounts a sale skips *)

(** [d.get(k, None)] on a stock dictionary *)
Definition get_or_none (s : stock) (k : string) : pyval :=
  match s !! k with
  | Some v => v
  | None => VNone
  end.

(** [all_stock_dict]: ticker to quantity, keyed like [unique_stocks]. *)
Abbreviation stock_quantities := (list (pyval * pyval)).

(** The loop of [get_stocks_in_account] over an account's positions. *)
Fixpoint stocks_in (all_stock_dict : stock_quantities) (l : list stock) : stock_quantities :=
  match l with
  | [] => all_stock_dict
  | single_stock_dict :: rest =>
      let ticker := get_or_none single_stock_dict "ticker" in
      let quantity := get_or_none single_stock_dict "quantity" in
      if negb (is_none ticker) && negb (is_none quantity)
      then stocks_in (pydict_set ticker quantity all_stock_dict) rest
      else stocks_in all_stock_dict rest
  end.

(** [get_stocks_in_account(account_number)]; [None] is the [None] the source
    returns for an account that is not in the ledger. *)
Definition get_stocks_in_account (account_number : string) (d : account_dict)
    : option stock_quantities :=
  match dict_get account_number d with
  | Some a => Some (stocks_in [] (stocks a))
  | None => None
  end.

(** Lines 1077-1081 of [fidelity_transaction]: whether the account is passed
    over. The membership test is only reached for a sale, and on [None] it is
    a [TypeError]. *)
Definition skips_account (action stock_name account_number : string) (d : account_dict)
    : result bool :=
  if String.eqb (PyStr.lower action) "sell" then
    match get_stocks_in_account account_number d with
    | Some held => Ok (negb (pydict_mem (VStr stock_name) held))
    | None => Raise (Exn TypeError "argument of type 'NoneType' is not iterable")
    end
  else Ok false.

(** ** The header of the positions export *)

Definition required_elements : list string :=
  ["Account Number"; "Account Name"; "Symbol"; "Description"; "Quantity"; "Last Price";
   "Current Value"].

(** Lines 335-337: the set of header names is intersected with the set of
    required ones and the sizes are compared. *)
Definition header_ok (fieldnames : list string) : bool :=
  let intersection_set : gset string :=
    list_to_set fieldnames ∩ list_to_set required_elements in
  bool_decide (size intersection_set = List.length required_elements).

(** Lines 324-384 of [getAccountInfo] on the header and the rows read from
    the downloaded file. [reader.fieldnames] is [None] for a file without a
    line, and [set(None)] raises. *)
Definition parse_export (fieldnames : option (list string)) (rows : list csv_row)
    (d : account_dict) : result unit * account_dict :=
  match fieldnames with
  | None => (Raise (Exn TypeError "'NoneType' object is not iterable"), d)
  | Some names =>
      if header_ok names then row_loop rows d
      else (Raise (Exn Exception "Not enough elements in fidelity positions csv"), d)
  end.

(** ** Programs over a log of events *)

(** A computation against an environment that answers calls: from the log
    of events so far to a result and the log after it. [M] above is the
    instance for the order page. *)
Definition Prog (E A : Type) : Type := list E → result A * list E.

#[global] Instance prog_ret {E : Type} : MRet (Prog E) | 100 := fun A a h => (Ok a, h).
#[global] Instance prog_bind {E : Type} : MBind (Prog E) | 100 := fun A B k m h =>
  match m h with
  | (Ok a, h') => k a h'
  | (Raise e, h') => (Raise e, h')
  end.

(** [raise e] *)
Definition fail {E A : Type} (e : exn) : Prog E A := fun h => (Raise e, h).

(** [try: m  except Exception as e: handler(e)], after an [except] clause
    for [PlaywrightTimeoutError] when [on_timeout] is given. *)
Definition try_except {E A : Type} (m : Prog E A) (on_timeout : option (exn → Prog E A))
    (handler : exn → Prog E A) : Prog E A := fun h =>
  match m h with
  | (Raise e, h') =>
      match on_timeout with
      | Some timeout_handler =>
          if is_timeout e then timeout_handler e h' else handler e h'
      | None => handler e h'
      end
  | r => r
  end.

(** ** Logging in: [login], [login_2FA], [wait_for_loading_sign] *)

Module Site.

(** The elements addressed outside the order page. *)
Inductive target :=
  | UsernameBox                (* label Username *)
  | PasswordBox                (* label Password *)
  | LogInButton                (* button Log in *)
  | LoadingSign (i : nat)      (* the i-th of the three loading signs *)
  | Widget                     (* #dom-widget div, first *)
  | AuthenticatorHeading       (* heading Enter the code from your *)
  | CodeBox                    (* placeholder XXXXXX *)
  | DontAskLabel               (* label with Don't ask me again on this *)
  | ContinueButton             (* button Continue *)
  | AuthenticatorText          (* text Enter the code from your authenticator app ... *)
  | TryAnotherWayLink          (* link Try another way *)
  | TextMeButton               (* button Text me the code *)
  | SubmitButton.              (* button Submit *)

Inductive call : Type → Type :=
  | Goto (url : string) (timeout : option Z) : call unit
  | Url : call string
  | Click (t : target) : call unit
  | Fill (t : target) (text : string) : call unit
  | Tick (t : target) : call unit                          (* .check() *)
  | IsChecked (t : target) : call bool
  | IsVisible (t : target) : call bool
  | WaitHidden (t : target) (timeout : Z) : call unit      (* wait_for(state="hidden") *)
  | WaitVisible (t : target) (timeout : Z) : call unit     (* wait_for(state="visible") *)
  | WaitForTimeout (ms : Z) : call unit
  | WaitForUrl (url : string) (timeout : Z) : call unit
  | WaitForLoadState : call unit
  | OptionCount : call nat                                  (* from_select.locator("option").all() *)
  | InnerText (i : nat) : call string                       (* the i-th option's inner_text() *)
  | TotpNow (secret : string) : call string.                (* pyotp.TOTP(secret).now() *)

Inductive event :=
  | Ev {A : Type} (c : call A) (r : result A).

(** The site, the clock and the authenticator: what a call returns or
    raises, given everything that happened before. *)
Definition world : Type := ∀ A : Type, list event → call A → result A.

End Site.

Definition login_url : string := "https://digital.fidelity.com/prgw/digital/login/full-page".
Definition summary_url : string := "https://digital.fidelity.com/ftgw/digital/portfolio/summary".
Definition transfer_url : string :=
  "https://digital.fidelity.com/ftgw/digital/transfer/?quicktransfer=cash-shares".

Section Login.
Import Site.
Variable world : Site.world.

(** One call, recorded in the log. *)
Definition ask {A : Type} (c : call A) : Prog event A := fun h =>
  let r := world A h c in (r, h ++ [Ev c r]).

(** [wait_for_loading_sign(timeout)]: the three signs in turn. *)
Definition wait_for_loading_sign (timeout : Z) : Prog event unit :=
  _ ← ask (WaitHidden (LoadingSign 0) timeout);
  _ ← ask (WaitHidden (LoadingSign 1) timeout);
  ask (WaitHidden (LoadingSign 2) timeout).

(** Lines 177-188, 211-221 and 254-263: tick the box, read it back, and
    raise when it does not read checked. *)
Definition dont_ask_again : Prog event unit :=
  _ ← ask (Tick DontAskLabel);
  checked ← ask (IsChecked DontAskLabel);
  if negb checked
  then fail (Exn Exception "Cannot check 'Don't ask me again on this device' box")
  else mret tt.

(** The branch of [login] taken when the address holds login, lines 160-230. *)
Definition second_factor (totp_secret : option string) : Prog event (bool * bool) :=
  _ ← wait_for_loading_sign 30000;
  _ ← ask (WaitVisible Widget 5000);
  use_totp ←
    (match totp_secret with
     | Some _ => ask (IsVisible AuthenticatorHeading)
     | None => mret false
     end);
  match totp_secret, use_totp with
  | Some secret, true =>
      code ← ask (TotpNow secret);
      _ ← ask (Click CodeBox);
      _ ← ask (Fill CodeBox code);
      _ ← dont_ask_again;
      _ ← ask (Click ContinueButton);
      _ ← ask (WaitForUrl summary_url 5000);
      mret (true, true)
  | _, _ =>
      only_app ← ask (IsVisible AuthenticatorText);
      if only_app : bool
      then fail (Exn Exception
                   "Fidelity needs code from authenticator app but TOTP secret is not provided")
      else
        push ← ask (IsVisible TryAnotherWayLink);
        _ ← (if push : bool
             then _ ← dont_ask_again; ask (Click TryAnotherWayLink)
             else mret tt);
        _ ← ask (Click TextMeButton);
        _ ← ask (Click CodeBox);
        mret (true, false)
  end.

(** The body of the [try] of [login], lines 133-233. *)
Definition login_body (username password : string) (totp_secret : option string)
    : Prog event (bool * bool) :=
  _ ← ask (Goto login_url (Some 60000));
  _ ← ask (Click UsernameBox);
  _ ← ask (Fill UsernameBox username);
  _ ← ask (Click PasswordBox);
  _ ← ask (Fill PasswordBox password);
  _ ← ask (Click LogInButton);
  _ ← wait_for_loading_sign 30000;
  _ ← ask (WaitForTimeout 1000);
  _ ← wait_for_loading_sign 30000;
  url ← ask Url;
  if PyStr.contains "summary" url then mret (true, true) else
  let totp_secret :=
    match totp_secret with
    | Some secret => if String.eqb secret "NA" then None else Some secret
    | None => None
    end in
  url ← ask Url;
  if PyStr.contains "login" url then second_factor totp_secret
  else fail (Exn Exception "Cannot get to login page. Maybe other 2FA method present").

(** [login(username, password, totp_secret)]: both handlers return
    [(False, False)]. *)
Definition login (username password : string) (totp_secret : option string)
    : Prog event (bool * bool) :=
  try_except (login_body username password totp_secret)
    (Some (fun _ => mret (false, false))) (fun _ => mret (false, false)).

(** [login_2FA(code)] *)
Definition login_2FA (code : string) : Prog event bool :=
  try_except
    (_ ← ask (Fill CodeBox code);
     _ ← dont_ask_again;
     _ ← ask (Click SubmitButton);
     _ ← ask (WaitForUrl summary_url 5000);
     mret true)
    (Some (fun _ => mret false)) (fun _ => mret false).

End Login.

(** ** [get_list_of_accounts] on the transfers page *)

(** The body of the loop of [get_list_of_accounts] on the two texts read
    from one option: the search for the account number runs on the first
    reading, the search for the nickname on the second. *)
Definition account_option_step (set_flag : bool) (text_number text_nickname : string)
    (st : account_dict * account_dict) : account_dict * account_dict :=
  let '(d, local_dict) := st in
  match AccountRegex.search_account text_number,
        AccountRegex.search_nickname text_nickname with
  | Some account_number, Some nick =>
      if set_flag
      then (snd (set_account_dict account_number None (Some nick) None false d), local_dict)
      else (d, dict_set account_number
                 {| balance := PyFloat.f0; nickname := Some nick; stocks := [] |} local_dict)
  | _, _ => (d, local_dict)
  end.

Section Accounts.
Import Site.
Variable world : Site.world.

(** The loop over the options, lines 777-797, with the ledger and the local
    dictionary as state: they stay as the loop left them when a reading
    raises. *)
Fixpoint options_loop (set_flag : bool) (options : list nat)
    (st : account_dict * account_dict) (h : list event)
    : result unit * (account_dict * account_dict) * list event :=
  match options with
  | [] => (Ok tt, st, h)
  | i :: rest =>
      match ask world (InnerText i) h with
      | (Raise e, h1) => (Raise e, st, h1)
      | (Ok text_number, h1) =>
          match ask world (InnerText i) h1 with
          | (Raise e, h2) => (Raise e, st, h2)
          | (Ok text_nickname, h2) =>
              options_loop set_flag rest
                (account_option_step set_flag text_number text_nickname st) h2
          end
      end
  end.

(** [get_list_of_accounts(set_flag)]: what it returns ([None] is Python's
    [None]), the ledger and the log after it. The handler of line 804
    returns [None] for every exception. *)
Definition get_list_of_accounts (set_flag : bool) (d : account_dict) (h : list event)
    : option account_dict * account_dict * list event :=
  match (_ ← ask world WaitForLoadState;
         _ ← ask world (Goto transfer_url None);
         _ ← wait_for_loading_sign world 30000;
         ask world OptionCount) h with
  | (Raise _, h1) => (None, d, h1)
  | (Ok options, h1) =>
      match options_loop set_flag (seq 0 options) (d, []) h1 with
      | (Raise _, (d', _), h2) => (None, d', h2)
      | (Ok _, (d', local_dict), h2) =>
          (if set_flag then None else Some local_dict, d', h2)
      end
  end.

End Accounts.

(** ** The credentials: [fidelity_run] and [fidelity_init] *)

(** [s.split(sep)] for a one-character [sep]: [cur] holds, in reverse, the
    characters of the field being read. *)
Fixpoint split_chars (sep : ascii) (cur l : list ascii) : list (list ascii) :=
  match l with
  | [] => [rev cur]
  | c :: rest =>
      if Ascii.eqb c sep then rev cur :: split_chars sep [] rest
      else split_chars sep (c :: cur) rest
  end.

Definition str_split (sep : ascii) (s : string) : list string :=
  map PyStr.of_chars (split_chars sep [] (PyStr.chars s)).

(** Lines 959 and 966-968 of [fidelity_init]: the arguments [login] is
    called with. Without a colon [account[1]] is an [IndexError], which the
    handler of line 1002 turns into the [None] that [fidelity_init] returns. *)
Definition login_arguments (account : string) : result (string * string * option string) :=
  match str_split ":" account with
  | username :: password :: rest =>
      Ok (username, password,
          match rest with
          | totp_secret :: _ => Some totp_secret
          | [] => None
          end)
  | _ => Raise (Exn IndexError "list index out of range")
  end.

(** Lines 904-908 of [fidelity_run], on the text of the variable. *)
Definition fidelity_accounts (env : string) : list string :=
  str_split "," (PyStr.strip env).

(** [accounts.index(account)]; [None] stands for its [ValueError]. *)
Fixpoint list_index (account : string) (accounts : list string) : option nat :=
  match accounts with
  | [] => None
  | a :: rest => if String.eqb a account then Some 0%nat else S <$> list_index account rest
  end.

(** Lines 915-918: the number in the name Fidelity n of each login. *)
Definition login_numbers (accounts : list string) : list (option nat) :=
  map (λ account, (λ index, index + 1)%nat <$> list_index account accounts) accounts.

(** ** Sample data *)

(** The position and the ledger of the spec's scenario: two NVDA shares at
    120.00 in account Z12345678. *)
Definition nvda : stock :=
  create_stock_dict "NVDA" (PyFloat.of_Z 2) (PyFloat.of_Z 120) (PyFloat.of_Z 240).

Definition individual : account :=
  {| balance := PyFloat.of_Z 240; nickname := Some "Individual"; stocks := [nvda] |}.

Definition sample_ledger : account_dict := [("Z12345678", individual)].

(** A page on which every step succeeds: the order page is already open,
    the quote panel prints [price], the ticket is expanded, every preview
    text is visible, and extended hours trading shows or not. *)
Definition smooth_page (price : string) (extended : bool) : Page.browser :=
  fun A _ c =>
    match c in Page.call T return result T with
    | Page.Url => Ok order_url
    | Page.IsVisible t =>
        Ok match t with
           | Page.ExpandedTicketButton | Page.ExtendedHoursOff => false
           | Page.ExtendedHoursText => extended
           | _ => true
           end
    | Page.TextContent t _ =>
        Ok (Some match t with
                 | Page.LastPriceSpan => price
                 | _ => " critical  Order  rejected "
                 end)
    | _ => Ok tt
    end.

Definition regular_hours_page : Page.browser := smooth_page "$0.0525" false.
Definition extended_hours_page : Page.browser := smooth_page "$120.00" true.

(** The smooth page, except that one call raises [e]. *)
Definition failing_page (bad : Page.call unit) (e : exn) : Page.browser :=
  fun A h c =>
    match c in Page.call T return Page.call unit → result T → result T with
    | Page.WaitFor t timeout => fun bad dflt =>
        match bad with
        | Page.WaitFor t' _ =>
            if bool_decide (t = t') then Raise e else dflt
        | _ => dflt
        end
    | Page.Click t => fun bad dflt =>
        match bad with
        | Page.Click t' => if bool_decide (t = t') then Raise e else dflt
        | _ => dflt
        end
    | _ => fun _ dflt => dflt
    end bad (smooth_page "$120.00" false A h c).

(** Rows of the positions export. The first is the row of the spec's
    scenario; the others differ from it in one cell. *)
Definition nvda_row : csv_row :=
  {| Account_Number := Some "Z12345678"; Account_Name := Some "Individual";
     Symbol := Some "NVDA"; Quantity := Some "2"; Last_Price := Some "$120.00";
     Current_Value := Some "$240.00" |}.

Definition with_account (acct : option string) (row : csv_row) : csv_row :=
  {| Account_Number := acct; Account_Name := Account_Name row; Symbol := Symbol row;
     Quantity := Quantity row; Last_Price := Last_Price row;
     Current_Value := Current_Value row |}.

Definition with_symbol (sym : option string) (row : csv_row) : csv_row :=
  {| Account_Number := Account_Number row; Account_Name := Account_Name row; Symbol := sym;
     Quantity := Quantity row; Last_Price := Last_Price row;
     Current_Value := Current_Value row |}.

Definition with_quantity (quantity : option string) (row : csv_row) : csv_row :=
  {| Account_Number := Account_Number row; Account_Name := Account_Name row;
     Symbol := Symbol row; Quantity := quantity; Last_Price := Last_Price row;
     Current_Value := Current_Value row |}.

Definition with_value (val : option string) (row : csv_row) : csv_row :=
  {| Account_Number := Account_Number row; Account_Name := Account_Name row;
     Symbol := Symbol row; Quantity := Quantity row; Last_Price := Last_Price row;
     Current_Value := val |}.

(** Two accounts that each hold a cash position: the export leaves quantity
    and last price of such a row blank, so the loop stores quantity 1 and the
    value as last price. *)
Definition cash_row (acct value : string) : csv_row :=
  {| Account_Number := Some acct; Account_Name := Some "Individual";
     Symbol := Some "SPAXX**"; Quantity := Some ""; Last_Price := Some "";
     Current_Value := Some value |}.

Definition cash_ledger : account_dict :=
  (row_loop [cash_row "Z11111111" "$10.00"; cash_row "Z22222222" "$20.00"] []).2.

(** ** Vocabulary of the statements *)

(** [x if x is not None else dflt] *)
Definition from_opt {A : Type} (dflt : A) (o : option A) : A :=
  match o with Some a => a | None => dflt end.

(** A position with its four fields present and typed as the docstring of
    [set_account_dict] lists them: a string ticker and float quantity, last
    price and value. *)
Definition well_typed (s : stock) : Prop :=
  ∃ t q p v, s !! "ticker" = Some (VStr t) ∧ s !! "quantity" = Some (VFloat q) ∧
             s !! "last_price" = Some (VFloat p) ∧ s !! "value" = Some (VFloat v).

(** An NVDA position whose quantity is the int 2 instead of the float 2.0. *)
Definition nvda_int_quantity : stock := <["quantity" := VInt 2]> nvda.

(** An NVDA position whose value is the text 240.0 instead of the float. *)
Definition nvda_text_value : stock := <["value" := VStr "240.0"]> nvda.

(** A ledger of one account whose two NVDA positions are not typed as the
    docstring has them: an int quantity in one, a text value in the other. *)
Definition mixed_ledger : account_dict :=
  [("Z12345678",
    {| balance := PyFloat.of_Z 480; nickname := Some "Individual";
       stocks := [nvda_int_quantity; nvda_text_value] |})].

(** The float a value stands for when it is added to a float: a float is
    itself and an int is the float nearest to it, when that float is finite;
    text and [None] stand for none. *)
Definition as_number (v : pyval) : option PyFloat.float :=
  match v with
  | VFloat x => Some x
  | VInt z => match PyFloat.of_Z z with S754_infinity _ => None | x => Some x end
  | VStr _ | VNone => None
  end.

(** The decision and the limit price on prices as the quote panel prints them. *)
Definition order_for (text : string) (extended : bool) (action : string)
    : option order_kind :=
  match FloatParse.float_of_string (PyStr.remove_char "$" text) with
  | Some price => Some (choose_order price extended (if extended then 2 else 3) action)
  | None => None
  end.

(** [returns m Q]: run from any history, [m] only appends to it, and when
    it returns a value normally the value and the appended events satisfy
    [Q]. *)
Definition returns {A : Type} (m : M A) (Q : A → list Page.event → Prop) : Prop :=
  ∀ h, ∃ new, (m h).2 = h ++ new ∧ ∀ a, (m h).1 = Ok a → Q a new.

(** A computation whose normal return means that every call it made
    succeeded. *)
Definition clean {A : Type} (m : M A) : Prop :=
  returns m (λ _ new, Forall Page.event_ok new).

(** What [transaction] promises of a returned tuple: success comes with no
    message and after calls that all succeeded; failure comes with a message. *)
Definition settled (r : bool * option error_message) (new : list Page.event) : Prop :=
  if r.1 then r.2 = None ∧ Forall Page.event_ok new else r.2 ≠ None.

(** [only_events m P]: run from any history, [m] only appends to it, and
    every event it appends satisfies [P], whether [m] returns or raises. *)
Definition only_events {A : Type} (m : M A) (P : Page.event → Prop) : Prop :=
  ∀ h, ∃ new, (m h).2 = h ++ new ∧ Forall P new.

(** Any event but a click on the Place order button. *)
Definition not_place_order (ev : Page.event) : Prop :=
  match ev with
  | Page.Ev c _ =>
      match c with
      | Page.Click Page.PlaceOrderButton => False
      | _ => True
      end
  end.

(** The sign bit of [x] is [s], or [x] is NaN. *)
Definition sign_is (s : bool) (x : spec_float) : Prop :=
  match x with
  | S754_zero s' | S754_infinity s' | S754_finite s' _ _ => s' = s
  | S754_nan => True
  end.

(** Zero or more, or NaN. *)
Definition not_negative (x : PyFloat.float) : Prop :=
  PyFloat.nonneg x = true ∨ x = S754_nan.

(** No minus sign among the characters. *)
Definition no_minus (l : list ascii) : Prop := Forall (λ c, c ≠ "-"%char) l.

(** The values the loop hands to [float()]: the ints 0 and 1, or a cell with
    its minus signs removed. *)
Definition unsigned_value (v : pyval) : Prop :=
  v = VInt 0 ∨ v = VInt 1 ∨ ∃ s, v = VStr (PyStr.remove_char "-" s).

(** A stripped cell that is blank or that [float()] accepts. *)
Definition float_or_blank (s : string) : bool :=
  (PyStr.len s =? 0)%nat || bool_decide (is_Some (FloatParse.float_of_string s)).

(** A value or last-price cell once its dollar and minus signs are
    removed, and a quantity cell once its minus signs are removed. *)
Definition money_cell (x : option string) : string :=
  PyStr.remove_char "-" (PyStr.remove_char "$" (str_cell x)).

Definition count_cell (x : option string) : string :=
  PyStr.remove_char "-" (str_cell x).

(** A row that ends the loop: its account number holds the letters and, as
    the disclaimer lines under the table do. *)
Definition is_disclaimer (row : csv_row) : bool :=
  match Account_Number row with
  | Some acct => PyStr.contains "and" acct
  | None => false
  end.

(** The rows the loop reads: those before the first that ends it. *)
Fixpoint rows_read (rows : list csv_row) : list csv_row :=
  match rows with
  | [] => []
  | row :: rest => if is_disclaimer row then [] else row :: rows_read rest
  end.

(** A row the loop passes over before it reads a number: it has no account
    number, or an account number that begins with Y, or a Symbol that holds
    Pending, or a value cell that is blank once stripped. *)
Definition row_passed (row : csv_row) : bool :=
  match Account_Number row with
  | None => true
  | Some EmptyString => false
  | Some (String c _) =>
      Ascii.eqb c "Y" || PyStr.contains "Pending" (str_cell (Symbol row))
      || (PyStr.len (money_cell (Current_Value row)) =? 0)%nat
  end.

(** A row whose numbers can be read: an account number that is not the
    empty string, a value that [float()] accepts or that reads n/a, and a
    last price and a quantity that are blank or that [float()] accepts, each
    cell once stripped. *)
Definition row_numeric (row : csv_row) : bool :=
  negb (bool_decide (Account_Number row = Some "")) &&
  (float_or_blank (money_cell (Current_Value row))
   || String.eqb (PyStr.lower (money_cell (Current_Value row))) "n/a") &&
  float_or_blank (money_cell (Last_Price row)) &&
  float_or_blank (count_cell (Quantity row)).

(** A row the loop gets through without an exception. *)
Definition row_readable (row : csv_row) : bool :=
  is_disclaimer row || row_passed row || row_numeric row.

(** Every position of the ledger, in the order the loops visit them. *)
Definition positions (d : account_dict) : list stock :=
  flat_map (λ entry, stocks entry.2) d.

(** The position [s] carries the ticker [t]: its ticker is a key equal to
    [t]. *)
Definition carries (t : pyval) (s : stock) : bool :=
  match s !! "ticker" with
  | Some k => key_eq k t
  | None => false
  end.

(** The positions of [l] that carry the ticker [t], in order. *)
Definition held (t : pyval) (l : list stock) : list stock :=
  filter (λ s, carries t s = true) l.

(** [float()] of a field of a position, 0.0 where it gives none. *)
Definition number_of (k : string) (s : stock) : PyFloat.float :=
  match float_field s k with
  | Ok f => f
  | Raise _ => PyFloat.f0
  end.

(** The sum [((x0 + x1) + x2) + ...] of [float()] of a field over positions. *)
Definition sum_of (k : string) (first : stock) (rest : list stock) : PyFloat.float :=
  fold_left PyFloat.fadd (map (number_of k) rest) (number_of k first).

(** [float()] accepts the field [k] of the position. *)
Definition convertible (s : stock) (k : string) : bool :=
  match float_field s k with
  | Ok _ => true
  | Raise _ => false
  end.

(** A position the summary can take in after the positions [seen]: it has a
    ticker, [float()] accepts its quantity and its value, and also its last
    price when no position of [seen] carries its ticker. *)
Definition summable (seen : list stock) (s : stock) : bool :=
  match s !! "ticker" with
  | None => false
  | Some t =>
      convertible s "quantity" &&
      match held t seen with
      | [] => convertible s "last_price"
      | _ => true
      end &&
      convertible s "value"
  end.

(** Every position of [l] is summable after those before it, [seen] first. *)
Fixpoint all_summable (seen l : list stock) : bool :=
  match l with
  | [] => true
  | s :: rest => summable seen s && all_summable (seen ++ [s]) rest
  end.

(** A float field of a position. *)
Definition float_of (k : string) (s : stock) : PyFloat.float :=
  match s !! k with
  | Some (VFloat f) => f
  | _ => PyFloat.f0
  end.

(** The sum [((x0 + x1) + x2) + ...] of a field over positions. *)
Definition total (k : string) (first : stock) (rest : list stock) : PyFloat.float :=
  fold_left PyFloat.fadd (map (float_of k) rest) (float_of k first).

(** What the summary holds for a ticker after the positions [l]. *)
Definition summarized (t : pyval) (l : list stock) : option holding :=
  match held t l with
  | [] => None
  | first :: rest =>
      Some {| h_quantity := sum_of "quantity" first rest;
              h_last_price := number_of "last_price" first;
              h_value := sum_of "value" first rest |}
  end.

(** The invariant of the loops: the dictionary built so far holds, for every
    key, the summary of the positions visited so far. *)
Definition summarizes (u : unique_stocks) (l : list stock) : Prop :=
  ∀ t, pydict_get t u = summarized t l.

(** Characters that are decimal digits. *)
Definition decimals (l : list Utf8.uchar) : Prop :=
  Forall (λ u, Utf8.is_decimal (Utf8.point u) = true) l.

(** What the first pattern takes for an account number: a [Z] or a decimal
    digit, then six decimal digits or more. *)
Definition account_token (tok : list Utf8.uchar) : Prop :=
  ∃ c ds, tok = c :: ds ∧ AccountRegex.is_account_head c = true ∧
          decimals ds ∧ (6 ≤ List.length ds)%nat.

(** [tok] stands in [text] between an opening and a closing parenthesis. *)
Definition parenthesized (tok text : list Utf8.uchar) : Prop :=
  ∃ pre open close post,
    text = pre ++ open :: tok ++ close :: post ∧
    Utf8.is_char "(" open = true ∧ Utf8.is_char ")" close = true.

(** The character before the position a search is at, as a list. *)
Definition before (prev : option Utf8.uchar) : list Utf8.uchar :=
  match prev with
  | Some p => [p]
  | None => []
  end.

(** An identifier that is purely numeric with six digits or more, or a [Z]
    followed by six digits or more: the pattern as the spec words it. *)
Definition spec_account_token (tok : list Utf8.uchar) : Prop :=
  (∃ z ds, tok = z :: ds ∧ Utf8.is_char "Z" z = true ∧ decimals ds ∧
           (6 ≤ List.length ds)%nat) ∨
  (decimals tok ∧ (6 ≤ List.length tok)%nat).

(** The account numbers of the ledger, in order. *)
Definition keys (d : account_dict) : list string := map fst d.

(** The balance of an account is the sum of the values of its positions,
    added in the order of the list. *)
Definition balance_is_total (a : account) : Prop :=
  ∃ first rest, stocks a = first :: rest ∧ balance a = total "value" first rest.

(** [d'] keeps every account of [d] under its nickname, with the positions
    it had and possibly more after them. *)
Definition extends_ledger (d d' : account_dict) : Prop :=
  ∀ k a, dict_get k d = Some a →
    ∃ a', dict_get k d' = Some a' ∧ nickname a' = nickname a ∧
          ∃ added, stocks a' = stocks a ++ added.

(** The quantity [get_stocks_in_account] records for the ticker [t] at the
    position [s]: none when the ticker or the quantity is missing or [None],
    or when the ticker is another key than [t]. *)
Definition quantity_for (t : pyval) (s : stock) : option pyval :=
  if negb (is_none (get_or_none s "ticker")) && negb (is_none (get_or_none s "quantity"))
     && key_eq (get_or_none s "ticker") t
  then Some (get_or_none s "quantity")
  else None.

(** What an event of the site shows of its answer: an exception, a boolean,
    or some other value. *)
Inductive answer := Raised | Said (b : bool) | Returned.

Definition site_answer (ev : Site.event) : answer :=
  match ev with
  | Site.Ev c r =>
      match c in Site.call T return result T → answer with
      | Site.IsChecked _ | Site.IsVisible _ =>
          fun r => match r with Ok b => Said b | Raise _ => Raised end
      | _ => fun r => match r with Ok _ => Returned | Raise _ => Raised end
      end r
  end.

(** Every call of the site succeeded. *)
Definition site_ok (ev : Site.event) : Prop := site_answer ev ≠ Raised.

(** [guarded guard trigger prev l]: in the log [l], entered after the event
    [prev], every event that is a [trigger] comes right after an event that
    is a [guard]. *)
Fixpoint guarded {E : Type} (guard trigger : E → bool) (prev : option E) (l : list E)
    : bool :=
  match l with
  | [] => true
  | ev :: rest =>
      (if trigger ev
       then match prev with Some p => guard p | None => false end
       else true)
      && guarded guard trigger (Some ev) rest
  end.

(** The box Don't ask me again was read back as checked. *)
Definition read_checked (ev : Site.event) : bool :=
  match ev with
  | Site.Ev c r =>
      match c in Site.call T return result T → bool with
      | Site.IsChecked Site.DontAskLabel =>
          fun r => match r with Ok true => true | _ => false end
      | _ => fun _ => false
      end r
  end.

(** A click that goes on with the second factor: Continue, Submit or Try
    another way. *)
Definition goes_on (ev : Site.event) : bool :=
  match ev with
  | Site.Ev c _ =>
      match c with
      | Site.Click Site.ContinueButton | Site.Click Site.SubmitButton
      | Site.Click Site.TryAnotherWayLink => true
      | _ => false
      end
  end.

(** An event that is not a request for a one-time code, or one made with
    the secret [totp_secret], which then is not the placeholder NA. *)
Definition totp_from (totp_secret : option string) (ev : Site.event) : Prop :=
  match ev with
  | Site.Ev c _ =>
      match c with
      | Site.TotpNow secret => totp_secret = Some secret ∧ secret ≠ "NA"
      | Site.Fill Site.CodeBox _ | Site.Click Site.ContinueButton =>
          ∃ secret, totp_secret = Some secret ∧ secret ≠ "NA"
      | _ => True
      end
  end.

(** An entry as [get_list_of_accounts] makes them: an account number the
    pattern accepts, balance 0.0, a nickname and no positions. *)
Definition listed (entry : string * account) : Prop :=
  (∃ tok, entry.1 = Utf8.text_of tok ∧ account_token tok) ∧
  balance entry.2 = PyFloat.f0 ∧ is_Some (nickname entry.2) ∧ stocks entry.2 = [].

(** A transfers page that loads, shows the options [texts] and reads each
    of them the same every time. *)
Definition steady_site (texts : list string) (world : Site.world) : Prop :=
  (∀ h, world unit h Site.WaitForLoadState = Ok tt) ∧
  (∀ h, world unit h (Site.Goto transfer_url None) = Ok tt) ∧
  (∀ h i, world unit h (Site.WaitHidden (Site.LoadingSign i) 30000) = Ok tt) ∧
  (∀ h, world nat h Site.OptionCount = Ok (List.length texts)) ∧
  (∀ h i text, texts !! i = Some text → world string h (Site.InnerText i) = Ok text).

(** A transfers page with the options [texts]. *)
Definition transfers_page (texts : list string) : Site.world := λ A h c,
  match c in Site.call T return result T with
  | Site.OptionCount => Ok (List.length texts)
  | Site.InnerText i =>
      match texts !! i with
      | Some text => Ok text
      | None => Raise (Exn IndexError "list index out of range")
      end
  | Site.Url | Site.TotpNow _ => Ok ""
  | Site.IsChecked _ | Site.IsVisible _ => Ok true
  | _ => Ok tt
  end.

(** [runs m Q]: run from any history, [m] only appends to it, and what it
    returns or raises satisfies [Q] together with the appended events. *)
Definition runs {A : Type} (m : M A) (Q : result A → list Page.event → Prop) : Prop :=
  ∀ h, ∃ new, (m h).2 = h ++ new ∧ Q (m h).1 new.

(** The four checks of the order preview, each answered visible. *)
Definition preview_shown (stock : string) (quantity : PyFloat.float)
    (action account : string) : list Page.event :=
  [Page.Ev (Page.IsVisible (Page.PreviewAccount (PyStr.upper account))) (Ok true);
   Page.Ev (Page.IsVisible (Page.PreviewSymbol (PyStr.upper stock))) (Ok true);
   Page.Ev (Page.IsVisible (Page.PreviewAction (PyStr.title (PyStr.lower action)))) (Ok true);
   Page.Ev (Page.IsVisible (Page.PreviewQuantity quantity)) (Ok true)].

(** The log [new] holds one click on the Place order button, made right
    after the preview showed the order: [pre] came before the four checks,
    [click] is what the click gave and [post] what came after it. *)
Definition submitted (stock : string) (quantity : PyFloat.float) (action account : string)
    (new pre : list Page.event) (click : result unit) (post : list Page.event) : Prop :=
  new = pre ++ preview_shown stock quantity action account
          ++ Page.Ev (Page.Click Page.PlaceOrderButton) click :: post ∧
  Forall not_place_order pre ∧ Forall not_place_order post.

(** What the log of an order shows: no click on the Place order button, and
    then no success of a real order; or, in a real order, one click on it
    right after the preview showed the order, success coming only with the
    click done and the text Order received seen right after it. *)
Definition order_log (stock : string) (quantity : PyFloat.float) (action account : string)
    (dry : bool) (r : result (bool * option error_message)) (new : list Page.event) : Prop :=
  (Forall not_place_order new ∧ (dry = false → ∀ msg, r ≠ Ok (true, msg))) ∨
  (dry = false ∧
   ∃ pre click post,
     submitted stock quantity action account new pre click post ∧
     ∀ msg, r = Ok (true, msg) →
       click = Ok tt ∧
       post = [Page.Ev (Page.WaitFor Page.OrderReceivedText (Some 5000)) (Ok tt)]).

(** [sep.join(fields)] *)
Fixpoint join_chars (sep : ascii) (fields : list (list ascii)) : list ascii :=
  match fields with
  | [] => []
  | f :: rest =>
      match rest with
      | [] => f
      | _ :: _ => f ++ sep :: join_chars sep rest
      end
  end.

Definition str_join (sep : ascii) (fields : list string) : string :=
  PyStr.of_chars (join_chars sep (map PyStr.chars fields)).

(** No character of [f] is the separator. *)
Definition sep_free (sep : ascii) (f : list ascii) : Prop :=
  existsb (Ascii.eqb sep) f = false.

(** A text without a colon. *)
Definition colon_free (s : string) : Prop := PyStr.has_char ":" s = false.

(** Any event but a click on the Preview order button. *)
Definition not_preview (ev : Page.event) : Prop :=
  match ev with
  | Page.Ev c _ =>
      match c with
      | Page.Click Page.PreviewOrderButton => False
      | _ => True
      end
  end.

(** The calls that enter an order of the kind [o] on the page, each of
    them done: for a limit order the last one types the limit price. *)
Definition order_events (o : order_kind) : list Page.event :=
  match o with
  | Limit price =>
      [Page.Ev (Page.Click Page.OrderTypeButton) (Ok tt);
       Page.Ev (Page.Click Page.LimitOption) (Ok tt);
       Page.Ev (Page.Click Page.LimitPriceText) (Ok tt);
       Page.Ev (Page.Fill Page.LimitPriceBox (Page.TypedFloat price)) (Ok tt)]
  | Market =>
      [Page.Ev (Page.Click Page.OrderTypeContainer) (Ok tt);
       Page.Ev (Page.Click Page.MarketOption) (Ok tt)]
  end.

(** What the page showed in the events [before]: the quote panel gave
    [text] for the last price, which [float()] reads as [price] once the
    dollar sign is removed, and the words Extended hours trading were
    visible or not, as [extended] says. *)
Definition quoted (text : string) (price : PyFloat.float) (extended : bool)
    (before : list Page.event) : Prop :=
  Page.Ev (Page.TextContent Page.LastPriceSpan None) (Ok (Some text)) ∈ before ∧
  py_float (VStr (PyStr.remove_char "$" text)) = Ok price ∧
  Page.Ev (Page.IsVisible Page.ExtendedHoursText) (Ok extended) ∈ before.

(** The order [o] is the one chosen for what the page showed in [before]. *)
Definition chosen (action : string) (before : list Page.event) (o : order_kind) : Prop :=
  ∃ text price extended,
    quoted text price extended before ∧
    o = choose_order price extended (if extended then 2 else 3) action.

(** [F] seen from after the events [pre]. *)
Definition after (pre : list Page.event) (F : list Page.event → order_kind → Prop)
    : list Page.event → order_kind → Prop :=
  λ before o, F (pre ++ before) o.

(** [F] stays true when events are added. *)
Definition grows (F : list Page.event → order_kind → Prop) : Prop :=
  ∀ b b' o, (∀ ev, ev ∈ b → ev ∈ b') → F b o → F b' o.

(** [entered F new]: the log [new] holds no click on Preview order, or it
    holds one, made right after the calls that enter an order [o], and [F]
    holds of [o] and the events before those calls. *)
Definition entered (F : list Page.event → order_kind → Prop) (new : list Page.event)
    : Prop :=
  Forall not_preview new ∨
  ∃ before o click post,
    new = before ++ order_events o
            ++ Page.Ev (Page.Click Page.PreviewOrderButton) click :: post ∧
    F before o ∧ Forall not_preview before ∧ Forall not_preview post.

(** [enters m F]: run from any history, [m] only appends to it, and what it
    appends satisfies [entered F], however [m] ends. *)
Definition enters {A : Type} (m : M A) (F : list Page.event → order_kind → Prop) : Prop :=
  ∀ h, ∃ new, (m h).2 = h ++ new ∧ entered F new.

(** * Properties *)

(** ** Ordered dictionaries *)

Section OrderedDictFacts.
Context {K V : Type} `{EqDecision K}.
Implicit Types (k : K) (v : V) (d : list (K * V)).

Lemma odict_get_set_eq k v d : odict_get k (odict_set k v d) = Some v.
Proof.
  induction d as [|[k' v'] d IH]; simpl.
  - rewrite bool_decide_eq_true_2; done.
  - case_bool_decide; simpl.
    + rewrite bool_decide_eq_true_2; done.
    + rewrite bool_decide_eq_false_2; done.
Qed.

Lemma odict_get_set_ne k k' v d : k ≠ k' → odict_get k' (odict_set k v d) = odict_get k' d.
Proof.
  intros Hne. induction d as [|[k0 v0] d IH]; simpl.
  - rewrite bool_decide_eq_false_2; [done|congruence].
  - case_bool_decide as Hk; simpl.
    + subst k0. rewrite !bool_decide_eq_false_2; [done|congruence..].
    + case_bool_decide; [done|apply IH].
Qed.

Lemma odict_set_keys k v d :
  odict_mem k d = true → map fst (odict_set k v d) = map fst d.
Proof.
  unfold odict_mem. induction d as [|[k0 v0] d IH]; simpl; [done|].
  case_bool_decide as Hk; simpl; intros Hm.
  - by subst.
  - f_equal. by apply IH.
Qed.

Lemma odict_set_set k v v' d : odict_set k v' (odict_set k v d) = odict_set k v' d.
Proof.
  induction d as [|[k0 v0] d IH]; simpl.
  - rewrite bool_decide_eq_true_2; done.
  - case_bool_decide as Hk; simpl.
    + rewrite bool_decide_eq_true_2; done.
    + rewrite bool_decide_eq_false_2; [|done]. by rewrite IH.
Qed.

Lemma odict_mem_set k k' v d : odict_mem k' (odict_set k v d) = bool_decide (k' = k) || odict_mem k' d.
Proof.
  unfold odict_mem. destruct (decide (k' = k)) as [->|Hne].
  - rewrite odict_get_set_eq. by rewrite bool_decide_eq_true_2.
  - rewrite odict_get_set_ne by congruence. by rewrite bool_decide_eq_false_2.
Qed.

End OrderedDictFacts.

(** ** The ledger: [set_account_dict] and [add_stock_to_account_dict] *)

(** C3. For an account number already in the ledger, [set_account_dict] with
    [overwrite=False] returns [False] and leaves the ledger as it is; with
    [overwrite=True] and a stock list that passes [validate_stocks] it returns
    [True] and the account's entry becomes exactly the balance, nickname and
    position list passed (omitted ones reading 0.0 and the empty list), every
    other entry and the order of the keys being kept. *)
Theorem set_account_dict_existing (d : account_dict) (account_num : string) (a : account)
    (bal : option PyFloat.float) (nick : option string) (stks : option (list stock)) :
  dict_get account_num d = Some a →
  set_account_dict account_num bal nick stks false d = (false, d) ∧
  (validate_stocks stks = true →
   ∃ d', set_account_dict account_num bal nick stks true d = (true, d') ∧
         dict_get account_num d' =
           Some {| balance := from_opt PyFloat.f0 bal; nickname := nick;
                   stocks := from_opt [] stks |} ∧
         (∀ k, k ≠ account_num → dict_get k d' = dict_get k d) ∧
         map fst d' = map fst d).
Proof.
  intros Hget. split.
  - unfold set_account_dict, dict_mem, odict_mem. unfold dict_get in Hget.
    rewrite Hget. reflexivity.
  - intros Hvalid. unfold set_account_dict. rewrite Hvalid. simpl.
    eexists. split; [reflexivity|]. unfold dict_get, dict_set.
    split; [|split].
    + rewrite odict_get_set_eq. by destruct bal, stks.
    + intros k Hk. apply odict_get_set_ne. congruence.
    + apply odict_set_keys. unfold odict_mem. unfold dict_get in Hget. by rewrite Hget.
Qed.

Lemma add_stock_appends (d : account_dict) (account_num : string)
    (a : account) (s : stock) (v : PyFloat.float) :
  dict_get account_num d = Some a →
  s !! "value" = Some (VFloat v) →
  add_stock_to_account_dict account_num s d =
    (Ok true,
     dict_set account_num
       {| balance := PyFloat.fadd (balance a) v; nickname := nickname a;
          stocks := stocks a ++ [s] |} d).
Proof.
  intros Hget Hval. unfold add_stock_to_account_dict. rewrite Hget.
  unfold getitem. rewrite Hval. simpl. unfold dict_set. by rewrite odict_set_set.
Qed.


(** C10. For an account number that is not in the ledger,
    [add_stock_to_account_dict] returns [False] and the ledger after the call
    is the ledger before it: no entry is created. *)
Theorem add_stock_to_account_dict_absent (d : account_dict) (account_num : string) (s : stock) :
  dict_mem account_num d = false →
  add_stock_to_account_dict account_num s d = (Ok false, d).
Proof.
  unfold dict_mem, odict_mem, add_stock_to_account_dict, dict_get.
  destruct (odict_get account_num d); [discriminate|reflexivity].
Qed.

Lemma set_account_dict_existing_witness :
  set_account_dict "Z12345678" (Some PyFloat.f1) (Some "Roth") (Some [nvda; nvda]) false
    sample_ledger = (false, sample_ledger) ∧
  (validate_stocks (Some [nvda; nvda]) = true →
   ∃ d', set_account_dict "Z12345678" (Some PyFloat.f1) (Some "Roth") (Some [nvda; nvda]) true
           sample_ledger = (true, d') ∧
         dict_get "Z12345678" d' =
           Some {| balance := from_opt PyFloat.f0 (Some PyFloat.f1); nickname := Some "Roth";
                   stocks := from_opt [] (Some [nvda; nvda]) |} ∧
         (∀ k, k ≠ "Z12345678" → dict_get k d' = dict_get k sample_ledger) ∧
         map fst d' = map fst sample_ledger).
Proof.
  apply (set_account_dict_existing sample_ledger "Z12345678" individual).
  reflexivity.
Defined.



Lemma add_stock_to_account_dict_absent_witness :
  add_stock_to_account_dict "X99999999" nvda sample_ledger = (Ok false, sample_ledger).
Proof.
  apply (add_stock_to_account_dict_absent sample_ledger "X99999999" nvda). reflexivity.
Defined.

(** [validate_stocks] accepts exactly the lists of well-typed positions. *)
Lemma check_stock_well_typed (s : stock) : check_stock s = Ok tt ↔ well_typed s.
Proof.
  unfold check_stock, well_typed, getitem. split.
  - destruct (s !! "ticker") as [[|t| |]|]; cbn; try discriminate;
    destruct (s !! "quantity") as [[| |q|]|]; cbn; try discriminate;
    destruct (s !! "last_price") as [[| |p|]|]; cbn; try discriminate;
    destruct (s !! "value") as [[| |v|]|]; cbn; try discriminate.
    intros _. by exists t, q, p, v.
  - intros (t & q & p & v & -> & -> & -> & ->). reflexivity.
Qed.

Lemma validate_stock_list_Forall (l : list stock) :
  validate_stock_list l = true ↔ Forall well_typed l.
Proof.
  induction l as [|s l IH]; simpl.
  - split; [constructor|done].
  - destruct (check_stock s) as [[]|e] eqn:Hs.
    + rewrite IH. split.
      * intros Hl. constructor; [by apply check_stock_well_typed|done].
      * by inversion 1.
    + split; [done|]. inversion 1 as [|? ? Hw]. apply check_stock_well_typed in Hw. congruence.
Qed.

Lemma create_stock_dict_well_typed (t : string) (q p v : PyFloat.float) :
  well_typed (create_stock_dict t q p v).
Proof. exists t, q, p, v. repeat split; reflexivity. Qed.

Lemma set_account_dict_validates (account_num : string) (bal : option PyFloat.float)
    (nick : option string) (stks : option (list stock)) (overwrite : bool)
    (d d' : account_dict) :
  set_account_dict account_num bal nick stks overwrite d = (true, d') →
  ∃ a, dict_get account_num d' = Some a ∧ Forall well_typed (stocks a).
Proof.
  unfold set_account_dict.
  destruct (overwrite || negb (dict_mem account_num d)); [|discriminate].
  destruct (validate_stocks stks) eqn:Hv; simpl; [|discriminate].
  intros [= <-]. eexists. split.
  - unfold dict_get, dict_set. apply odict_get_set_eq.
  - simpl. destruct stks as [l|]; simpl in *; [|constructor].
    by apply validate_stock_list_Forall.
Qed.

(** C8, on the code. [add_stock_to_account_dict] has no validation step: the
    position with an int quantity, which [validate_stocks] and with it
    [set_account_dict] reject, is appended to the account and added to its
    balance, and the call returns [True]. *)
Theorem add_stock_to_account_dict_skips_validation :
  validate_stocks (Some [nvda_int_quantity]) = false ∧
  set_account_dict "Z12345678" None None (Some [nvda_int_quantity]) true sample_ledger
    = (false, sample_ledger) ∧
  ¬ well_typed nvda_int_quantity ∧
  add_stock_to_account_dict "Z12345678" nvda_int_quantity sample_ledger =
    (Ok true,
     [("Z12345678",
       {| balance := PyFloat.of_Z 480; nickname := Some "Individual";
          stocks := [nvda; nvda_int_quantity] |})]).
Proof.
  split; [reflexivity|]. split; [reflexivity|]. split.
  - rewrite <- check_stock_well_typed. discriminate.
  - reflexivity.
Qed.

(** ** Comparison of floats *)

Lemma SFcompare_antisym (x y : spec_float) (c : comparison) :
  SFcompare x y = Some c → SFcompare y x = Some (CompOpp c).
Proof.
  destruct x as [sx|sx| |sx mx ex], y as [sy|sy| |sy my ey]; simpl;
    try discriminate; try (intros [= <-]; by repeat case_match).
  intros [= <-]. f_equal.
  rewrite (Z.compare_antisym ex ey).
  change (Pos.compare_cont Eq my mx) with (Pos.compare my mx).
  change (Pos.compare_cont Eq mx my) with (Pos.compare mx my).
  rewrite (Pos.compare_antisym mx my).
  destruct sx, sy, (ex ?= ey), (mx ?= my)%positive; reflexivity.
Qed.

Lemma fge_not_flt (x y : PyFloat.float) : PyFloat.fge x y = true → PyFloat.flt x y = false.
Proof.
  unfold PyFloat.fge, PyFloat.flt, SFleb, SFltb.
  destruct (SFcompare y x) as [c|] eqn:Hc; [|discriminate].
  apply SFcompare_antisym in Hc. rewrite Hc. by destruct c.
Qed.

Lemma not_flt_fge (x y : PyFloat.float) :
  x ≠ S754_nan → y ≠ S754_nan → PyFloat.flt x y = false → PyFloat.fge x y = true.
Proof.
  unfold PyFloat.fge, PyFloat.flt, SFleb, SFltb. intros Hx Hy.
  destruct (SFcompare x y) as [c|] eqn:Hc.
  - apply SFcompare_antisym in Hc. rewrite Hc. by destruct c.
  - by destruct x, y.
Qed.

(** ** The order-type decision *)

(** The flag is what the page shows: extended hours are active exactly when
    the text Extended hours trading is visible. *)
Lemma extended_hours_flag (page : Page.browser) (h h' : list Page.event)
    (extended : bool) (precision : Z) :
  extended_hours page h = (Ok (extended, precision), h') →
  page bool h (Page.IsVisible Page.ExtendedHoursText) = Ok extended.
Proof.
  unfold extended_hours, perform, mbind, M_bind, mret, M_ret.
  repeat case_match; intros; simplify_eq; done.
Qed.

Example order_at_one_dollar : order_for "$1.00" false "buy" = Some Market.
Proof. vm_compute. reflexivity. Qed.

Example order_below_one_dollar :
  order_for "$0.99" false "buy" = Some (Limit (PyFloat.of_decimal false 1 0)).
Proof. vm_compute. reflexivity. Qed.

Example order_extended_hours :
  order_for "$120.456" true "sell" = Some (Limit (PyFloat.of_decimal false 12045 (-2))).
Proof. vm_compute. reflexivity. Qed.

(** A quote that reads nan is neither below 1 nor 1 or more: the test
    [float(last_price) < 1] fails on it, and the order is a market order. *)
Example order_nan_price : order_for "$nan" false "buy" = Some Market.
Proof. vm_compute. reflexivity. Qed.

(** Below a dime the offset is 0.0001, and three decimals round it away
    unless the price has a fourth: a sell at 0.05 asks 0.05 again, a buy at
    0.0525 asks 0.053. *)
Example order_sub_dime_sell :
  order_for "$0.05" false "sell" = Some (Limit (PyFloat.of_decimal false 5 (-2))).
Proof. vm_compute. reflexivity. Qed.

Example order_sub_dime_buy :
  order_for "$0.0525" false "Buy" = Some (Limit (PyFloat.of_decimal false 53 (-3))).
Proof. vm_compute. reflexivity. Qed.

(** At exactly 0.10 the offset is still 0.0001. *)
Example offset_at_a_dime :
  difference_price (PyFloat.of_decimal false 10 (-2)) = PyFloat.f0_0001 ∧
  difference_price (PyFloat.of_decimal false 11 (-2)) = PyFloat.f0_01.
Proof. vm_compute. split; reflexivity. Qed.

(** ** The order workflow never raises *)

Section Returns.
Import Page.
Context {A B : Type}.

Lemma returns_weaken (m : M A) (P Q : A → list event → Prop) :
  returns m P → (∀ a new, P a new → Q a new) → returns m Q.
Proof.
  intros Hm HPQ h. destruct (Hm h) as (new & Hh & Ha).
  exists new. split; [done|]. intros a Hr. apply HPQ, Ha, Hr.
Qed.

Lemma returns_ret (a : A) (Q : A → list event → Prop) :
  Q a [] → returns (mret a) Q.
Proof.
  intros HQ h. exists []. simpl. rewrite app_nil_r. split; [done|].
  by intros ? [= <-].
Qed.

Lemma returns_throw (e : exn) (Q : A → list event → Prop) : returns (throw e) Q.
Proof. intros h. exists []. simpl. rewrite app_nil_r. done. Qed.

Lemma returns_lift (r : result A) (Q : A → list event → Prop) :
  (∀ a, r = Ok a → Q a []) → returns (lift r) Q.
Proof. intros HQ h. exists []. simpl. rewrite app_nil_r. done. Qed.

Lemma returns_perform (page : browser) (c : call A) :
  returns (perform page c) (λ a new, new = [Ev c (Ok a)]).
Proof.
  intros h. exists [Ev c (page A h c)]. simpl. split; [done|].
  by intros a ->.
Qed.

Lemma returns_bind (m : M A) (k : A → M B) (P : A → list event → Prop)
    (Q : B → list event → Prop) :
  returns m P →
  (∀ a, returns (k a) (λ b n2, ∀ n1, P a n1 → Q b (n1 ++ n2))) →
  returns (m ≫= k) Q.
Proof.
  intros Hm Hk h. unfold mbind, M_bind.
  destruct (Hm h) as (n1 & Hh1 & Ha).
  destruct (m h) as [[a|e] h1]; simpl in *; subst h1.
  - destruct (Hk a (h ++ n1)) as (n2 & Hh2 & Hb).
    exists (n1 ++ n2). rewrite Hh2, app_assoc. split; [done|].
    intros b Hr. by apply Hb, Ha.
  - exists n1. done.
Qed.

Lemma returns_try_timeout (m : M A) (handler : exn → M A)
    (Q : A → list event → Prop) :
  returns m Q →
  (∀ e, returns (handler e) (λ a n2, ∀ n1, Q a (n1 ++ n2))) →
  returns (try_timeout m handler) Q.
Proof.
  intros Hm Hh h. unfold try_timeout.
  destruct (Hm h) as (n1 & Hh1 & Ha).
  destruct (m h) as [[a|e] h1]; simpl in *; subst h1.
  - exists n1. done.
  - destruct (is_timeout e).
    + destruct (Hh e (h ++ n1)) as (n2 & Hh2 & Hb).
      exists (n1 ++ n2). rewrite Hh2, app_assoc. split; [done|].
      intros a Hr. by apply Hb.
    + exists n1. done.
Qed.

End Returns.

Section Clean.
Import Page.
Context {A B : Type}.

Lemma clean_ret (a : A) : clean (mret a).
Proof. apply returns_ret. constructor. Qed.

Lemma clean_throw (e : exn) : clean (@throw A e).
Proof. apply returns_throw. Qed.

Lemma clean_lift (r : result A) : clean (lift r).
Proof. apply returns_lift. constructor. Qed.

Lemma clean_perform (page : browser) (c : call A) : clean (perform page c).
Proof.
  eapply returns_weaken; [apply returns_perform|].
  intros a new ->. repeat constructor.
Qed.

Lemma clean_bind (m : M A) (k : A → M B) :
  clean m → (∀ a, clean (k a)) → clean (m ≫= k).
Proof.
  intros Hm Hk. eapply returns_bind; [exact Hm|].
  intros a. eapply returns_weaken; [apply Hk|].
  intros b n2 H2 n1 H1. by apply Forall_app.
Qed.

(** A clean step followed by a computation that settles settles. *)
Lemma settles_bind (m : M A) (k : A → M (bool * option error_message)) :
  clean m → (∀ a, returns (k a) settled) → returns (m ≫= k) settled.
Proof.
  intros Hm Hk. eapply returns_bind; [exact Hm|].
  intros a. eapply returns_weaken; [apply Hk|].
  intros [ok msg] n2 H2 n1 H1. unfold settled in *. simpl in *.
  destruct ok; [|done]. destruct H2. split; [done|]. by apply Forall_app.
Qed.

End Clean.

Ltac clean_step :=
  match goal with
  | |- clean (mbind _ _) => apply clean_bind; [|intros ?]
  | |- clean (perform _ _) => apply clean_perform
  | |- clean (mret _) => apply clean_ret
  | |- clean (throw _) => apply clean_throw
  | |- clean (lift _) => apply clean_lift
  | |- clean (if ?b then _ else _) => destruct b
  | |- clean (match ?x with _ => _ end) => destruct x
  end.

Section TransactionFacts.
Import Page.
Variable page : browser.

Lemma clean_extended_hours : clean (extended_hours page).
Proof. unfold extended_hours. repeat clean_step. Qed.

Lemma clean_enter_order (o : order_kind) : clean (enter_order page o).
Proof. unfold enter_order. repeat clean_step. Qed.

Lemma clean_preview_differs (stock : string) (quantity : PyFloat.float)
    (action account : string) :
  clean (preview_differs page stock quantity action account).
Proof. unfold preview_differs. repeat clean_step. Qed.

Lemma returns_read_error (t : target) (current : option string) :
  returns (read_error page t current) (λ _ _, True).
Proof.
  intros h. unfold read_error, perform.
  destruct (page _ h (TextContent t (Some 2000))) as [em|e]; simpl.
  - eexists. rewrite <- app_assoc. split; [reflexivity|done].
  - eexists. split; [reflexivity|done].
Qed.

Lemma returns_extract_error : returns (extract_error page) (λ _ _, True).
Proof.
  unfold extract_error.
  eapply returns_bind; [apply returns_read_error|]. intros em1.
  eapply returns_bind with (P := λ _ _, True).
  - destruct em1 as [[|]|]; first [apply returns_read_error | by apply returns_ret].
  - intros em2. destruct em2 as [[|]|];
      first [by apply returns_ret | apply returns_throw].
Qed.

(** The wait for the Place order button, with its handler: either no error
    and only successful calls so far, or an error message. *)
Lemma returns_place_order_wait :
  returns
    (try_timeout
       (_ ← perform page (WaitFor PlaceOrderButton (Some 5000)); mret None)
       (λ _, msg ← extract_error page; mret (Some msg)))
    (λ failed new, failed = None → Forall event_ok new).
Proof.
  apply returns_try_timeout.
  - eapply returns_weaken.
    + apply clean_bind; [apply clean_perform|]. intros ?. apply (clean_ret (A:=option string)).
    + done.
  - intros e. eapply returns_bind; [apply returns_extract_error|].
    intros msg. by apply returns_ret.
Qed.

Lemma settles_ret_failure (msg : error_message) : returns (mret (false, Some msg)) settled.
Proof. by apply returns_ret. Qed.

Lemma settles_ret_success : returns (mret (true, @None error_message)) settled.
Proof. apply returns_ret. split; [done|constructor]. Qed.

Lemma settles_transaction_body (stock : string) (quantity : PyFloat.float)
    (action account : string) (dry : bool) :
  returns (transaction_body page stock quantity action account dry) settled.
Proof.
  unfold transaction_body.
  do 13 (apply settles_bind; [repeat clean_step|intros ?]).
  apply settles_bind; [repeat clean_step|intros ?].
  apply settles_bind; [repeat clean_step|intros ?].
  apply settles_bind; [apply clean_extended_hours|intros [extended precision]].
  do 6 (apply settles_bind; [repeat clean_step|intros ?]).
  apply settles_bind; [apply clean_enter_order|intros ?].
  apply settles_bind; [repeat clean_step|intros ?].
  eapply returns_bind; [apply returns_place_order_wait|].
  intros [msg|].
  - apply returns_ret. done.
  - eapply returns_weaken.
    2:{ intros r n2 H2 n1 H1. specialize (H1 eq_refl).
        instantiate (1 := settled) in H2. unfold settled in *.
        destruct r as [[] m]; simpl in *; [|done].
        destruct H2. split; [done|]. by apply Forall_app. }
    apply settles_bind; [apply clean_preview_differs|intros differs].
    destruct differs; [apply settles_ret_failure|].
    destruct dry; simpl; [apply settles_ret_success|].
    apply settles_bind; [repeat clean_step|intros ?].
    apply returns_try_timeout.
    + apply settles_bind; [repeat clean_step|intros ?]. apply settles_ret_success.
    + intros e. by apply returns_ret.
Qed.

End TransactionFacts.

(** C6. Whatever the page does and whatever the arguments, [transaction]
    returns a tuple and raises nothing: [(True, None)] only when every call it
    made on the page succeeded, and otherwise [(False, message)]. An exception
    that leaves the body of the outer [try] comes back as the message: the
    text of a timeout after the words Driver timed out, any other exception as
    the exception itself. *)
Theorem transaction_never_raises (page : Page.browser) (stock : string)
    (quantity : PyFloat.float) (action account : string) (dry : bool)
    (h : list Page.event) :
  ∃ (ok : bool) (msg : option error_message) (new : list Page.event),
    transaction page stock quantity action account dry h = (Ok (ok, msg), h ++ new) ∧
    (if ok then msg = None ∧ Forall Page.event_ok new else msg ≠ None) ∧
    (∀ e h', transaction_body page stock quantity action account dry h = (Raise e, h') →
       ok = false ∧
       msg = Some (if is_timeout e
                   then ErrText ("Driver timed out. Order not completed: " ++ exn_text e)
                   else ErrObject e)).
Proof.
  destruct (settles_transaction_body page stock quantity action account dry h)
    as (new & Hh & Hr).
  unfold transaction.
  destruct (transaction_body page stock quantity action account dry h)
    as [[[ok msg]|e] h1] eqn:Hbody; simpl in *; subst h1.
  - exists ok, msg, new. split; [done|]. split; [exact (Hr _ eq_refl)|]. done.
  - destruct (is_timeout e) eqn:Ht; eexists false, _, new;
      (split; [reflexivity|]); (split; [done|]);
      intros e' h' [= <- _]; by rewrite Ht.
Qed.

(** A dry run on a page where everything succeeds. *)
Example transaction_dry_run :
  (transaction regular_hours_page "nvda" (PyFloat.of_Z 2) "buy" "z12345678" true []).1
  = Ok (true, None).
Proof. vm_compute. reflexivity. Qed.

(** The quote panel does not show up within its two seconds. *)
Example transaction_timeout :
  (transaction
     (failing_page (Page.WaitFor Page.QuotePanel None)
        (Exn PlaywrightTimeoutError "Timeout 2000ms exceeded."))
     "nvda" (PyFloat.of_Z 2) "buy" "z12345678" false []).1
  = Ok (false, Some (ErrText "Driver timed out. Order not completed: Timeout 2000ms exceeded.")).
Proof. vm_compute. reflexivity. Qed.

(** The account dropdown is not on the page: [query_selector] gives [None]
    and the click on it is an [AttributeError]. *)
Example transaction_attribute_error :
  (transaction
     (failing_page (Page.Click Page.DestAcctDropdown)
        (Exn AttributeError "'NoneType' object has no attribute 'click'"))
     "nvda" (PyFloat.of_Z 2) "buy" "z12345678" false []).1
  = Ok (false, Some (ErrObject (Exn AttributeError "'NoneType' object has no attribute 'click'"))).
Proof. vm_compute. reflexivity. Qed.

(** The Place order button does not appear and the error region holds a
    message: it comes back trimmed. *)
Example transaction_order_rejected :
  (transaction
     (failing_page (Page.WaitFor Page.PlaceOrderButton None)
        (Exn PlaywrightTimeoutError "Timeout 5000ms exceeded."))
     "nvda" (PyFloat.of_Z 2) "buy" "z12345678" false []).1
  = Ok (false, Some (ErrText "Order rejected")).
Proof. vm_compute. reflexivity. Qed.

(** ** The sign of parsed floats *)

Lemma binary_round_aux_sign (s : bool) (mx ex : Z) (lx : location) :
  sign_is s (binary_round_aux PyFloat.prec PyFloat.emax s mx ex lx).
Proof. unfold binary_round_aux. repeat case_match; done. Qed.

Lemma binary_round_sign (s : bool) (m : positive) (e : Z) :
  sign_is s (binary_round PyFloat.prec PyFloat.emax s m e).
Proof. unfold binary_round. case_match. apply binary_round_aux_sign. Qed.

Lemma of_decimal_sign (s : bool) (m e : Z) : sign_is s (PyFloat.of_decimal s m e).
Proof.
  unfold PyFloat.of_decimal, PyFloat.of_ratio.
  repeat case_match; first [done | apply binary_round_aux_sign | apply binary_round_sign].
Qed.

Lemma of_Z_sign (z : Z) : 0 ≤ z → sign_is false (PyFloat.of_Z z).
Proof.
  unfold PyFloat.of_Z, binary_normalize. destruct z; [done| |lia].
  intros _. apply binary_round_sign.
Qed.

Lemma sign_is_not_negative (x : PyFloat.float) : sign_is false x → not_negative x.
Proof.
  destruct x as [s|s| |s m e]; simpl; intros Hs; subst; [left|left|right|left]; done.
Qed.

Section NoMinus.
Import PyStr FloatParse.

Lemma no_minus_lstrip l : no_minus l → no_minus (lstrip l).
Proof.
  induction 1 as [|c l Hc Hl IH]; simpl; [constructor|].
  case_match; [done|by constructor].
Qed.

Lemma no_minus_rev l : no_minus l → no_minus (rev l).
Proof. apply List.Forall_rev. Qed.

Lemma no_minus_strip l : no_minus l → no_minus (FloatParse.strip l).
Proof.
  intros Hl. unfold FloatParse.strip.
  by apply no_minus_rev, no_minus_lstrip, no_minus_rev, no_minus_lstrip.
Qed.

Lemma no_minus_drop_underscores prev l l' :
  drop_underscores prev l = Some l' → no_minus l → no_minus l'.
Proof.
  revert prev l'. induction l as [|c l IH]; intros prev l'; simpl.
  - case_match; [done|]. intros [= <-] _. constructor.
  - intros Hd Hl. inversion Hl as [|? ? Hc Hl']; subst.
    repeat case_match; try done; try (by eapply IH).
    destruct (drop_underscores (Some c) l) as [l0|] eqn:Hl0; [|done].
    simpl in Hd. injection Hd as <-. constructor; [done|by eapply IH].
Qed.

Lemma split_sign_no_minus l sign r :
  split_sign l = (sign, r) → no_minus l → sign = false.
Proof.
  unfold split_sign. destruct l as [|c l]; [by intros [= <- _]|].
  intros Hs Hl. inversion Hl as [|? ? Hc _]; subst.
  destruct (Ascii.eqb_spec c "-"); [done|].
  by repeat case_match; simplify_eq.
Qed.

Lemma parse_number_sign sign l x : parse_number sign l = Some x → sign_is sign x.
Proof.
  unfold parse_number. repeat case_match; try done; intros [= <-]; apply of_decimal_sign.
Qed.

Lemma parse_signed_sign l x :
  parse_signed l = Some x → no_minus l → sign_is false x.
Proof.
  unfold parse_signed. destruct (split_sign l) as [sign r] eqn:Hs.
  intros Hx Hl. rewrite (split_sign_no_minus _ _ _ Hs Hl) in Hx.
  repeat case_match; simplify_eq; try done. by eapply parse_number_sign.
Qed.

(** The bytes of every character of a text are bytes of the text. *)
Lemma uchars_written (P : ascii → Prop) (l : list ascii) :
  Forall P l → Forall (λ u, Forall P (Utf8.written u)) (Utf8.uchars l).
Proof.
  assert (∀ n l, (List.length l ≤ n)%nat → Forall P l →
            Forall (λ u, Forall P (Utf8.written u)) (Utf8.uchars l)) as Hall.
  2:{ by apply (Hall (List.length l)). }
  clear l. induction n as [|n IH]; intros l Hn Hl.
  { destruct l; [constructor|simpl in Hn; lia]. }
  destruct l as [|b1 r1]; [constructor|]. simpl in Hn.
  apply Forall_cons in Hl as [H1 Hr1].
  assert (Forall (λ u, Forall P (Utf8.written u)) (Utf8.uchars r1)) as IH1
    by (apply IH; [lia|done]).
  cbn [Utf8.uchars]. unfold Utf8.stray.
  destruct (_ <? 128)%N; [by repeat constructor|].
  destruct r1 as [|b2 r2]; [by repeat constructor|]. simpl in Hn.
  apply Forall_cons in Hr1 as [H2 Hr2].
  destruct (_ && Utf8.is_cont b2).
  { constructor; [by repeat constructor|]. apply IH; [lia|done]. }
  destruct r2 as [|b3 r3]; [by repeat constructor|]. simpl in Hn.
  apply Forall_cons in Hr2 as [H3 Hr3].
  destruct (_ && Utf8.is_cont b3).
  { constructor; [by repeat constructor|]. apply IH; [lia|done]. }
  destruct r3 as [|b4 r4]; [by repeat constructor|]. simpl in Hn.
  apply Forall_cons in Hr3 as [H4 Hr4].
  destruct (_ && Utf8.is_cont b4); [|by repeat constructor].
  constructor; [by repeat constructor|]. apply IH; [lia|done].
Qed.

Lemma no_minus_transform l : no_minus l → no_minus (transform l).
Proof.
  intros Hl. unfold transform, no_minus.
  apply (uchars_written (λ c, c ≠ "-"%char)) in Hl.
  induction Hl as [|u us Hu _ IH]; simpl; [constructor|].
  apply Forall_app. split; [|done]. unfold to_ascii.
  repeat case_match; [done|by repeat constructor| |by repeat constructor].
  constructor; [|constructor]. intros Heq.
  apply (f_equal N_of_ascii) in Heq. rewrite N_ascii_embedding in Heq.
  - change (N_of_ascii "-") with 45%N in Heq. lia.
  - unfold Utf8.decimal_value. destruct (find _ _) as [r|]; [|lia].
    pose proof (N.mod_upper_bound (Utf8.point u - r.1) 10). lia.
Qed.

(** A string without a minus sign parses to a float that is not negative. *)
Lemma float_of_string_not_negative (s : string) (x : PyFloat.float) :
  float_of_string s = Some x → no_minus (chars s) → not_negative x.
Proof.
  unfold float_of_string. intros Hx Hs.
  destruct (drop_underscores None (FloatParse.strip (transform (chars s)))) as [l|] eqn:Hl;
    [|done].
  apply sign_is_not_negative. apply (parse_signed_sign l); [done|].
  eapply no_minus_drop_underscores; [exact Hl|].
  by apply no_minus_strip, no_minus_transform.
Qed.

Lemma chars_of_chars l : chars (of_chars l) = l.
Proof. apply list_ascii_of_string_of_list_ascii. Qed.

Lemma no_minus_remove_char (s : string) : no_minus (chars (remove_char "-" s)).
Proof.
  unfold remove_char. rewrite chars_of_chars.
  apply list.Forall_forall. intros c Hc. apply list_elem_of_filter in Hc.
  destruct Hc as [Hc _]. intros ->. done.
Qed.

End NoMinus.

(** ** The row loop of [getAccountInfo] *)

Lemma py_float_unsigned (v : pyval) (x : PyFloat.float) :
  unsigned_value v → py_float v = Ok x → not_negative x.
Proof.
  intros [->|[->|[s ->]]]; simpl.
  - intros [= <-]. by left.
  - intros [= <-]. by left.
  - destruct (FloatParse.float_of_string _) as [y|] eqn:Hy; [|done].
    intros [= <-]. eapply float_of_string_not_negative; [exact Hy|].
    apply no_minus_remove_char.
Qed.

Lemma read_row_merge (row : csv_row) (acct : string) (nick : option string)
    (val : PyFloat.float) (s : stock) :
  read_row row = Ok (Merge acct nick val s) →
  Account_Number row = Some acct ∧ nick = Account_Name row ∧
  ∃ q p, s = create_stock_dict (str_cell (Symbol row)) q p val ∧
         not_negative q ∧ not_negative p ∧ not_negative val.
Proof.
  unfold read_row. destruct (Account_Number row) as [a|]; [|done].
  destruct (PyStr.contains "and" a); [done|].
  destruct a as [|c a]; [done|]. destruct (Ascii.eqb c "Y"); [done|].
  destruct (PyStr.contains "Pending" _); [done|].
  destruct (PyStr.len _ =? 0)%nat; [done|].
  set (val0 := if String.eqb _ "n/a" then VInt 0 else VStr _).
  set (lp0 := if (PyStr.len _ =? 0)%nat then val0 else VStr _).
  set (q0 := if (PyStr.len _ =? 0)%nat then VInt 1 else VStr _).
  assert (unsigned_value val0) as Hval.
  { unfold val0. case_match; [by left|]. right; right. by eexists. }
  assert (unsigned_value lp0) as Hlp.
  { unfold lp0. case_match; [done|]. right; right. by eexists. }
  assert (unsigned_value q0) as Hq.
  { unfold q0. case_match; [right; by left|]. right; right. by eexists. }
  destruct (py_float q0) as [q|] eqn:Eq; [|done].
  destruct (py_float lp0) as [p|] eqn:Ep; [|done].
  destruct (py_float val0) as [v|] eqn:Ev; [|done].
  cbn. intros [= <- <- <- <-]. split; [done|]. split; [done|].
  exists q, p. split; [done|].
  split; [exact (py_float_unsigned _ _ Hq Eq)|].
  split; [exact (py_float_unsigned _ _ Hlp Ep)|exact (py_float_unsigned _ _ Hval Ev)].
Qed.

Lemma merge_row_ok (acct : string) (nick : option string) (t : string)
    (q p v : PyFloat.float) (d : account_dict) :
  ∃ d', merge_row acct nick v (create_stock_dict t q p v) d = (Ok tt, d') ∧
        ∃ a, dict_get acct d' = Some a ∧ last (stocks a) = Some (create_stock_dict t q p v).
Proof.
  unfold merge_row, set_account_dict, dict_mem, odict_mem.
  destruct (odict_get acct d) as [a|] eqn:Hget; cbn.
  - rewrite (add_stock_appends d acct a (create_stock_dict t q p v) v Hget eq_refl).
    eexists. split; [reflexivity|]. eexists. unfold dict_get, dict_set.
    rewrite odict_get_set_eq. split; [reflexivity|]. cbn. apply last_snoc.
  - eexists. split; [reflexivity|]. eexists. unfold dict_get, dict_set.
    rewrite odict_get_set_eq. split; reflexivity.
Qed.

Lemma py_float_str_ok_iff (s : string) :
  (PyStr.len s =? 0)%nat = false →
  (∃ x, py_float (VStr s) = Ok x) ↔ float_or_blank s = true.
Proof.
  unfold float_or_blank. intros ->. simpl. rewrite bool_decide_eq_true.
  destruct (FloatParse.float_of_string s) as [x|]; split.
  - by intros _.
  - intros _. by eexists.
  - by intros [x Hx].
  - by intros [x Hx].
Qed.

(** A cell that stands for [dflt] when it is blank. *)
Lemma py_float_cell (dflt : pyval) (s : string) :
  (∃ x, py_float dflt = Ok x) →
  (∃ x, py_float (if (PyStr.len s =? 0)%nat then dflt else VStr s) = Ok x) ↔
  float_or_blank s = true.
Proof.
  intros Hd. destruct (PyStr.len s =? 0)%nat eqn:Hs.
  - unfold float_or_blank. by rewrite Hs.
  - by apply py_float_str_ok_iff.
Qed.

Lemma read_numbers_ok {A : Type} (rq rp rv : result PyFloat.float)
    (f : PyFloat.float → PyFloat.float → PyFloat.float → PyFloat.float → A) :
  (∃ a, (q ← rq; p ← rp; v ← rv; b ← rv; Ok (f q p v b)) = Ok a) ↔
  (∃ q, rq = Ok q) ∧ (∃ p, rp = Ok p) ∧ (∃ v, rv = Ok v).
Proof.
  destruct rq as [q|e], rp as [p|e'], rv as [v|e'']; cbn; split;
    try (by intros [a Ha]); try (by intros ([] & [] & [])).
  - intros _. by repeat split; eexists.
  - intros _. by eexists.
Qed.

(** [row_readable] is exact: the rows the loop body gets through are those
    it holds of. *)
Lemma read_row_readable (row : csv_row) :
  row_readable row = true ↔ ∃ a, read_row row = Ok a.
Proof.
  unfold row_readable, is_disclaimer, row_passed, row_numeric, read_row.
  destruct (Account_Number row) as [a|]; [|split; [by eexists|done]].
  destruct (PyStr.contains "and" a); [split; [by eexists|done]|].
  destruct a as [|c a]; [split; [done|by intros [? ?]]|].
  destruct (Ascii.eqb c "Y"); [split; [by eexists|done]|].
  destruct (PyStr.contains "Pending" _); [split; [by eexists|done]|].
  fold (money_cell (Current_Value row)) (money_cell (Last_Price row))
    (count_cell (Quantity row)).
  set (vs := money_cell (Current_Value row)).
  set (ls := money_cell (Last_Price row)).
  set (qs := count_cell (Quantity row)).
  destruct (PyStr.len vs =? 0)%nat eqn:Hv0; [split; [by eexists|done]|].
  rewrite read_numbers_ok. cbn [orb negb andb].
  rewrite bool_decide_eq_false_2 by done. cbn [negb andb].
  rewrite !andb_true_iff.
  assert ((∃ v, py_float (if String.eqb (PyStr.lower vs) "n/a" then VInt 0 else VStr vs)
                = Ok v) ↔
          float_or_blank vs || String.eqb (PyStr.lower vs) "n/a" = true) as Hval.
  { destruct (String.eqb (PyStr.lower vs) "n/a").
    - rewrite orb_true_r. split; [done|]. intros _. by eexists.
    - rewrite orb_false_r. by apply py_float_str_ok_iff. }
  split.
  - intros [[Hv Hl] Hq]. split; [|split].
    + apply py_float_cell; [by eexists|done].
    + apply py_float_cell; [by apply Hval|done].
    + by apply Hval.
  - intros (Hq & Hl & Hv). split; [split|].
    + by apply Hval.
    + eapply py_float_cell; [|exact Hl]. done.
    + eapply py_float_cell; [|exact Hq]. by eexists.
Qed.

Lemma read_row_stop (row : csv_row) :
  read_row row = Ok Stop ↔ is_disclaimer row = true.
Proof.
  unfold is_disclaimer, read_row.
  destruct (Account_Number row) as [a|]; [|done].
  destruct (PyStr.contains "and" a); [done|].
  split; [|done]. destruct a as [|c a]; [done|].
  destruct (Ascii.eqb c "Y"); [done|].
  destruct (PyStr.contains "Pending" _); [done|].
  destruct (PyStr.len _ =? 0)%nat; [done|].
  repeat (destruct (py_float _) as [?|?]; cbn; try done).
Qed.

Lemma row_step_spec (row : csv_row) (d : account_dict) :
  match read_row row with
  | Ok (Merge acct nick val s) =>
      ∃ d', row_step row d = (Ok (Merge acct nick val s), d') ∧
            ∃ a, dict_get acct d' = Some a ∧ last (stocks a) = Some s
  | r => row_step row d = (r, d)
  end.
Proof.
  unfold row_step. destruct (read_row row) as [[| |acct nick val s]|e] eqn:Hr; try done.
  destruct (read_row_merge _ _ _ _ _ Hr) as (_ & _ & q & p & -> & _).
  destruct (merge_row_ok acct nick (str_cell (Symbol row)) q p val d) as (d' & -> & Ha).
  by exists d'.
Qed.

Lemma row_loop_readable_ok (rows : list csv_row) (d : account_dict) :
  (∃ d', row_loop rows d = (Ok tt, d')) ↔
  Forall (λ row, row_readable row = true) (rows_read rows).
Proof.
  revert d. induction rows as [|row rows IH]; intros d; simpl.
  { split; [constructor|by eexists]. }
  pose proof (row_step_spec row d) as Hstep.
  pose proof (read_row_readable row) as Hread.
  pose proof (read_row_stop row) as Hstop.
  destruct (read_row row) as [[| |acct nick val s]|e].
  - rewrite Hstep. destruct (is_disclaimer row); [by pose proof (proj2 Hstop eq_refl)|].
    rewrite Forall_cons, IH. split; [|tauto]. intros H. split; [|done].
    apply Hread. by eexists.
  - rewrite Hstep, (proj1 Hstop eq_refl). split; [constructor|by eexists].
  - destruct Hstep as (d' & -> & _).
    destruct (is_disclaimer row); [by pose proof (proj2 Hstop eq_refl)|].
    rewrite Forall_cons, IH. split; [|tauto]. intros H. split; [|done].
    apply Hread. by eexists.
  - rewrite Hstep. destruct (is_disclaimer row); [by pose proof (proj2 Hstop eq_refl)|].
    split; [by intros [? ?]|]. intros [Hrow _]%Forall_cons.
    by destruct (proj1 Hread Hrow).
Qed.


(** The scenario of the spec: the NVDA row alone yields the sample ledger. *)
Example row_loop_nvda : row_loop [nvda_row] [] = (Ok tt, sample_ledger).
Proof. vm_compute. reflexivity. Qed.

(** A second row for the same account is appended and added to the balance. *)
Example row_loop_nvda_twice :
  row_loop [nvda_row; nvda_row] [] =
    (Ok tt,
     [("Z12345678",
       {| balance := PyFloat.of_Z 480; nickname := Some "Individual"; stocks := [nvda; nvda] |})]).
Proof. vm_compute. reflexivity. Qed.

(** A value cell that is only a sign marker is empty once stripped, and an
    n/a value counts as zero. *)
Example row_step_blank_value :
  row_step (with_value (Some "-") nvda_row) [] = (Ok Skip, []) ∧
  (row_step (with_value (Some "n/a") nvda_row) []).1 =
    Ok (Merge "Z12345678" (Some "Individual") PyFloat.f0
          (create_stock_dict "NVDA" (PyFloat.of_Z 2) (PyFloat.of_Z 120) PyFloat.f0)).
Proof. vm_compute. split; reflexivity. Qed.


(** ** [summary_holdings] *)

Lemma key_eq_left (k0 k t : pyval) : key_eq k0 k = true → key_eq k0 t = key_eq k t.
Proof.
  unfold key_eq. destruct (key_of k0) eqn:H0; try done;
    intros Hk%bool_decide_eq_true; by rewrite <- Hk.
Qed.

Lemma key_eq_right (k0 k t : pyval) : key_eq k t = true → key_eq k0 k = key_eq k0 t.
Proof.
  unfold key_eq. destruct (key_of k) eqn:Hk; try done;
    intros Ht%bool_decide_eq_true; by rewrite <- Ht.
Qed.

Lemma key_eq_str (k : pyval) (t : string) : key_eq k (VStr t) = true ↔ k = VStr t.
Proof.
  split; [|intros ->; unfold key_eq; simpl; by rewrite bool_decide_eq_true].
  unfold key_eq. destruct k as [|t'|[]|z]; simpl; try done.
  by intros [= ->]%bool_decide_eq_true.
Qed.

Lemma pydict_get_set {V : Type} (t k : pyval) (v : V) (d : list (pyval * V)) :
  pydict_get t (pydict_set k v d) = if key_eq k t then Some v else pydict_get t d.
Proof.
  induction d as [|[k0 v0] d IH]; simpl; [done|].
  destruct (key_eq k0 k) eqn:H0; simpl.
  - rewrite (key_eq_left k0 k t H0). by destruct (key_eq k t).
  - rewrite IH. destruct (key_eq k0 t) eqn:Ht; [|done].
    destruct (key_eq k t) eqn:Hkt; [|done].
    by rewrite (key_eq_right k0 k t Hkt), Ht in H0.
Qed.

Lemma held_snoc (t : pyval) (l : list stock) (s : stock) :
  held t (l ++ [s]) = held t l ++ (if carries t s then [s] else []).
Proof.
  unfold held. rewrite filter_app, filter_cons, filter_nil.
  destruct (carries t s); [by rewrite decide_True|by rewrite decide_False].
Qed.

Lemma held_key (k t : pyval) (l : list stock) : key_eq k t = true → held k l = held t l.
Proof.
  intros Hkt. unfold held. induction l as [|s l IH]; [done|].
  rewrite !filter_cons, IH.
  replace (carries k s) with (carries t s); [done|].
  unfold carries. destruct (s !! "ticker") as [k0|]; [|done].
  symmetry. by apply key_eq_right.
Qed.

Lemma sum_of_snoc (k : string) (first : stock) (rest : list stock) (s : stock) :
  sum_of k first (rest ++ [s]) = PyFloat.fadd (sum_of k first rest) (number_of k s).
Proof. unfold sum_of. by rewrite map_app, fold_left_app. Qed.

Lemma total_snoc (k : string) (first : stock) (rest : list stock) (s : stock) :
  total k first (rest ++ [s]) = PyFloat.fadd (total k first rest) (float_of k s).
Proof. unfold total. by rewrite map_app, fold_left_app. Qed.

Lemma summarized_snoc_other (t : pyval) (l : list stock) (s : stock) :
  carries t s = false → summarized t (l ++ [s]) = summarized t l.
Proof.
  intros Hne. unfold summarized. rewrite held_snoc, Hne. by rewrite app_nil_r.
Qed.

Lemma summarized_snoc_same (t : pyval) (l : list stock) (s : stock) :
  carries t s = true →
  summarized t (l ++ [s]) =
    Some match summarized t l with
         | None => {| h_quantity := number_of "quantity" s;
                      h_last_price := number_of "last_price" s;
                      h_value := number_of "value" s |}
         | Some h => {| h_quantity := PyFloat.fadd (h_quantity h) (number_of "quantity" s);
                        h_last_price := h_last_price h;
                        h_value := PyFloat.fadd (h_value h) (number_of "value" s) |}
         end.
Proof.
  intros Heq. unfold summarized. rewrite held_snoc, Heq.
  destruct (held t l) as [|first rest]; simpl; [done|].
  by rewrite !sum_of_snoc.
Qed.

(** One position: the loop body gets through it exactly when it is summable
    after the positions before it, and then keeps the invariant. *)
Lemma summary_step_summarizes (u : unique_stocks) (l : list stock) (s : stock) :
  summarizes u l →
  if summable l s
  then ∃ u', summary_step u s = Ok u' ∧ summarizes u' (l ++ [s])
  else ∃ e, summary_step u s = Raise e.
Proof.
  intros Hu. unfold summable, summary_step, getitem.
  destruct (s !! "ticker") as [k|] eqn:Ht; cbn; [|by eexists].
  assert (∀ t, carries t s = key_eq k t) as Hcar.
  { intros t. unfold carries. by rewrite Ht. }
  assert (∀ h, (∀ t, key_eq k t = true → summarized t (l ++ [s]) = Some h) →
               summarizes (pydict_set k h u) (l ++ [s])) as Hkeep.
  { intros h Hh t. rewrite pydict_get_set. destruct (key_eq k t) eqn:Hkt.
    - symmetry. by apply Hh.
    - rewrite summarized_snoc_other by (by rewrite Hcar). apply Hu. }
  assert (∀ t, key_eq k t = true → summarized t l = pydict_get k u) as Hsame.
  { intros t Hkt. rewrite (Hu k). unfold summarized. by rewrite (held_key k t l Hkt). }
  pose proof (Hu k) as Huk. unfold summarized in Huk.
  unfold convertible, number_of in *.
  destruct (held k l) as [|first rest] eqn:Hheld; rewrite Huk; cbn.
  - destruct (float_field s "quantity") as [q|e] eqn:Hq; cbn; [|by eexists].
    destruct (float_field s "last_price") as [p|e] eqn:Hp; cbn; [|by eexists].
    destruct (float_field s "value") as [v|e] eqn:Hv; cbn; [|by eexists].
    eexists. split; [done|]. apply Hkeep. intros t Hkt.
    rewrite summarized_snoc_same by (by rewrite Hcar).
    rewrite (Hsame t Hkt), Huk. unfold number_of. by rewrite Hq, Hp, Hv.
  - destruct (float_field s "quantity") as [q|e] eqn:Hq; cbn; [|by eexists].
    destruct (float_field s "value") as [v|e] eqn:Hv; cbn; [|by eexists].
    eexists. split; [done|]. apply Hkeep. intros t Hkt.
    rewrite summarized_snoc_same by (by rewrite Hcar).
    rewrite (Hsame t Hkt), Huk. unfold number_of. by rewrite Hq, Hv.
Qed.

Lemma summary_stocks_all_summable (u : unique_stocks) (seen l : list stock) :
  summarizes u seen →
  if all_summable seen l
  then ∃ u', summary_stocks u l = Ok u' ∧ summarizes u' (seen ++ l)
  else ∃ e, summary_stocks u l = Raise e.
Proof.
  revert u seen. induction l as [|s l IH]; intros u seen Hu; simpl.
  - exists u. by rewrite app_nil_r.
  - pose proof (summary_step_summarizes u seen s Hu) as Hstep.
    destruct (summable seen s); simpl.
    + destruct Hstep as (u1 & -> & Hu1). cbn.
      specialize (IH u1 (seen ++ [s]) Hu1). rewrite <- app_assoc in IH. exact IH.
    + destruct Hstep as (e & ->). by eexists.
Qed.

Lemma well_typed_convertible (s : stock) (seen : list stock) :
  well_typed s → summable seen s = true.
Proof.
  intros (t & q & p & v & Ht & Hq & Hp & Hv).
  unfold summable, convertible, float_field, getitem. rewrite Ht, Hq, Hp, Hv. cbn.
  by destruct (held (VStr t) seen).
Qed.

Lemma well_typed_all_summable (seen l : list stock) :
  Forall well_typed l → all_summable seen l = true.
Proof.
  intros Hl. revert seen. induction Hl as [|s l Hs _ IH]; intros seen; simpl; [done|].
  by rewrite well_typed_convertible, IH.
Qed.

Lemma summary_stocks_summarizes (u : unique_stocks) (seen l : list stock) :
  Forall well_typed l → summarizes u seen →
  ∃ u', summary_stocks u l = Ok u' ∧ summarizes u' (seen ++ l).
Proof.
  intros Hl Hu. pose proof (summary_stocks_all_summable u seen l Hu) as H.
  by rewrite (well_typed_all_summable seen l Hl) in H.
Qed.

Lemma summary_stocks_app (u : unique_stocks) (l1 l2 : list stock) :
  summary_stocks u (l1 ++ l2) = summary_stocks u l1 ≫= λ u', summary_stocks u' l2.
Proof.
  revert u. induction l1 as [|s l1 IH]; intros u; simpl; [done|].
  destruct (summary_step u s) as [u1|e]; simpl; [apply IH|done].
Qed.

Lemma summary_accounts_positions (u : unique_stocks) (d : account_dict) :
  summary_accounts u d = summary_stocks u (positions d).
Proof.
  revert u. induction d as [|[k a] d IH]; intros u; simpl; [done|].
  unfold positions. simpl. rewrite summary_stocks_app.
  destruct (summary_stocks u (stocks a)) as [u1|e]; simpl; [apply IH|done].
Qed.

(** C7, as the code has it. [summary_holdings] leaves the ledger as it was.
    It returns a dictionary exactly when every position has a ticker, a
    quantity and a value that [float()] accepts, and a last price that
    [float()] accepts when it is the first position to carry its ticker;
    otherwise it raises. In the dictionary a ticker has an entry exactly when
    some position carries it, tickers being told apart as dictionary keys
    are, and the entry holds the sum of [float()] of the quantities and the
    sum of [float()] of the values of those positions, added in the order the
    accounts and their lists give, and [float()] of the last price of the
    first of them. *)
Theorem summary_holdings_sums (d : account_dict) :
  (all_summable [] (positions d) = true ↔ ∃ u, summary_holdings d = (Ok u, d)) ∧
  (∀ r d', summary_holdings d = (r, d') → d' = d) ∧
  (∀ u, summary_holdings d = (Ok u, d) →
     ∀ t, match held t (positions d) with
          | [] => pydict_get t u = None
          | first :: rest =>
              pydict_get t u =
                Some {| h_quantity := sum_of "quantity" first rest;
                        h_last_price := number_of "last_price" first;
                        h_value := sum_of "value" first rest |}
          end).
Proof.
  unfold summary_holdings. rewrite summary_accounts_positions.
  pose proof (summary_stocks_all_summable [] [] (positions d)) as Hsum.
  destruct (all_summable [] (positions d)).
  - destruct Hsum as (u & -> & Hu); [done|]. split; [|split].
    + split; [by eexists|done].
    + by intros r d' [= _ <-].
    + intros u' [= <-] t. specialize (Hu t). simpl in Hu.
      unfold summarized in Hu. by destruct (held t (positions d)).
  - destruct Hsum as (e & ->); [done|]. split; [|split].
    + split; [done|]. by intros [u ?].
    + by intros r d' [= _ <-].
    + by intros u.
Qed.

Lemma summary_holdings_sums_witness :
  ∃ u, summary_holdings mixed_ledger = (Ok u, mixed_ledger) ∧
       pydict_get (VStr "NVDA") u =
         Some {| h_quantity := PyFloat.of_Z 4; h_last_price := PyFloat.of_Z 120;
                 h_value := PyFloat.of_Z 480 |} ∧
       pydict_get (VStr "AAPL") u = None.
Proof.
  destruct (summary_holdings_sums mixed_ledger) as (Hret & _ & Hsums).
  destruct (proj1 Hret eq_refl) as (u & Hu). exists u. split; [exact Hu|].
  split; [exact (Hsums u Hu (VStr "NVDA"))|exact (Hsums u Hu (VStr "AAPL"))].
Defined.

(** The ledger the row loop builds holds well-typed positions only, so the
    summary of a freshly retrieved ledger never raises. *)
Lemma row_step_well_typed (row : csv_row) (d d' : account_dict) (r : result row_action) :
  row_step row d = (r, d') → Forall well_typed (positions d) → Forall well_typed (positions d').
Proof.
  intros Hstep Hd. pose proof (row_step_spec row d) as Hspec.
  destruct (read_row row) as [[| |acct nick val s]|e] eqn:Hread;
    try (rewrite Hspec in Hstep; by injection Hstep as <- <-).
  destruct (read_row_merge _ _ _ _ _ Hread) as (_ & _ & q & p & -> & _).
  clear Hspec. unfold row_step in Hstep. rewrite Hread in Hstep.
  unfold merge_row, set_account_dict, dict_mem, odict_mem in Hstep.
  assert (∀ (a : account) (d0 : account_dict),
            Forall well_typed (stocks a) → Forall well_typed (positions d0) →
            Forall well_typed (positions (dict_set acct a d0))) as Hset.
  { intros a d0 Ha. unfold dict_set, positions.
    induction d0 as [|[k0 a0] d0 IH]; simpl; intros Hd0.
    - rewrite app_nil_r. done.
    - apply Forall_app in Hd0 as [H0 Hd0].
      case_bool_decide; simpl; apply Forall_app; auto. }
  destruct (odict_get acct d) as [a|] eqn:Hget; cbn in Hstep.
  - rewrite (add_stock_appends d acct a (create_stock_dict (str_cell (Symbol row)) q p val)
               val Hget eq_refl) in Hstep.
    injection Hstep as <- <-. apply Hset; [|done]. simpl.
    apply Forall_app. split; [|repeat constructor; apply create_stock_dict_well_typed].
    unfold positions in Hd. clear Hset. induction d as [|[k0 a0] d IH]; [done|].
    simpl in *. apply Forall_app in Hd as [H0 Hd].
    case_bool_decide; [by simplify_eq|by apply IH].
  - injection Hstep as <- <-. apply Hset; [|done]. simpl.
    repeat constructor. apply create_stock_dict_well_typed.
Qed.

(** C7 as worded fails on the code: two accounts hold the same cash ticker
    with last prices 10.0 and then 20.0; the summary adds the quantities and
    the values and keeps 10.0, the price seen first, not the one seen last. *)
Lemma summary_holdings_counterexample :
  ∃ u h, summary_holdings cash_ledger = (Ok u, cash_ledger) ∧
         pydict_get (VStr "SPAXX**") u = Some h ∧
         h = {| h_quantity := PyFloat.of_Z 2; h_last_price := PyFloat.of_Z 10;
                h_value := PyFloat.of_Z 30 |} ∧
         option_map (number_of "last_price")
           (last (held (VStr "SPAXX**") (positions cash_ledger))) = Some (PyFloat.of_Z 20) ∧
         h_last_price h ≠ PyFloat.of_Z 20.
Proof.
  eexists _, _. split; [vm_compute; reflexivity|].
  split; [vm_compute; reflexivity|]. split; [reflexivity|].
  split; [vm_compute; reflexivity|]. vm_compute. discriminate.
Qed.

(** ** Account numbers and nicknames in the dropdown *)

Section AccountRegexFacts.
Import PyStr FloatParse Utf8 AccountRegex.

Lemma span_decimals_spec (l ds after : list uchar) :
  span_decimals l = (ds, after) → l = ds ++ after ∧ decimals ds.
Proof.
  revert ds after. induction l as [|c l IH]; simpl; intros ds after.
  - intros [= <- <-]. by split; [|constructor].
  - destruct (is_decimal (point c)) eqn:Hc.
    + destruct (span_decimals l) as [d r]. intros [= <- <-].
      destruct (IH d r eq_refl) as [-> Hd]. split; [done|by constructor].
    + intros [= <- <-]. by split; [|constructor].
Qed.

Lemma span_decimals_app (ds post : list uchar) (c : uchar) :
  decimals ds → is_decimal (point c) = false →
  span_decimals (ds ++ c :: post) = (ds, c :: post).
Proof.
  intros Hds Hc. induction Hds as [|d ds Hd _ IH]; simpl.
  - by rewrite Hc.
  - by rewrite Hd, IH.
Qed.

Lemma is_char_point (c : ascii) (u : uchar) : is_char c u = true → point u = byte c.
Proof. apply N.eqb_eq. Qed.

Lemma search_account_units_sound (l : list uchar) (prev : option uchar) (tok : list uchar) :
  search_account_units prev l = Some tok →
  account_token tok ∧ parenthesized tok (before prev ++ l).
Proof.
  revert prev. induction l as [|c l IH]; intros prev; cbn [search_account_units]; [done|].
  destruct (after_open prev && is_account_head c) eqn:Hhere.
  - apply andb_true_iff in Hhere as [Hopen Hhead].
    destruct (span_decimals l) as [ds after] eqn:Hspan.
    destruct (span_decimals_spec _ _ _ Hspan) as [-> Hds].
    destruct ((6 <=? List.length ds)%nat && starts_with_close after) eqn:Hlen.
    + intros [= <-]. apply andb_true_iff in Hlen as [Hlen Hclose].
      apply Nat.leb_le in Hlen.
      destruct prev as [p|]; [|done]. simpl in Hopen.
      destruct after as [|cl post]; [done|]. simpl in Hclose.
      split; [by exists c, ds|]. by exists [], p, cl, post.
    + intros Hrec. destruct (IH _ Hrec) as [Htok (pre & o & cl & post & Heq & Ho & Hcl)].
      split; [done|]. exists (before prev ++ pre), o, cl, post.
      split; [|done]. rewrite <- app_assoc. f_equal. exact Heq.
  - intros Hrec. destruct (IH _ Hrec) as [Htok (pre & o & cl & post & Heq & Ho & Hcl)].
    split; [done|]. exists (before prev ++ pre), o, cl, post.
    split; [|done]. rewrite <- app_assoc. f_equal. exact Heq.
Qed.

Lemma search_account_units_complete (pre tok post : list uchar) (o cl : uchar)
    (prev : option uchar) :
  account_token tok → is_char "(" o = true → is_char ")" cl = true →
  ∃ tok', search_account_units prev (pre ++ o :: tok ++ cl :: post) = Some tok'.
Proof.
  intros (c & ds & -> & Hhead & Hds & Hlen) Ho Hcl. revert prev.
  induction pre as [|a pre IH]; intros prev.
  - cbn [app search_account_units].
    replace (after_open prev && is_account_head o) with false.
    2:{ unfold is_account_head, is_char. rewrite (is_char_point _ _ Ho).
        by rewrite andb_false_r. }
    cbn [app search_account_units after_open]. rewrite Ho, Hhead. cbn [andb].
    rewrite (span_decimals_app ds post cl Hds).
    2:{ by rewrite (is_char_point _ _ Hcl). }
    apply Nat.leb_le in Hlen. rewrite Hlen. cbn [starts_with_close]. rewrite Hcl.
    by eexists.
  - cbn [app search_account_units].
    destruct (if after_open prev && is_account_head a then _ else _) as [tok'|];
      [by eexists|apply IH].
Qed.

Lemma lazy_until_open_spec (l nick : list ascii) :
  lazy_until_open l = Some nick ↔
  ∃ post, l = nick ++ "("%char :: post ∧
          Forall (λ x, x ≠ "("%char ∧ is_newline x = false) nick.
Proof.
  revert nick. induction l as [|c l IH]; intros nick; simpl.
  - split; [done|]. intros (post & Heq & _). by destruct nick.
  - destruct (Ascii.eqb_spec c "(") as [->|Hc].
    + split.
      * intros [= <-]. by exists l.
      * intros (post & Heq & Hn). destruct nick as [|x nick]; [done|].
        injection Heq as <- _. inversion Hn as [|? ? [Hx _] _]. done.
    + destruct (is_newline c) eqn:Hnl.
      * split; [done|]. intros (post & Heq & Hn). destruct nick as [|x nick].
        -- by injection Heq as ->.
        -- injection Heq as <- _. inversion Hn as [|? ? [_ Hx] _]. congruence.
      * split.
        -- destruct (lazy_until_open l) as [n|] eqn:Hl; [|done]. intros [= <-].
           destruct (proj1 (IH n) eq_refl) as (post & -> & Hn).
           exists post. split; [done|]. by constructor.
        -- intros (post & Heq & Hn). destruct nick as [|x nick].
           ++ by injection Heq as ->.
           ++ injection Heq as <- ->. inversion Hn as [|? ? _ Hn']; subst.
              rewrite (proj2 (IH nick)); [done|]. by exists post.
Qed.

End AccountRegexFacts.

Lemma odict_set_absent {K V : Type} `{EqDecision K} (k : K) (v : V) (d : list (K * V)) :
  odict_get k d = None → odict_set k v d = d ++ [(k, v)].
Proof.
  induction d as [|[k' v'] d IH]; simpl; [done|].
  case_bool_decide; [done|]. intros Hd. by rewrite IH.
Qed.

(** C9, as the code has it. An account number is found in an option's text
    exactly when the text holds, between parentheses, a [Z] or a decimal
    digit followed by six decimal digits or more (so seven digits at least
    for a number without the [Z]), a decimal digit being one of any script,
    as the pattern's [\d] has it on a [str]; what is found is such a token.
    The nickname is the text before the first opening parenthesis that is
    not the first character, provided no line break comes before it. An
    option without an account number changes neither the ledger nor the
    local dictionary; one with both is set without overwrite, with balance
    0.0 and no positions. *)
Theorem dropdown_account_extraction (text : string) (set_flag : bool)
    (d local_dict : account_dict) :
  ((∃ tok, AccountRegex.search_account text = Some tok) ↔
   (∃ tok, account_token tok ∧ parenthesized tok (Utf8.uchars (PyStr.chars text)))) ∧
  (∀ found, AccountRegex.search_account text = Some found →
     ∃ tok, found = Utf8.text_of tok ∧ account_token tok ∧
            parenthesized tok (Utf8.uchars (PyStr.chars text))) ∧
  (∀ nick, AccountRegex.search_nickname text = Some nick ↔
     ∃ c rest post,
       nick = PyStr.of_chars (c :: rest) ∧
       PyStr.chars text = c :: rest ++ "("%char :: post ∧
       AccountRegex.is_newline c = false ∧
       Forall (λ x, x ≠ "("%char ∧ AccountRegex.is_newline x = false) rest) ∧
  (AccountRegex.search_account text = None →
   list_accounts_step set_flag text (d, local_dict) = (d, local_dict)) ∧
  (∀ acct nick,
     AccountRegex.search_account text = Some acct →
     AccountRegex.search_nickname text = Some nick →
     list_accounts_step true text (d, local_dict) =
       (if dict_mem acct d then d
        else d ++ [(acct, {| balance := PyFloat.f0; nickname := Some nick; stocks := [] |})],
        local_dict)).
Proof.
  unfold AccountRegex.search_account.
  split; [|split; [|split; [|split]]].
  - split.
    + intros [tok Htok].
      destruct (AccountRegex.search_account_units None (Utf8.uchars (PyStr.chars text)))
        as [l|] eqn:Hl; [|done].
      exists l. apply (search_account_units_sound _ None _ Hl).
    + intros (tok & Htok & pre & o & cl & post & Heq & Ho & Hcl). rewrite Heq.
      destruct (search_account_units_complete pre tok post o cl None Htok Ho Hcl)
        as [tok' ->].
      by eexists.
  - intros found.
    destruct (AccountRegex.search_account_units None (Utf8.uchars (PyStr.chars text)))
      as [l|] eqn:Hl; [|done].
    intros [= <-]. exists l. split; [done|].
    apply (search_account_units_sound _ None _ Hl).
  - intros nick. unfold AccountRegex.search_nickname.
    destruct (PyStr.chars text) as [|c l].
    + split; [done|]. by intros (? & ? & ? & _ & ? & _).
    + destruct (AccountRegex.is_newline c) eqn:Hc.
      * split; [done|]. intros (? & ? & ? & _ & [= <- _] & ? & _). congruence.
      * split.
        -- destruct (AccountRegex.lazy_until_open l) as [n|] eqn:Hn; [|done].
           intros [= <-]. apply lazy_until_open_spec in Hn as (post & -> & Hrest).
           by exists c, n, post.
        -- intros (c' & rest & post & -> & [= <- ->] & _ & Hrest).
           rewrite (proj2 (lazy_until_open_spec _ rest)); [done|]. by exists post.
  - unfold list_accounts_step, AccountRegex.search_account. by intros ->.
  - intros acct nick Hacct Hnick. unfold list_accounts_step, AccountRegex.search_account.
    rewrite Hacct, Hnick. unfold set_account_dict, dict_mem, odict_mem, dict_set. cbn.
    destruct (odict_get acct d) eqn:Hget; cbn; [done|].
    by rewrite (odict_set_absent _ _ _ Hget).
Qed.

Example dropdown_individual :
  AccountRegex.search_account "Individual (Z12345678)" = Some "Z12345678" ∧
  AccountRegex.search_nickname "Individual (Z12345678)" = Some "Individual " ∧
  AccountRegex.search_account "ROTH IRA (IRA) (1234567)" = Some "1234567" ∧
  AccountRegex.search_nickname "ROTH IRA (IRA) (1234567)" = Some "ROTH IRA ".
Proof. vm_compute. repeat split; reflexivity. Qed.

(** C9 as worded fails on the code: 123456 is purely numeric with six digits
    and stands in parentheses after a nickname, yet no account number is
    found and the option adds nothing; with a seventh digit it is found. *)
Lemma dropdown_account_counterexample :
  spec_account_token (Utf8.uchars (PyStr.chars "123456")) ∧
  parenthesized (Utf8.uchars (PyStr.chars "123456"))
    (Utf8.uchars (PyStr.chars "Individual (123456)")) ∧
  AccountRegex.search_account "Individual (123456)" = None ∧
  list_accounts_loop true ["Individual (123456)"] [] = ([], []) ∧
  AccountRegex.search_account "Individual (1234567)" = Some "1234567".
Proof.
  split; [|split; [|repeat split; vm_compute; reflexivity]].
  - right. split; [repeat constructor|vm_compute; lia].
  - exists (Utf8.uchars (PyStr.chars "Individual ")), (Utf8.UChar 40 ["("%char]),
      (Utf8.UChar 41 [")"%char]), [].
    repeat split; vm_compute; reflexivity.
Qed.

(** ** Dry runs and preview mismatches *)

Section OnlyEvents.
Import Page.
Context {A B : Type} (P : event → Prop).

Lemma only_ret (a : A) : only_events (mret a) P.
Proof. intros h. exists []. simpl. by rewrite app_nil_r. Qed.

Lemma only_throw (e : exn) : only_events (@throw A e) P.
Proof. intros h. exists []. simpl. by rewrite app_nil_r. Qed.

Lemma only_lift (r : result A) : only_events (lift r) P.
Proof. intros h. exists []. simpl. by rewrite app_nil_r. Qed.

Lemma only_perform (page : browser) (c : call A) :
  (∀ r, P (Ev c r)) → only_events (perform page c) P.
Proof. intros Hc h. eexists. split; [reflexivity|]. repeat constructor. apply Hc. Qed.

Lemma only_bind (m : M A) (k : A → M B) :
  only_events m P → (∀ a, only_events (k a) P) → only_events (m ≫= k) P.
Proof.
  intros Hm Hk h. unfold mbind, M_bind.
  destruct (Hm h) as (n1 & Hh1 & H1).
  destruct (m h) as [[a|e] h1]; simpl in *; subst h1.
  - destruct (Hk a (h ++ n1)) as (n2 & Hh2 & H2).
    exists (n1 ++ n2). rewrite Hh2, app_assoc. split; [done|]. by apply Forall_app.
  - by exists n1.
Qed.

Lemma only_try_timeout (m : M A) (handler : exn → M A) :
  only_events m P → (∀ e, only_events (handler e) P) →
  only_events (try_timeout m handler) P.
Proof.
  intros Hm Hh h. unfold try_timeout.
  destruct (Hm h) as (n1 & Hh1 & H1).
  destruct (m h) as [[a|e] h1]; simpl in *; subst h1; [by exists n1|].
  destruct (is_timeout e); [|by exists n1].
  destruct (Hh e (h ++ n1)) as (n2 & Hh2 & H2).
  exists (n1 ++ n2). rewrite Hh2, app_assoc. split; [done|]. by apply Forall_app.
Qed.

End OnlyEvents.

Ltac only_step :=
  match goal with
  | |- only_events (mbind _ _) _ => apply only_bind; [|intros ?]
  | |- only_events (perform _ _) _ => apply only_perform; intros ?; exact I
  | |- only_events (mret _) _ => apply only_ret
  | |- only_events (throw _) _ => apply only_throw
  | |- only_events (lift _) _ => apply only_lift
  | |- only_events (try_timeout _ _) _ => apply only_try_timeout; [|intros ?]
  | |- only_events (if ?b then _ else _) _ => destruct b
  | |- only_events (match ?x with _ => _ end) _ => destruct x
  end.

Section DryRun.
Import Page.
Variable page : browser.

Lemma only_read_error (t : target) (current : option string) :
  only_events (read_error page t current) not_place_order.
Proof.
  intros h. unfold read_error, perform.
  destruct (page _ h (TextContent t (Some 2000))) as [em|e]; simpl.
  - eexists. rewrite <- app_assoc. split; [reflexivity|]. by repeat constructor.
  - eexists. split; [reflexivity|]. by repeat constructor.
Qed.

Lemma only_extract_error : only_events (extract_error page) not_place_order.
Proof.
  unfold extract_error.
  apply only_bind; [apply only_read_error|intros em1].
  apply only_bind; [|intros em2; repeat only_step].
  destruct em1 as [[|]|]; first [apply only_read_error | apply only_ret].
Qed.

(** A dry run makes no click on the Place order button, whatever the page
    does and however the call ends. *)
Theorem dry_run_never_submits (stock : string) (quantity : PyFloat.float)
    (action account : string) (h : list event) :
  ∃ new, (transaction page stock quantity action account true h).2 = h ++ new ∧
         Forall not_place_order new.
Proof.
  assert (only_events (transaction_body page stock quantity action account true)
            not_place_order) as Hbody.
  { unfold transaction_body, extended_hours, enter_order, preview_differs.
    cbn [negb].
    repeat first [apply only_extract_error | only_step]. }
  destruct (Hbody h) as (new & Hh & Hnew). exists new. split; [|done].
  unfold transaction.
  destruct (transaction_body page stock quantity action account true h) as [[r|e] h'];
    simpl in *; [done|by destruct (is_timeout e)].
Qed.

End DryRun.

(** The preview does not show the expected quantity: the call fails with
    the preview message and the Place order button is never clicked, dry run
    or not. *)
Example transaction_preview_mismatch :
  let page : Page.browser := λ A h c,
    match c in Page.call T return result T → result T with
    | Page.IsVisible (Page.PreviewQuantity _) => λ _, Ok false
    | _ => λ r, r
    end (smooth_page "$120.00" false A h c) in
  let run := transaction page "nvda" (PyFloat.of_Z 2) "buy" "z12345678" false [] in
  run.1 = Ok (false, Some (ErrText "Order preview is not what is expected")) ∧
  Forall not_place_order run.2.
Proof. vm_compute. split; [reflexivity|]. repeat constructor. Qed.

(** A price printed with a thousands separator is not a float for
    [float()]: the order-type decision is not reached and [transaction]
    returns the [ValueError]. *)
Example order_comma_price :
  order_for "$1,234.56" false "buy" = None ∧
  (transaction (smooth_page "$1,234.56" false) "brk" (PyFloat.of_Z 1) "buy" "z12345678"
     true []).1 =
    Ok (false,
        Some (ErrObject (Exn ValueError "could not convert string to float: '1,234.56'"))).
Proof. vm_compute. split; reflexivity. Qed.

(** ** The order entered on the page *)

Section Entered.
Import Page.
Variable page : browser.

Lemma grows_chosen (action : string) : grows (chosen action).
Proof.
  intros b b' o Hsub (text & price & extended & (Ht & Hp & Hx) & Ho).
  exists text, price, extended. by repeat split; auto.
Qed.

Lemma grows_after (pre : list event) (F : list event → order_kind → Prop) :
  grows F → grows (after pre F).
Proof.
  intros HF b b' o Hsub. apply HF. intros ev [Hev|Hev]%elem_of_app; apply elem_of_app; auto.
Qed.

Lemma entered_prepend (F : list event → order_kind → Prop) (n1 n2 : list event) :
  Forall not_preview n1 → entered (after n1 F) n2 → entered F (n1 ++ n2).
Proof.
  intros H1 [H2|(before & o & click & post & -> & HF & Hb & Hp)].
  - left. by apply Forall_app.
  - right. exists (n1 ++ before), o, click, post.
    split; [by rewrite app_assoc|]. split; [done|]. split; [by apply Forall_app|done].
Qed.

Lemma entered_grows (F : list event → order_kind → Prop) (n1 n2 : list event) :
  grows F → Forall not_preview n1 → entered F n2 → entered F (n1 ++ n2).
Proof.
  intros HF H1 H2. apply entered_prepend; [done|].
  destruct H2 as [H2|(before & o & click & post & -> & Ho & Hb & Hp)]; [by left|].
  right. exists before, o, click, post. split; [done|]. split; [|done].
  apply (HF before); [|done]. intros ev Hev. apply elem_of_app. by right.
Qed.

Section Steps.
Context {A R : Type}.
Implicit Types (k : A → M R) (F : list event → order_kind → Prop).

(** A step that makes no click on Preview order. *)
Lemma enters_step (m : M A) k F :
  only_events m not_preview → grows F → (∀ a, enters (k a) F) → enters (m ≫= k) F.
Proof.
  intros Hm HF Hk h. unfold mbind, M_bind.
  destruct (Hm h) as (n1 & Hh1 & H1).
  destruct (m h) as [[a|e] h1]; simpl in *; subst h1.
  - destruct (Hk a (h ++ n1)) as (n2 & Hh2 & H2).
    exists (n1 ++ n2). rewrite Hh2, app_assoc. split; [done|]. by apply entered_grows.
  - exists n1. split; [done|]. by left.
Qed.

(** A call whose answer is kept for the statement. *)
Lemma enters_perform (c : call A) k F :
  (∀ r, not_preview (Ev c r)) →
  (∀ a, enters (k a) (after [Ev c (Ok a)] F)) →
  enters (perform page c ≫= k) F.
Proof.
  intros Hc Hk h. unfold mbind, M_bind, perform.
  destruct (page A h c) as [a|e] eqn:Hr.
  - destruct (Hk a (h ++ [Ev c (Ok a)])) as (n2 & Hh2 & H2).
    exists ([Ev c (Ok a)] ++ n2). rewrite Hh2, app_assoc. split; [done|].
    apply entered_prepend; [|done]. repeat constructor. apply Hc.
  - exists [Ev c (Raise e)]. split; [done|]. left. repeat constructor. apply Hc.
Qed.

Lemma enters_ret (a : A) k F : enters (k a) F → enters (mret a ≫= k) F.
Proof. intros Hk h. apply Hk. Qed.

Lemma enters_throw (e : exn) k F : enters (throw e ≫= k) F.
Proof. intros h. exists []. simpl. rewrite app_nil_r. split; [done|]. left. constructor. Qed.

Lemma enters_lift (r : result A) k F :
  (∀ a, r = Ok a → enters (k a) F) → enters (lift r ≫= k) F.
Proof.
  intros Hk h. destruct r as [a|e].
  - apply (Hk a eq_refl).
  - exists []. simpl. rewrite app_nil_r. split; [done|]. left. constructor.
Qed.

End Steps.

(** Lines 514-526 before a continuation: the first answer is the flag, and
    the precision follows from it. *)
Lemma enters_extended_hours {R : Type} (k : bool * Z → M R)
    (F : list event → order_kind → Prop) :
  grows F →
  (∀ extended : bool,
     enters (k (extended, if extended then 2 else 3))
       (after [Ev (IsVisible ExtendedHoursText) (Ok extended)] F)) →
  enters (extended_hours page ≫= k) F.
Proof.
  intros HF Hk h. unfold extended_hours, mbind, M_bind, mret, M_ret, perform.
  destruct (page bool h (IsVisible ExtendedHoursText)) as [[]|e].
  - set (h1 := h ++ [Ev (IsVisible ExtendedHoursText) (Ok true)]).
    destruct (page bool h1 (IsVisible ExtendedHoursOff)) as [off|e].
    + set (h2 := h1 ++ [Ev (IsVisible ExtendedHoursOff) (Ok off)]).
      assert (∀ more, Forall not_preview more →
                ∃ new, (k (true, 2) (h2 ++ more)).2 = h ++ new ∧ entered F new) as Hgo.
      { intros more Hmore. destruct (Hk true (h2 ++ more)) as (n2 & Hh2 & H2).
        exists ([Ev (IsVisible ExtendedHoursText) (Ok true)]
                  ++ ([Ev (IsVisible ExtendedHoursOff) (Ok off)] ++ more) ++ n2).
        split; [rewrite Hh2; unfold h2, h1; by rewrite <- !app_assoc|].
        apply entered_prepend; [by repeat constructor|].
        apply entered_grows; [by apply grows_after| |done].
        apply Forall_app. split; [by repeat constructor|done]. }
      destruct off.
      * destruct (page unit h2 (Tick ExtendedHoursOff)) as [[]|e].
        -- apply (Hgo [Ev (Tick ExtendedHoursOff) (Ok tt)]). by repeat constructor.
        -- eexists. unfold h2, h1. rewrite <- !app_assoc. split; [reflexivity|].
           left. by repeat constructor.
      * destruct (Hgo []) as (new & Hnew & Hentered); [constructor|].
        rewrite app_nil_r in Hnew. by exists new.
    + eexists. unfold h1. rewrite <- !app_assoc. split; [reflexivity|].
      left. by repeat constructor.
  - destruct (Hk false (h ++ [Ev (IsVisible ExtendedHoursText) (Ok false)]))
      as (n2 & Hh2 & H2).
    exists ([Ev (IsVisible ExtendedHoursText) (Ok false)] ++ n2).
    rewrite Hh2, app_assoc. split; [done|].
    apply entered_prepend; [by repeat constructor|done].
  - eexists. split; [reflexivity|]. left. by repeat constructor.
Qed.

(** Lines 558-573: the order is entered and previewed, and nothing that
    follows clicks Preview order again. *)
Lemma enters_order {R : Type} (o : order_kind) (rest : M R)
    (F : list event → order_kind → Prop) :
  F [] o → only_events rest not_preview →
  enters (_ ← enter_order page o; _ ← perform page (Click PreviewOrderButton); rest) F.
Proof.
  intros HF Hrest h. unfold enter_order, mbind, M_bind, perform.
  destruct o as [|price]; cbn -[app];
    repeat match goal with
           | r : unit |- _ => destruct r
           | |- context [page unit ?h0 ?c] =>
               lazymatch h0 with
               | context [page] => fail
               | _ => destruct (page unit h0 c) as [?|?]; cbn -[app]
               end
           end;
    try (eexists; rewrite <- ?app_assoc; cbn [app]; split; [reflexivity|];
         left; by repeat constructor).
  - match goal with |- context [rest ?h0] => destruct (Hrest h0) as (n & Hn & Hall) end.
    exists (order_events Market ++ Ev (Click PreviewOrderButton) (Ok tt) :: n).
    rewrite Hn, <- !app_assoc. split; [done|].
    right. by exists [], Market, (Ok tt), n.
  - eexists. rewrite <- !app_assoc. cbn [app]. split; [reflexivity|].
    right. by exists [], Market, (Raise e), [].
  - match goal with |- context [rest ?h0] => destruct (Hrest h0) as (n & Hn & Hall) end.
    exists (order_events (Limit price) ++ Ev (Click PreviewOrderButton) (Ok tt) :: n).
    rewrite Hn, <- !app_assoc. split; [done|].
    right. by exists [], (Limit price), (Ok tt), n.
  - eexists. rewrite <- !app_assoc. cbn [app]. split; [reflexivity|].
    right. by exists [], (Limit price), (Raise e), [].
Qed.

Lemma preview_read_error (t : target) (current : option string) :
  only_events (read_error page t current) not_preview.
Proof.
  intros h. unfold read_error, perform.
  destruct (page _ h (TextContent t (Some 2000))) as [em|e]; simpl.
  - eexists. rewrite <- app_assoc. split; [reflexivity|]. by repeat constructor.
  - eexists. split; [reflexivity|]. by repeat constructor.
Qed.

Lemma preview_extract_error : only_events (extract_error page) not_preview.
Proof.
  unfold extract_error.
  apply only_bind; [apply preview_read_error|intros em1].
  apply only_bind; [|intros em2; repeat only_step].
  destruct em1 as [[|]|]; first [apply preview_read_error | apply only_ret].
Qed.

Ltac grows_step := repeat apply grows_after; apply grows_chosen.

(** What the log of [transaction_body] shows of the order: a click on
    Preview order comes right after the calls that enter the order chosen
    for the last price and the extended-hours flag the page showed. *)
Lemma enters_transaction_body (stock : string) (quantity : PyFloat.float)
    (action account : string) (dry : bool) :
  enters (transaction_body page stock quantity action account dry) (chosen action).
Proof.
  unfold transaction_body.
  do 11 (apply enters_step; [repeat only_step|grows_step|intros ?]).
  apply enters_perform; [intros ?; exact I|intros text].
  destruct text as [text|]; [apply enters_ret|apply enters_throw].
  do 2 (apply enters_step; [repeat only_step|grows_step|intros ?]).
  apply enters_extended_hours; [grows_step|intros extended].
  do 5 (apply enters_step; [repeat only_step|grows_step|intros ?]).
  apply enters_lift. intros price Hprice.
  apply enters_order.
  - exists text, price, extended. split; [|reflexivity].
    split; [|split; [exact Hprice|]]; unfold after; cbn [app];
      repeat constructor.
  - unfold preview_differs. repeat first [apply preview_extract_error | only_step].
Qed.

(** The same of [transaction], whose handlers add no event. *)
Lemma enters_transaction (stock : string) (quantity : PyFloat.float)
    (action account : string) (dry : bool) :
  enters (transaction page stock quantity action account dry) (chosen action).
Proof.
  intros h. destruct (enters_transaction_body stock quantity action account dry h)
    as (new & Hh & Hnew).
  exists new. split; [|done]. unfold transaction.
  destruct (transaction_body page stock quantity action account dry h) as [[r|e] h'];
    simpl in *; [done|by destruct (is_timeout e)].
Qed.

(** A log that holds a click on Preview order holds the order entered
    before it. *)
Lemma entered_previewed (F : list event → order_kind → Prop) (new : list event)
    (click : result unit) :
  entered F new → Ev (Click PreviewOrderButton) click ∈ new →
  ∃ before o click' post,
    new = before ++ order_events o ++ Ev (Click PreviewOrderButton) click' :: post ∧
    F before o.
Proof.
  intros [Hnone|(before & o & click' & post & Hnew & HF & _)] Hin.
  - rewrite list.Forall_forall in Hnone. destruct (Hnone _ Hin).
  - by exists before, o, click', post.
Qed.

End Entered.



(** C2. In every run of [transaction] that gets to the click on Preview
    order, a limit order is entered exactly when the last price is below 1 or
    extended hours are active, and the price typed into the Limit price box
    is then the last price plus the offset for a buy and the last price minus
    the offset for any other action, rounded to the precision in force (2
    decimals with extended hours, 3 without), the offset being 0.01 for a
    last price above 0.1 and 0.0001 otherwise. *)
Theorem limit_price_offset (page : Page.browser) (stock : string)
    (quantity : PyFloat.float) (action account : string) (dry : bool)
    (h new : list Page.event) (res : result (bool * option error_message))
    (click : result unit) :
  transaction page stock quantity action account dry h = (res, h ++ new) →
  Page.Ev (Page.Click Page.PreviewOrderButton) click ∈ new →
  ∃ text price extended before click' post,
    quoted text price extended before ∧
    let offset :=
      if PyFloat.fgt price PyFloat.f0_1 then PyFloat.f0_01 else PyFloat.f0_0001 in
    let precision := if extended then 2 else 3 in
    let limit_price :=
      if String.eqb (PyStr.lower action) "buy"
      then PyFloat.round (PyFloat.fadd price offset) precision
      else PyFloat.round (PyFloat.fsub price offset) precision in
    new = before
          ++ order_events
               (if PyFloat.flt price PyFloat.f1 || extended then Limit limit_price
                else Market)
          ++ Page.Ev (Page.Click Page.PreviewOrderButton) click' :: post.
Proof.
  intros Hrun Hin.
  destruct (enters_transaction page stock quantity action account dry h)
    as (new' & Hh & Hnew).
  rewrite Hrun in Hh. simpl in Hh. apply app_inv_head in Hh as <-.
  destruct (entered_previewed _ _ _ Hnew Hin)
    as (before & o & click' & post & -> & text & price & extended & Hq & ->).
  by exists text, price, extended, before, click', post.
Qed.

(** A buy at 0.0525 in regular hours and a sell at 120.00 in extended
    hours. *)
Lemma limit_price_offset_witness :
  (∃ text price extended before click' post,
     quoted text price extended before ∧
     let offset :=
       if PyFloat.fgt price PyFloat.f0_1 then PyFloat.f0_01 else PyFloat.f0_0001 in
     let precision := if extended then 2 else 3 in
     let limit_price :=
       if String.eqb (PyStr.lower "Buy") "buy"
       then PyFloat.round (PyFloat.fadd price offset) precision
       else PyFloat.round (PyFloat.fsub price offset) precision in
     (transaction regular_hours_page "nvda" (PyFloat.of_Z 2) "Buy" "z12345678" false []).2 =
       before
       ++ order_events
            (if PyFloat.flt price PyFloat.f1 || extended then Limit limit_price
             else Market)
       ++ Page.Ev (Page.Click Page.PreviewOrderButton) click' :: post) ∧
  (∃ text price extended before click' post,
     quoted text price extended before ∧
     let offset :=
       if PyFloat.fgt price PyFloat.f0_1 then PyFloat.f0_01 else PyFloat.f0_0001 in
     let precision := if extended then 2 else 3 in
     let limit_price :=
       if String.eqb (PyStr.lower "sell") "buy"
       then PyFloat.round (PyFloat.fadd price offset) precision
       else PyFloat.round (PyFloat.fsub price offset) precision in
     (transaction extended_hours_page "nvda" (PyFloat.of_Z 2) "sell" "z12345678" false []).2 =
       before
       ++ order_events
            (if PyFloat.flt price PyFloat.f1 || extended then Limit limit_price
             else Market)
       ++ Page.Ev (Page.Click Page.PreviewOrderButton) click' :: post).
Proof.
  split.
  - apply (limit_price_offset regular_hours_page "nvda" (PyFloat.of_Z 2) "Buy"
             "z12345678" false [] _
             (transaction regular_hours_page "nvda" (PyFloat.of_Z 2) "Buy"
                "z12345678" false []).1 (Ok tt)).
    + vm_compute. reflexivity.
    + vm_compute. repeat constructor.
  - apply (limit_price_offset extended_hours_page "nvda" (PyFloat.of_Z 2) "sell"
             "z12345678" false [] _
             (transaction extended_hours_page "nvda" (PyFloat.of_Z 2) "sell"
                "z12345678" false []).1 (Ok tt)).
    + vm_compute. reflexivity.
    + vm_compute. repeat constructor.
Defined.

Ltac cut_log n k :=
  match goal with
  | |- ∃ before post, ?l = _ =>
      exists (take n l), (drop (n + k) l); vm_compute; reflexivity
  end.

(** The runs of the two statements above, spelled out: at 120.00 in
    regular hours the calls before the click on Preview order are those of a
    market order; at 0.0525 a buy types the limit price 0.053; at 120.00 in
    extended hours a sell types 119.99. *)
Example orders_entered :
  (∃ before post,
     (transaction (smooth_page "$120.00" false) "nvda" (PyFloat.of_Z 2) "buy" "z12345678"
        true []).2 =
     before ++ order_events Market
       ++ Page.Ev (Page.Click Page.PreviewOrderButton) (Ok tt) :: post) ∧
  (∃ before post,
     (transaction regular_hours_page "nvda" (PyFloat.of_Z 2) "Buy" "z12345678" false []).2 =
     before ++ order_events (Limit (PyFloat.of_decimal false 53 (-3)))
       ++ Page.Ev (Page.Click Page.PreviewOrderButton) (Ok tt) :: post) ∧
  (∃ before post,
     (transaction extended_hours_page "nvda" (PyFloat.of_Z 2) "sell" "z12345678" false []).2 =
     before ++ order_events (Limit (PyFloat.of_decimal false 11999 (-2)))
       ++ Page.Ev (Page.Click Page.PreviewOrderButton) (Ok tt) :: post).
Proof.
  split; [|split].
  - cut_log 17%nat 3%nat.
  - cut_log 17%nat 5%nat.
  - cut_log 18%nat 5%nat.
Qed.

(** ** The ledger after retrieval *)

(** The row loop keeps the ledger well typed: every position it merges was
    built by [create_stock_dict] from floats, also when it reached the ledger
    through [add_stock_to_account_dict]. *)
Theorem row_loop_well_typed (rows : list csv_row) (d d' : account_dict) (r : result unit) :
  row_loop rows d = (r, d') →
  Forall well_typed (positions d) → Forall well_typed (positions d').
Proof.
  revert d. induction rows as [|row rows IH]; intros d; simpl.
  - by intros [= <- <-].
  - destruct (row_step row d) as [ra d1] eqn:Hstep. intros Hloop Hd.
    pose proof (row_step_well_typed row d d1 ra Hstep Hd) as Hd1.
    destruct ra as [[| |acct nick val s]|e]; try (by injection Hloop as <- <-);
      by apply (IH d1).
Qed.

Lemma row_loop_well_typed_witness :
  Forall well_typed (positions (row_loop [nvda_row; nvda_row] []).2).
Proof.
  apply (row_loop_well_typed [nvda_row; nvda_row] [] _
           (row_loop [nvda_row; nvda_row] []).1).
  - vm_compute. reflexivity.
  - constructor.
Defined.

(** * Further properties of the ledger *)

(** ** [set_account_dict], [add_stock_to_account_dict], [validate_stocks] *)

Lemma odict_get_None_keys {V : Type} (k : string) (d : list (string * V)) :
  odict_get k d = None ↔ k ∉ map fst d.
Proof.
  induction d as [|[k' v] d IH]; simpl.
  - split; [intros _; apply not_elem_of_nil|done].
  - rewrite not_elem_of_cons. case_bool_decide; [|tauto].
    split; [done|]. by intros [].
Qed.

Lemma dict_set_keys (k : string) (a : account) (d : account_dict) :
  keys (dict_set k a d) = if dict_mem k d then keys d else keys d ++ [k].
Proof.
  unfold dict_set, dict_mem, keys. destruct (odict_mem k d) eqn:Hm.
  - by apply odict_set_keys.
  - unfold odict_mem in Hm. destruct (odict_get k d) eqn:Hg; [done|].
    rewrite (odict_set_absent _ _ _ Hg). by rewrite map_app.
Qed.

Lemma dict_set_NoDup (k : string) (a : account) (d : account_dict) :
  NoDup (keys d) → NoDup (keys (dict_set k a d)).
Proof.
  intros Hd. rewrite dict_set_keys. unfold dict_mem, odict_mem.
  destruct (odict_get k d) eqn:Hg; [done|].
  apply NoDup_app. split; [done|]. split; [|apply NoDup_singleton].
  intros x Hx ->%list_elem_of_singleton. by apply odict_get_None_keys in Hg.
Qed.

(** [set_account_dict] returns [True] exactly when the account is new or
    [overwrite] is set, and the stock list passes [validate_stocks]. When it
    returns [False] the ledger is untouched; in particular a list that fails
    validation changes nothing, whatever [overwrite] says. When it returns
    [True] the account reads back as it was given, a new account goes to the
    end of the ledger, and the other accounts are as they were. *)
Theorem set_account_dict_result (account_num : string) (bal : option PyFloat.float)
    (nick : option string) (stks : option (list stock)) (overwrite : bool)
    (d : account_dict) :
  let entry := {| balance := from_opt PyFloat.f0 bal; nickname := nick;
                  stocks := from_opt [] stks |} in
  let r := set_account_dict account_num bal nick stks overwrite d in
  r.1 = (overwrite || negb (dict_mem account_num d)) && validate_stocks stks ∧
  (r.1 = false → r.2 = d) ∧
  (r.1 = true → dict_get account_num r.2 = Some entry) ∧
  (r.1 = true → dict_mem account_num d = false → r.2 = d ++ [(account_num, entry)]) ∧
  (∀ k, k ≠ account_num → dict_get k r.2 = dict_get k d).
Proof.
  unfold set_account_dict.
  destruct (overwrite || negb (dict_mem account_num d)) eqn:Hgo; simpl;
    [|by repeat split].
  destruct (validate_stocks stks); simpl; [|by repeat split].
  split; [done|]. split; [done|]. unfold dict_get, dict_set. split; [|split].
  - intros _. rewrite odict_get_set_eq. by destruct bal, stks.
  - intros _ Hm. unfold dict_mem, odict_mem in Hm.
    destruct (odict_get account_num d) eqn:Hg; [done|].
    rewrite (odict_set_absent _ _ _ Hg). by destruct bal, stks.
  - intros k Hk. by rewrite odict_get_set_ne by congruence.
Qed.

(** [add_stock_to_account_dict] appends before it reads [stock["value"]]: a
    stock dictionary without that field raises [KeyError], and by then the
    stock is already in the account's list, with the balance as it was. *)
Theorem add_stock_to_account_dict_missing_value (d : account_dict) (account_num : string)
    (a : account) (s : stock) :
  dict_get account_num d = Some a →
  s !! "value" = None →
  ∃ d', add_stock_to_account_dict account_num s d = (Raise (Exn KeyError "value"), d') ∧
        dict_get account_num d' =
          Some {| balance := balance a; nickname := nickname a; stocks := stocks a ++ [s] |} ∧
        ∀ k, k ≠ account_num → dict_get k d' = dict_get k d.
Proof.
  intros Hget Hval. unfold add_stock_to_account_dict. rewrite Hget.
  unfold getitem. rewrite Hval. cbn.
  eexists. split; [reflexivity|]. unfold dict_get, dict_set. split.
  - by rewrite odict_get_set_eq.
  - intros k Hk. rewrite odict_get_set_ne by congruence. done.
Qed.

Lemma add_stock_to_account_dict_missing_value_witness :
  ∃ d', add_stock_to_account_dict "Z12345678" (delete "value" nvda) sample_ledger =
          (Raise (Exn KeyError "value"), d') ∧
        dict_get "Z12345678" d' =
          Some {| balance := PyFloat.of_Z 240; nickname := Some "Individual";
                  stocks := [nvda; delete "value" nvda] |} ∧
        ∀ k, k ≠ "Z12345678" → dict_get k d' = dict_get k sample_ledger.
Proof.
  apply (add_stock_to_account_dict_missing_value sample_ledger "Z12345678" individual
           (delete "value" nvda)); reflexivity.
Defined.

(** [validate_stocks] returns [True] exactly for [None] and for lists in
    which every dictionary holds a string ticker and float quantity, last
    price and value: a missing field, a [None], an int or a string where a
    float is due all make it return [False], and it never raises. *)
Theorem validate_stocks_accepts (stks : option (list stock)) :
  validate_stocks stks = true ↔ ∀ l, stks = Some l → Forall well_typed l.
Proof.
  destruct stks as [l|]; simpl.
  - rewrite validate_stock_list_Forall. split; [by intros Hl ? [= <-]|auto].
  - split; [done|done].
Qed.

(** ** Invariants of the row loop *)

(** What an accepted row does to the ledger: a new account with the row's
    value as balance, or one more position and a larger balance. *)
Lemma row_step_merge (row : csv_row) (d : account_dict) (acct : string)
    (nick : option string) (val : PyFloat.float) (s : stock) :
  read_row row = Ok (Merge acct nick val s) →
  s !! "value" = Some (VFloat val) ∧ well_typed s ∧
  row_step row d =
    (Ok (Merge acct nick val s),
     dict_set acct
       match dict_get acct d with
       | Some a => {| balance := PyFloat.fadd (balance a) val; nickname := nickname a;
                      stocks := stocks a ++ [s] |}
       | None => {| balance := val; nickname := nick; stocks := [s] |}
       end d).
Proof.
  intros Hread. destruct (read_row_merge _ _ _ _ _ Hread) as (_ & _ & q & p & -> & _).
  split; [reflexivity|]. split; [apply create_stock_dict_well_typed|].
  unfold row_step. rewrite Hread.
  unfold merge_row, set_account_dict, dict_mem, odict_mem, dict_get.
  destruct (odict_get acct d) as [a|] eqn:Hget; cbn.
  - by rewrite (add_stock_appends d acct a (create_stock_dict (str_cell (Symbol row)) q p val)
                  val Hget eq_refl).
  - reflexivity.
Qed.

Lemma row_step_other (row : csv_row) (d d' : account_dict) (r : result row_action) :
  row_step row d = (r, d') →
  (∀ acct nick val s, read_row row ≠ Ok (Merge acct nick val s)) → d' = d.
Proof.
  unfold row_step. intros Hstep Hnot.
  destruct (read_row row) as [[| |acct nick val s]|e]; try by injection Hstep.
  by destruct (Hnot acct nick val s).
Qed.

(** An invariant of the ledger kept by every single row is kept by the loop,
    however it ends. *)
Lemma row_loop_invariant (I : account_dict → Prop) :
  (∀ row d r d', row_step row d = (r, d') → I d → I d') →
  ∀ rows d r d', row_loop rows d = (r, d') → I d → I d'.
Proof.
  intros Hstep rows. induction rows as [|row rows IH]; intros d r d'; simpl.
  - by intros [= <- <-].
  - destruct (row_step row d) as [ra d1] eqn:Hrow. intros Hloop Hd.
    pose proof (Hstep _ _ _ _ Hrow Hd) as Hd1.
    destruct ra as [[| |acct nick val s]|e]; try (by injection Hloop as <- <-);
      by apply (IH d1 r d').
Qed.

Lemma row_step_cases (row : csv_row) (d d' : account_dict) (r : result row_action) :
  row_step row d = (r, d') →
  d' = d ∨
  ∃ acct nick val s,
    s !! "value" = Some (VFloat val) ∧ well_typed s ∧
    d' = dict_set acct
           match dict_get acct d with
           | Some a => {| balance := PyFloat.fadd (balance a) val; nickname := nickname a;
                          stocks := stocks a ++ [s] |}
           | None => {| balance := val; nickname := nick; stocks := [s] |}
           end d.
Proof.
  intros Hstep. destruct (read_row row) as [[| |acct nick val s]|e] eqn:Hread.
  1,2,4: left; eapply row_step_other; [exact Hstep|congruence].
  right. destruct (row_step_merge row d acct nick val s Hread) as (Hv & Hs & Heq).
  rewrite Heq in Hstep. injection Hstep as _ <-. by exists acct, nick, val, s.
Qed.

Lemma Forall_dict_set (P : string * account → Prop) (k : string) (a : account)
    (d : account_dict) :
  Forall P d → P (k, a) → Forall P (dict_set k a d).
Proof.
  intros Hd Ha. unfold dict_set. induction Hd as [|[k0 a0] d H0 Hd IH]; simpl.
  - by constructor.
  - case_bool_decide; by constructor.
Qed.

Lemma dict_get_Forall (P : string * account → Prop) (k : string) (a : account)
    (d : account_dict) :
  Forall P d → dict_get k d = Some a → P (k, a).
Proof.
  unfold dict_get. induction 1 as [|[k0 a0] d H0 Hd IH]; simpl; [done|].
  case_bool_decide; [|done]. intros [= <-]. by subst.
Qed.

(** After the row loop every account's balance is the sum of the values of
    its positions, added in list order, provided that held before the loop
    (as it does of the empty ledger [getAccountInfo] starts from), however
    the loop ends. *)
Theorem row_loop_balance_is_total (rows : list csv_row) (d d' : account_dict)
    (r : result unit) :
  row_loop rows d = (r, d') →
  Forall (λ entry, balance_is_total entry.2) d →
  Forall (λ entry, balance_is_total entry.2) d'.
Proof.
  apply (row_loop_invariant (Forall (λ entry, balance_is_total entry.2))).
  clear. intros row d r d' Hstep Hd.
  destruct (row_step_cases _ _ _ _ Hstep) as [->|(acct & nick & val & s & Hv & _ & ->)];
    [done|].
  apply Forall_dict_set; [done|]. simpl.
  destruct (dict_get acct d) as [a|] eqn:Hget.
  - destruct (dict_get_Forall _ _ _ _ Hd Hget) as (first & rest & Hst & Hbal). simpl in *.
    exists first, (rest ++ [s]). simpl. rewrite Hst. split; [done|].
    rewrite total_snoc, <- Hbal. unfold float_of. by rewrite Hv.
  - exists s, []. split; [done|]. unfold total, float_of. simpl. by rewrite Hv.
Qed.

Lemma row_loop_balance_is_total_witness :
  Forall (λ entry, balance_is_total entry.2) (row_loop [nvda_row; nvda_row] []).2.
Proof.
  apply (row_loop_balance_is_total [nvda_row; nvda_row] [] _
           (row_loop [nvda_row; nvda_row] []).1).
  - vm_compute. reflexivity.
  - constructor.
Defined.

Lemma extends_ledger_refl (d : account_dict) : extends_ledger d d.
Proof. intros k a Hk. exists a. repeat split; [done|]. exists []. by rewrite app_nil_r. Qed.

Lemma extends_ledger_trans (d1 d2 d3 : account_dict) :
  extends_ledger d1 d2 → extends_ledger d2 d3 → extends_ledger d1 d3.
Proof.
  intros H12 H23 k a Hk. destruct (H12 k a Hk) as (a2 & Hk2 & Hn2 & add2 & Hs2).
  destruct (H23 k a2 Hk2) as (a3 & Hk3 & Hn3 & add3 & Hs3).
  exists a3. split; [done|]. split; [congruence|].
  exists (add2 ++ add3). by rewrite Hs3, Hs2, app_assoc.
Qed.

(** The row loop only appends: every account that was in the ledger is
    still there under the same nickname (the Account Name of later rows is
    not used), with the positions it had, in order, before any new ones; the
    accounts keep their order and their numbers stay distinct. *)
Theorem row_loop_appends (rows : list csv_row) (d d' : account_dict) (r : result unit) :
  row_loop rows d = (r, d') →
  extends_ledger d d' ∧
  (∃ new_keys, keys d' = keys d ++ new_keys) ∧
  (NoDup (keys d) → NoDup (keys d')).
Proof.
  intros Hloop.
  refine (row_loop_invariant
            (λ d', extends_ledger d d' ∧ (∃ new_keys, keys d' = keys d ++ new_keys) ∧
                   (NoDup (keys d) → NoDup (keys d'))) _ rows d r d' Hloop _).
  2:{ split; [apply extends_ledger_refl|]. split; [|done]. exists []. by rewrite app_nil_r. }
  clear. intros row d1 r d2 Hstep (Hext & [nk Hkeys] & Hnd).
  destruct (row_step_cases _ _ _ _ Hstep) as [->|(acct & nick & val & s & _ & _ & ->)].
  { split; [done|]. split; [by exists nk|done]. }
  split; [|split].
  - apply (extends_ledger_trans d d1); [done|]. intros k a Hk.
    unfold dict_get, dict_set in *. destruct (decide (k = acct)) as [->|Hne].
    + rewrite odict_get_set_eq, Hk. eexists. split; [done|]. split; [done|]. by exists [s].
    + rewrite odict_get_set_ne by congruence. exists a. split; [done|]. split; [done|].
      exists []. by rewrite app_nil_r.
  - rewrite dict_set_keys. destruct (dict_mem acct d1); [by exists nk|].
    exists (nk ++ [acct]). by rewrite Hkeys, app_assoc.
  - intros Hd. by apply dict_set_NoDup, Hnd.
Qed.

Lemma row_loop_appends_witness :
  extends_ledger sample_ledger (row_loop [nvda_row] sample_ledger).2 ∧
  (∃ new_keys, keys (row_loop [nvda_row] sample_ledger).2 = keys sample_ledger ++ new_keys) ∧
  (NoDup (keys sample_ledger) → NoDup (keys (row_loop [nvda_row] sample_ledger).2)).
Proof.
  apply (row_loop_appends [nvda_row] sample_ledger _ (row_loop [nvda_row] sample_ledger).1).
  vm_compute. reflexivity.
Defined.

(** A row whose account number holds the letters and, which is how the
    disclaimer lines under the table read, ends the loop: the rows after it
    are not looked at, whatever they hold. *)
Theorem row_loop_stops_at_disclaimer (pre post : list csv_row) (row : csv_row)
    (acct : string) (d : account_dict) :
  Account_Number row = Some acct →
  PyStr.contains "and" acct = true →
  row_loop (pre ++ row :: post) d = row_loop pre d.
Proof.
  intros Hacct Hand. revert d. induction pre as [|r0 pre IH]; intros d; simpl.
  - unfold row_step, read_row. by rewrite Hacct, Hand.
  - destruct (row_step r0 d) as [[[| |]|] d1]; by rewrite ?IH.
Qed.

Lemma row_loop_stops_at_disclaimer_witness :
  row_loop ([nvda_row] ++ with_account (Some "The data and information in this spreadsheet") nvda_row
              :: [with_value (Some "unknown") nvda_row]) [] =
  row_loop [nvda_row] [].
Proof.
  apply (row_loop_stops_at_disclaimer [nvda_row] [with_value (Some "unknown") nvda_row]
           (with_account (Some "The data and information in this spreadsheet") nvda_row)
           "The data and information in this spreadsheet" []); reflexivity.
Defined.

(** ** The header check *)

(** On a file that has a header line, the header check of [getAccountInfo]
    passes exactly when every required column name is among the header names
    (repeated or extra names do not matter); otherwise the export is refused
    with an exception before any row is read, and the ledger is untouched. On
    a file without a line there are no header names, and the check itself
    raises [TypeError], the ledger being untouched as well. *)
Theorem parse_export_header (fieldnames : option (list string)) (rows : list csv_row)
    (d : account_dict) :
  match fieldnames with
  | Some names =>
      (header_ok names = true ↔ ∀ c, c ∈ required_elements → c ∈ names) ∧
      (header_ok names = true → parse_export fieldnames rows d = row_loop rows d) ∧
      (header_ok names = false →
       parse_export fieldnames rows d =
         (Raise (Exn Exception "Not enough elements in fidelity positions csv"), d))
  | None =>
      parse_export fieldnames rows d =
        (Raise (Exn TypeError "'NoneType' object is not iterable"), d)
  end.
Proof.
  destruct fieldnames as [fieldnames|]; [|done].
  split; [|unfold parse_export; split; by intros ->].
  unfold header_ok. rewrite bool_decide_eq_true.
  assert (size (list_to_set (C:=gset string) required_elements)
          = List.length required_elements) as Hsize by (vm_compute; reflexivity).
  split.
  - intros Heq c Hc. rewrite <- Hsize in Heq.
    assert (list_to_set fieldnames ∩ list_to_set required_elements
            = list_to_set (C:=gset string) required_elements) as Hsets.
    { apply set_subseteq_size_eq; [apply intersection_subseteq_r|lia]. }
    apply (elem_of_list_to_set (C:=gset string)) in Hc. rewrite <- Hsets in Hc.
    apply elem_of_intersection in Hc as [Hc _]. by apply elem_of_list_to_set in Hc.
  - intros Hall. rewrite <- Hsize. f_equal. apply leibniz_equiv.
    apply set_equiv. intros c. rewrite elem_of_intersection, !elem_of_list_to_set.
    split; [tauto|]. intros Hc. split; [by apply Hall|done].
Qed.

(** ** [summary_holdings] on a ledger that is not well typed *)

(** [summary_holdings] raises [KeyError] at the first position that has no
    ticker, when the positions before it are well typed; the ledger is left
    as it was. Such a position can only have come in through
    [add_stock_to_account_dict]. *)
Theorem summary_holdings_missing_ticker (d : account_dict) (pre post : list stock)
    (s : stock) :
  positions d = pre ++ s :: post →
  Forall well_typed pre →
  s !! "ticker" = None →
  summary_holdings d = (Raise (Exn KeyError "ticker"), d).
Proof.
  intros Hpos Hpre Hs. unfold summary_holdings.
  rewrite summary_accounts_positions, Hpos, summary_stocks_app.
  destruct (summary_stocks_summarizes [] [] pre Hpre) as (u & -> & _); [done|].
  cbn. unfold summary_step, getitem. by rewrite Hs.
Qed.

Lemma summary_holdings_missing_ticker_witness :
  summary_holdings [("Z12345678", {| balance := PyFloat.of_Z 240; nickname := None;
                                     stocks := [nvda; delete "ticker" nvda; nvda] |})] =
  (Raise (Exn KeyError "ticker"),
   [("Z12345678", {| balance := PyFloat.of_Z 240; nickname := None;
                     stocks := [nvda; delete "ticker" nvda; nvda] |})]).
Proof.
  apply (summary_holdings_missing_ticker _ [nvda] [nvda] (delete "ticker" nvda)).
  - reflexivity.
  - apply validate_stock_list_Forall. vm_compute. reflexivity.
  - reflexivity.
Defined.

(** ** [get_stocks_in_account] and the sale filter *)

Lemma last_omap_cons {A B : Type} (f : A → option B) (x : A) (l : list A) :
  last (omap f (x :: l)) =
    match last (omap f l) with
    | Some y => Some y
    | None => f x
    end.
Proof.
  change (omap f (x :: l))
    with (match f x with Some y => y :: omap f l | None => omap f l end).
  destruct (f x) as [y|]; [|by destruct (last (omap f l))].
  rewrite last_cons. by destruct (last (omap f l)).
Qed.

Lemma stocks_in_get (t : pyval) (all : stock_quantities) (l : list stock) :
  pydict_get t (stocks_in all l) =
    match last (omap (quantity_for t) l) with
    | Some q => Some q
    | None => pydict_get t all
    end.
Proof.
  revert all. induction l as [|s l IH]; intros all; [done|].
  rewrite last_omap_cons. cbn [stocks_in]. unfold quantity_for at 2.
  destruct (negb (is_none (get_or_none s "ticker")) &&
            negb (is_none (get_or_none s "quantity"))); rewrite IH; cbn [andb];
    destruct (last (omap (quantity_for t) l)) as [q|]; try done.
  rewrite pydict_get_set. by destruct (key_eq _ t).
Qed.

Lemma quantity_for_str (t : string) (s : stock) :
  quantity_for (VStr t) s =
    if decide (get_or_none s "ticker" = VStr t ∧ get_or_none s "quantity" ≠ VNone)
    then Some (get_or_none s "quantity") else None.
Proof.
  unfold quantity_for.
  destruct (key_eq (get_or_none s "ticker") (VStr t)) eqn:Hk.
  - apply key_eq_str in Hk. rewrite Hk. cbn [is_none negb andb].
    destruct (get_or_none s "quantity") eqn:Hq; cbn;
      [by rewrite decide_False by (by intros [_ ?])|by rewrite decide_True..].
  - rewrite andb_false_r. rewrite decide_False; [done|].
    intros [Ht _]. apply key_eq_str in Ht. congruence.
Qed.

Lemma omap_ext_eq {A B : Type} (f g : A → option B) (l : list A) :
  (∀ x, f x = g x) → omap f l = omap g l.
Proof.
  intros Hfg. induction l as [|x l IH]; [done|].
  change (omap f (x :: l)) with (match f x with Some y => y :: omap f l | None => omap f l end).
  change (omap g (x :: l)) with (match g x with Some y => y :: omap g l | None => omap g l end).
  by rewrite Hfg, IH.
Qed.

(** [get_stocks_in_account] returns [None] for an account that is not in the
    ledger. For one that is, it maps a ticker to the quantity of the last
    position of the account that carries it (quantities are not added up),
    passing over positions whose ticker or quantity is missing or [None];
    tickers are told apart as dictionary keys are, so that a string ticker
    stands for itself and the int 1 and the float 1.0 are one ticker. *)
Theorem get_stocks_in_account_last (account_number : string) (d : account_dict) :
  match dict_get account_number d with
  | None => get_stocks_in_account account_number d = None
  | Some a =>
      ∃ held, get_stocks_in_account account_number d = Some held ∧
              (∀ t, pydict_get t held = last (omap (quantity_for t) (stocks a))) ∧
              (∀ (t : string) s,
                 quantity_for (VStr t) s =
                   if decide (get_or_none s "ticker" = VStr t ∧
                              get_or_none s "quantity" ≠ VNone)
                   then Some (get_or_none s "quantity") else None) ∧
              pydict_get (VInt 1) held = pydict_get (VFloat PyFloat.f1) held
  end.
Proof.
  unfold get_stocks_in_account. destruct (dict_get account_number d) as [a|]; [|done].
  eexists. split; [done|]. split; [|split].
  - intros t. rewrite stocks_in_get.
    by destruct (last (omap (quantity_for t) (stocks a))).
  - intros t s. apply quantity_for_str.
  - rewrite !stocks_in_get. simpl.
    replace (omap (quantity_for (VFloat PyFloat.f1)) (stocks a))
      with (omap (quantity_for (VInt 1)) (stocks a)); [done|].
    apply omap_ext_eq. intros s. unfold quantity_for.
    by rewrite (key_eq_right (get_or_none s "ticker") (VInt 1) (VFloat PyFloat.f1)).
Qed.

(** In [fidelity_transaction] an account of the ledger is passed over
    exactly when the action, in any case, is sell and no position of the
    account with a quantity carries the stock as its ticker, letter for
    letter; a buy passes over no account. *)
Theorem skips_account_holds (action stock_name account_number : string)
    (d : account_dict) (a : account) :
  dict_get account_number d = Some a →
  ∃ skip, skips_account action stock_name account_number d = Ok skip ∧
          (skip = true ↔
           PyStr.lower action = "sell" ∧
           ∀ s, s ∈ stocks a → get_or_none s "ticker" = VStr stock_name →
                get_or_none s "quantity" = VNone).
Proof.
  intros Hget. unfold skips_account, get_stocks_in_account. rewrite Hget.
  destruct (String.eqb_spec (PyStr.lower action) "sell") as [Hsell|Hsell].
  2:{ exists false. split; [done|]. split; [done|]. by intros []. }
  eexists. split; [done|]. unfold pydict_mem. rewrite stocks_in_get. simpl.
  replace (match last (omap (quantity_for (VStr stock_name)) (stocks a)) with
           | Some q => Some q
           | None => None
           end)
    with (last (omap (quantity_for (VStr stock_name)) (stocks a)))
    by (by destruct (last _)).
  rewrite negb_true_iff. split.
  - intros Hnone. split; [done|]. intros s Hs Ht.
    destruct (last _) eqn:Hlast in Hnone; [done|]. clear Hnone.
    apply last_None in Hlast.
    destruct (decide (get_or_none s "quantity" = VNone)) as [|Hq]; [done|].
    assert (get_or_none s "quantity" ∈ omap (quantity_for (VStr stock_name)) (stocks a))
      as Hin.
    { apply list_elem_of_omap. exists s. split; [done|]. rewrite quantity_for_str.
      by rewrite decide_True. }
    rewrite Hlast in Hin. by apply elem_of_nil in Hin.
  - intros [_ Hall]. destruct (last _) as [q|] eqn:Hlast; [|done].
    apply last_Some in Hlast as [l' Hl'].
    assert (q ∈ omap (quantity_for (VStr stock_name)) (stocks a)) as Hin.
    { rewrite Hl'. apply elem_of_app. right. by apply list_elem_of_singleton. }
    apply list_elem_of_omap in Hin as (s & Hs & Hq). rewrite quantity_for_str in Hq.
    case_decide as Hdec; [|done]. destruct Hdec as (Ht & Hne).
    by specialize (Hall s Hs Ht).
Qed.

Lemma skips_account_holds_witness :
  ∃ skip, skips_account "SELL" "nvda" "Z12345678" sample_ledger = Ok skip ∧
          (skip = true ↔
           PyStr.lower "SELL" = "sell" ∧
           ∀ s, s ∈ stocks individual → get_or_none s "ticker" = VStr "nvda" →
                get_or_none s "quantity" = VNone).
Proof.
  apply (skips_account_holds "SELL" "nvda" "Z12345678" sample_ledger individual).
  reflexivity.
Defined.

(** * Logging in *)

(** Destructs the answers of the world one call at a time, in the order
    the calls are made. *)
Ltac step_world world :=
  match goal with
  | r : unit |- _ => destruct r
  | r : bool |- _ => destruct r; cbn -[PyStr.contains String.eqb app] in *
  | |- context [if is_timeout ?e then _ else _] =>
      destruct (is_timeout e) eqn:?; cbn -[PyStr.contains String.eqb app] in *
  | |- context [if PyStr.contains ?a ?b then _ else _] =>
      destruct (PyStr.contains a b) eqn:?; cbn -[PyStr.contains String.eqb app] in *
  | |- context [world ?A ?h ?c] =>
      let r := fresh "r" in
      destruct (world A h c) as [r|r]; cbn -[PyStr.contains String.eqb app] in *
  end.

Ltac solve_suffix :=
  solve [repeat first [reflexivity | apply suffix_cons_r]].

Ltac flatten_log := rewrite <- ?app_assoc; cbn [app].

Section LoginFacts.
Import Site.
Variable world : Site.world.

(** [login_2FA] returns a boolean and raises nothing. It returns [True]
    exactly when the code was typed, the box was ticked and read back as
    checked, Submit was clicked and the summary page was reached within its
    five seconds: these five calls, each successful, and no other. *)
Theorem login_2FA_true (code : string) (h : list event) :
  ∃ (ok : bool) (new : list event),
    login_2FA world code h = (Ok ok, h ++ new) ∧
    (ok = true ↔
     new = [Ev (Fill CodeBox code) (Ok tt); Ev (Tick DontAskLabel) (Ok tt);
            Ev (IsChecked DontAskLabel) (Ok true); Ev (Click SubmitButton) (Ok tt);
            Ev (WaitForUrl summary_url 5000) (Ok tt)]).
Proof.
  unfold login_2FA, try_except, dont_ask_again, ask, mbind, prog_bind, mret, prog_ret, fail.
  repeat step_world world;
    flatten_log; eexists _, _; (split; [reflexivity|]);
    (split; [try done|]); intros Heq; try done;
    apply (f_equal (map site_answer)) in Heq; discriminate.
Qed.

(** [login] returns a pair and raises nothing; the pair is never
    [(False, True)]. [(True, True)] comes only after calls that all succeeded,
    ending either with an address that holds summary, or, when a secret was
    given, with the box read back as checked, the click on Continue and the
    summary page reached. [(True, False)] comes only after calls that all
    succeeded, the last two being the clicks on Text me the code and on the
    code box. *)
Theorem login_outcome (username password : string) (totp_secret : option string)
    (h : list event) :
  ∃ (r : bool * bool) (new : list event),
    login world username password totp_secret h = (Ok r, h ++ new) ∧
    match r with
    | (true, true) =>
        Forall site_ok new ∧
        ((∃ url, [Ev Url (Ok url)] `suffix_of` new ∧ PyStr.contains "summary" url = true) ∨
         (is_Some totp_secret ∧
          [Ev (IsChecked DontAskLabel) (Ok true); Ev (Click ContinueButton) (Ok tt);
           Ev (WaitForUrl summary_url 5000) (Ok tt)] `suffix_of` new))
    | (true, false) =>
        Forall site_ok new ∧
        [Ev (Click TextMeButton) (Ok tt); Ev (Click CodeBox) (Ok tt)] `suffix_of` new
    | (false, true) => False
    | (false, false) => True
    end.
Proof.
  unfold login, login_body, second_factor, wait_for_loading_sign, try_except,
    dont_ask_again, ask, mbind, prog_bind, mret, prog_ret, fail.
  destruct totp_secret as [secret|]; [destruct (String.eqb secret "NA")|];
    cbn -[PyStr.contains String.eqb app];
    repeat step_world world;
    flatten_log; eexists _, _; (split; [reflexivity|]); cbn; try exact I;
    (split; [repeat constructor; discriminate|]);
    first [ solve_suffix
          | left; eexists; split; [solve_suffix|eassumption]
          | right; split; [by eexists|solve_suffix] ].
Qed.

(** In [login] and [login_2FA] a click on Continue, Submit or Try another
    way is only made right after the box Don't ask me again on this device
    was read back as checked. *)
Theorem login_opt_out_first (username password code : string)
    (totp_secret : option string) (h : list event) :
  (∃ new, (login world username password totp_secret h).2 = h ++ new ∧
          guarded read_checked goes_on None new = true) ∧
  (∃ new, (login_2FA world code h).2 = h ++ new ∧
          guarded read_checked goes_on None new = true).
Proof.
  unfold login, login_2FA, login_body, second_factor, wait_for_loading_sign, try_except,
    dont_ask_again, ask, mbind, prog_bind, mret, prog_ret, fail.
  split.
  - destruct totp_secret as [secret|]; [destruct (String.eqb secret "NA")|];
      cbn -[PyStr.contains String.eqb app];
      repeat step_world world;
      flatten_log; eexists; (split; [reflexivity|]); reflexivity.
  - repeat step_world world;
      flatten_log; eexists; (split; [reflexivity|]); reflexivity.
Qed.

(** [login] asks for a one-time code only with the secret it was given,
    and never when that secret is the placeholder NA or is absent; without
    such a secret it types no code and does not click Continue. *)
Theorem login_totp_secret (username password : string) (totp_secret : option string)
    (h : list event) :
  ∃ new, (login world username password totp_secret h).2 = h ++ new ∧
         Forall (totp_from totp_secret) new.
Proof.
  unfold login, login_body, second_factor, wait_for_loading_sign, try_except,
    dont_ask_again, ask, mbind, prog_bind, mret, prog_ret, fail.
  destruct totp_secret as [secret|]; [destruct (String.eqb_spec secret "NA")|];
    cbn -[PyStr.contains String.eqb app];
    repeat step_world world;
    flatten_log; eexists; (split; [reflexivity|]);
    repeat constructor; cbn; eauto.
Qed.

End LoginFacts.

(** * Enumerating the accounts *)

Lemma account_option_step_adds (set_flag : bool) (text_number text_nickname : string)
    (d local_dict : account_dict) :
  ∃ added,
    (account_option_step set_flag text_number text_nickname (d, local_dict)).1 = d ++ added ∧
    Forall listed added ∧ (∀ k, k ∈ keys added → k ∉ keys d) ∧
    (set_flag = false → added = []) ∧
    (Forall listed local_dict →
     Forall listed (account_option_step set_flag text_number text_nickname (d, local_dict)).2).
Proof.
  unfold account_option_step.
  destruct (AccountRegex.search_account text_number) as [acct|] eqn:Hacct.
  2:{ exists []. rewrite app_nil_r. repeat split; try done; by intros k ?%elem_of_nil. }
  destruct (AccountRegex.search_nickname text_nickname) as [nick|].
  2:{ exists []. rewrite app_nil_r. repeat split; try done; by intros k ?%elem_of_nil. }
  assert (listed (acct, {| balance := PyFloat.f0; nickname := Some nick; stocks := [] |}))
    as Hlisted.
  { split; [|by repeat split]. simpl. unfold AccountRegex.search_account in Hacct.
    destruct (AccountRegex.search_account_units None (Utf8.uchars (PyStr.chars text_number)))
      as [l|] eqn:Hl; [|done].
    injection Hacct as <-. exists l. split; [done|].
    apply (search_account_units_sound _ None _ Hl). }
  destruct set_flag; simpl.
  - unfold set_account_dict, dict_mem, odict_mem, dict_set. cbn.
    destruct (odict_get acct d) eqn:Hget; cbn.
    + exists []. rewrite app_nil_r. repeat split; try done; by intros k ?%elem_of_nil.
    + exists [(acct, {| balance := PyFloat.f0; nickname := Some nick; stocks := [] |})].
      split; [by apply odict_set_absent|]. split; [by apply Forall_singleton|].
      split; [|done]. intros k ->%list_elem_of_singleton.
      by apply odict_get_None_keys.
  - exists []. rewrite app_nil_r. repeat split; try done.
    + by intros k ?%elem_of_nil.
    + intros Hlocal. by apply Forall_dict_set.
Qed.

Section AccountsFacts.
Import Site.
Variable world : Site.world.

Lemma options_loop_adds (set_flag : bool) (options : list nat) (d local_dict : account_dict)
    (h : list event) :
  ∃ r d' local_dict' new added,
    options_loop world set_flag options (d, local_dict) h = (r, (d', local_dict'), h ++ new) ∧
    d' = d ++ added ∧ Forall listed added ∧ (∀ k, k ∈ keys added → k ∉ keys d) ∧
    (set_flag = false → added = []) ∧
    (Forall listed local_dict → Forall listed local_dict') ∧
    (r = Ok tt → Forall site_ok new).
Proof.
  revert d local_dict h. induction options as [|i rest IH]; intros d local_dict h;
    cbn -[account_option_step].
  { exists (Ok tt), d, local_dict, [], []. rewrite !app_nil_r.
    repeat split; try done; by intros k ?%elem_of_nil. }
  destruct (world string h (InnerText i)) as [text_number|e];
    cbn -[account_option_step].
  2:{ eexists (Raise e), d, local_dict, _, []. split; [reflexivity|]. rewrite app_nil_r.
      repeat split; try done; by intros k ?%elem_of_nil. }
  destruct (world string (h ++ [Ev (InnerText i) (Ok text_number)]) (InnerText i))
    as [text_nickname|e]; cbn -[account_option_step].
  2:{ eexists (Raise e), d, local_dict, _, []. split; [by rewrite <- app_assoc|].
      rewrite app_nil_r. repeat split; try done; by intros k ?%elem_of_nil. }
  destruct (account_option_step_adds set_flag text_number text_nickname d local_dict)
    as (added1 & Hd1 & Hl1 & Hk1 & Hf1 & Hloc1).
  destruct (account_option_step set_flag text_number text_nickname (d, local_dict))
    as [d1 local1]. simpl in Hd1, Hloc1. subst d1.
  destruct (IH (d ++ added1) local1
              ((h ++ [Ev (InnerText i) (Ok text_number)]) ++
               [Ev (InnerText i) (Ok text_nickname)]))
    as (r & d' & local' & new & added2 & Hrun & -> & Hl2 & Hk2 & Hf2 & Hloc2 & Hok).
  exists r, ((d ++ added1) ++ added2), local', 
    ([Ev (InnerText i) (Ok text_number); Ev (InnerText i) (Ok text_nickname)] ++ new),
    (added1 ++ added2).
  split; [rewrite Hrun; by rewrite <- !app_assoc|].
  split; [by rewrite app_assoc|]. split; [by apply Forall_app|].
  split; [|split; [|split]].
  - intros k Hk. unfold keys in Hk. rewrite map_app in Hk.
    apply elem_of_app in Hk as [Hk|Hk]; [by apply Hk1|].
    specialize (Hk2 k Hk). unfold keys in Hk2. rewrite map_app in Hk2.
    intros Hd. apply Hk2, elem_of_app. by left.
  - intros Hf. by rewrite (Hf1 Hf), (Hf2 Hf).
  - auto.
  - intros Hr. apply Forall_app. split; [|by apply Hok].
    repeat constructor; discriminate.
Qed.

(** With [set_flag] the call returns [None] and raises nothing, whatever
    the page does. The ledger keeps its entries as they were and in their
    order, also those whose number shows up in the dropdown; what it gains
    comes after them: accounts that were not there, each under a number the
    pattern accepts, with balance 0.0, a nickname and no positions. That
    holds as well when the page fails while the options are read: the
    accounts set by then stay. *)
Theorem get_list_of_accounts_adds (d : account_dict) (h : list event) :
  ∃ d' new added,
    get_list_of_accounts world true d h = (None, d', h ++ new) ∧
    d' = d ++ added ∧ Forall listed added ∧ (∀ k, k ∈ keys added → k ∉ keys d).
Proof.
  unfold get_list_of_accounts, wait_for_loading_sign, ask, mbind, prog_bind.
  repeat step_world world;
    try (by flatten_log; eexists d, _, []; (split; [reflexivity|]); rewrite app_nil_r;
         repeat split; try done; intros k ?%elem_of_nil).
  match goal with
  | |- context [options_loop world true ?o (d, []) ?h1] =>
      destruct (options_loop_adds true o d [] h1)
        as (res & d' & local' & new & added & -> & -> & Hl & Hk & _)
  end.
  exists (d ++ added). eexists. exists added.
  split; [|done]. destruct res; flatten_log; reflexivity.
Qed.

(** Without [set_flag] the ledger is left as it was, and a dictionary is
    returned only when every call on the page succeeded: it holds accounts
    under numbers the pattern accepts, each with balance 0.0, a nickname and
    no positions. When the page fails the call returns [None], as it does
    with [set_flag]. *)
Theorem get_list_of_accounts_local (d : account_dict) (h : list event) :
  ∃ r new,
    get_list_of_accounts world false d h = (r, d, h ++ new) ∧
    ∀ local_dict, r = Some local_dict → Forall site_ok new ∧ Forall listed local_dict.
Proof.
  unfold get_list_of_accounts, wait_for_loading_sign, ask, mbind, prog_bind.
  repeat step_world world;
    try (by flatten_log; eexists None, _; (split; [reflexivity|])).
  match goal with
  | |- context [options_loop world false ?o (d, []) ?h1] =>
      destruct (options_loop_adds false o d [] h1)
        as (res & d' & local' & new & added & -> & -> & _ & _ & Hf & Hloc & Hok)
  end.
  rewrite (Hf eq_refl), app_nil_r.
  destruct res as [[]|e]; flatten_log; eexists _, _; (split; [reflexivity|]); [|done].
  intros local_dict [= <-]. split; [|by apply Hloc].
  repeat (apply Forall_cons; split; [discriminate|]). by apply Hok.
Qed.

Lemma options_loop_steady (set_flag : bool) (pre rest : list string)
    (st : account_dict * account_dict) (h : list event) :
  steady_site (pre ++ rest) world →
  ∃ new, options_loop world set_flag (seq (List.length pre) (List.length rest)) st h =
           (Ok tt, fold_left (λ st text, list_accounts_step set_flag text st) rest st,
            h ++ new).
Proof.
  revert pre st h. induction rest as [|text rest IH]; intros pre st h Hsite.
  { exists []. by rewrite app_nil_r. }
  pose proof Hsite as (_ & _ & _ & _ & Htext).
  cbn -[account_option_step]. unfold ask.
  rewrite !(Htext _ _ text) by apply list_lookup_middle, eq_refl.
  cbn -[account_option_step].
  destruct (IH (pre ++ [text]) (account_option_step set_flag text text st)
              ((h ++ [Ev (InnerText (List.length pre)) (Ok text)]) ++
               [Ev (InnerText (List.length pre)) (Ok text)])) as [new Hnew].
  { by rewrite <- app_assoc. }
  rewrite length_app, Nat.add_1_r in Hnew. rewrite Hnew.
  eexists. by rewrite <- !app_assoc.
Qed.

(** On a transfers page that loads and reads every option the same both
    times, the call does to the ledger and to its local dictionary what the
    loop over the option texts does, and with [set_flag] unset it returns
    that dictionary. *)
Theorem get_list_of_accounts_steady (set_flag : bool) (texts : list string)
    (d : account_dict) (h : list event) :
  steady_site texts world →
  ∃ new, get_list_of_accounts world set_flag d h =
           (if set_flag then None else Some (list_accounts_loop set_flag texts d).2,
            (list_accounts_loop set_flag texts d).1, h ++ new).
Proof.
  intros Hsite. pose proof Hsite as (Hload & Hgoto & Hsign & Hcount & _).
  unfold get_list_of_accounts, wait_for_loading_sign, ask, mbind, prog_bind.
  rewrite Hload, Hgoto, !Hsign, Hcount.
  match goal with
  | |- context [options_loop world set_flag _ ?st ?h1] =>
      destruct (options_loop_steady set_flag [] texts st h1 Hsite) as [new Hnew]
  end.
  cbn [List.length] in Hnew. rewrite Hnew. unfold list_accounts_loop.
  destruct (fold_left _ texts (d, [])) as [d' local_dict].
  eexists. flatten_log. reflexivity.
Qed.

End AccountsFacts.

Lemma get_list_of_accounts_steady_witness :
  ∃ new, get_list_of_accounts (transfers_page ["Individual (Z12345678)"; "Cash"]) true
           sample_ledger [] =
           (None, (list_accounts_loop true ["Individual (Z12345678)"; "Cash"] sample_ledger).1,
            [] ++ new).
Proof.
  apply (get_list_of_accounts_steady (transfers_page ["Individual (Z12345678)"; "Cash"]) true
           ["Individual (Z12345678)"; "Cash"] sample_ledger []).
  repeat split; try reflexivity. intros h i text Hi. cbn. by rewrite Hi.
Defined.

(** * The order and its preview *)

Section OrderLog.
Import Page.
Variable page : browser.
Variables (stock : string) (quantity : PyFloat.float) (action account : string).
Variable dry : bool.

Lemma order_log_bind {A : Type} (m : M A) (k : A → M (bool * option error_message)) :
  only_events m not_place_order →
  (∀ a, runs (k a) (order_log stock quantity action account dry)) →
  runs (m ≫= k) (order_log stock quantity action account dry).
Proof.
  intros Hm Hk h. unfold mbind, M_bind.
  destruct (Hm h) as (n1 & Hh1 & H1).
  destruct (m h) as [[a|e] h1]; simpl in *; subst h1.
  2:{ exists n1. split; [done|]. left. split; [done|]. by intros _ msg. }
  destruct (Hk a (h ++ n1)) as (n2 & Hh2 & H2).
  exists (n1 ++ n2). rewrite Hh2, app_assoc. split; [done|].
  destruct H2 as [[Hn2 Hr]|[Hdry (pre & click & post & (-> & Hpre & Hpost) & Hr)]].
  - left. split; [by apply Forall_app|done].
  - right. split; [done|]. exists (n1 ++ pre), click, post.
    split; [|done]. split; [by rewrite app_assoc|]. split; [by apply Forall_app|done].
Qed.

Ltac step_page :=
  match goal with
  | r : unit |- _ => destruct r
  | |- context [negb ?b] => is_var b; destruct b; cbn [negb]
  | |- context [if is_timeout ?e then _ else _] => destruct (is_timeout e); cbn [negb]
  | |- context [page ?A ?h ?c] =>
      lazymatch h with
      | context [page] => fail
      | _ => let r := fresh "r" in destruct (page A h c) as [r|r]; cbn [negb]
      end
  end.

(** From the preview on, lines 622-655. *)
Lemma order_log_preview :
  runs
    (differs ← preview_differs page stock quantity action account;
     if differs : bool
     then mret (false, Some (ErrText "Order preview is not what is expected"))
     else if negb dry then
       _ ← perform page (Click PlaceOrderButton);
       try_timeout
         (_ ← perform page (WaitFor OrderReceivedText (Some 5000)); mret (true, None))
         (λ toe,
            mret (false,
                  Some (ErrText ("Timed out waiting for 'Order received': " ++ exn_text toe))))
     else mret (true, None))
    (order_log stock quantity action account dry).
Proof.
  intros h. unfold preview_differs, try_timeout, perform, mbind, M_bind, mret, M_ret.
  destruct dry; cbn [negb];
    repeat step_page; flatten_log; eexists; (split; [reflexivity|]);
    first [ left; split; [by repeat constructor|by intros ? msg]
          | right; split; [reflexivity|]; eexists [], _, _;
            split; [split; [reflexivity|split; by repeat constructor]|];
            intros msg Hmsg; first [discriminate Hmsg | by split] ].
Qed.

Lemma order_log_body :
  runs (transaction_body page stock quantity action account dry)
    (order_log stock quantity action account dry).
Proof.
  unfold transaction_body, extended_hours, enter_order.
  do 15 (apply order_log_bind; [repeat only_step|intros ?]).
  apply order_log_bind; [repeat only_step|intros [extended precision]].
  do 8 (apply order_log_bind; [repeat only_step|intros ?]).
  apply order_log_bind;
    [repeat first [apply only_extract_error | only_step]|intros [msg|]].
  - intros h. exists []. simpl. rewrite app_nil_r. split; [done|].
    left. split; [constructor|by intros _ ?].
  - apply order_log_preview.
Qed.

(** Whatever the page does, [transaction] clicks the Place order button at
    most once, and only in a real order, right after the preview showed the
    account, the symbol, the action and the quantity of the order, each in
    its place. *)
Theorem place_order_after_preview (h : list event) :
  ∃ new, (transaction page stock quantity action account dry h).2 = h ++ new ∧
         (Forall not_place_order new ∨
          dry = false ∧
          ∃ pre click post, submitted stock quantity action account new pre click post).
Proof.
  destruct (order_log_body h) as (new & Hh & Hlog). exists new. split.
  - unfold transaction.
    destruct (transaction_body page stock quantity action account dry h) as [[r|e] h'];
      simpl in *; [done|by destruct (is_timeout e)].
  - destruct Hlog as [[Hnew _]|[Hdry (pre & click & post & Hsub & _)]]; [by left|].
    right. split; [done|]. by exists pre, click, post.
Qed.

End OrderLog.

(** When a real order comes back as done, the log ends with the preview
    showing the order, the click on Place order and the text Order received
    seen within its five seconds, all without an exception. *)
Theorem real_order_received (page : Page.browser) (stock : string)
    (quantity : PyFloat.float) (action account : string) (msg : option error_message)
    (h h' : list Page.event) :
  transaction page stock quantity action account false h = (Ok (true, msg), h') →
  ∃ pre,
    h' = h ++ pre ++ preview_shown stock quantity action account ++
         [Page.Ev (Page.Click Page.PlaceOrderButton) (Ok tt);
          Page.Ev (Page.WaitFor Page.OrderReceivedText (Some 5000)) (Ok tt)].
Proof.
  destruct (order_log_body page stock quantity action account false h) as (new & Hh & Hlog).
  unfold transaction.
  destruct (transaction_body page stock quantity action account false h) as [[r|e] h1];
    simpl in *; [|by destruct (is_timeout e)].
  intros [= -> <-]. subst h1.
  destruct Hlog as [[_ Hr]|[_ (pre & click & post & (-> & _) & Hr)]].
  - by destruct (Hr eq_refl msg).
  - destruct (Hr msg eq_refl) as [-> ->]. by exists pre.
Qed.

Lemma real_order_received_witness :
  ∃ pre,
    (transaction regular_hours_page "nvda" (PyFloat.of_Z 2) "buy" "z12345678" false []).2 =
    [] ++ pre ++ preview_shown "nvda" (PyFloat.of_Z 2) "buy" "z12345678" ++
    [Page.Ev (Page.Click Page.PlaceOrderButton) (Ok tt);
     Page.Ev (Page.WaitFor Page.OrderReceivedText (Some 5000)) (Ok tt)].
Proof.
  apply (real_order_received regular_hours_page "nvda" (PyFloat.of_Z 2) "buy" "z12345678"
           None []).
  vm_compute. reflexivity.
Defined.

(** * The credentials *)

Section SplitFacts.
Variable sep : ascii.
Implicit Types (cur f l : list ascii) (fields : list (list ascii)).

Lemma split_chars_field cur f : sep_free sep f → split_chars sep cur f = [rev cur ++ f].
Proof.
  unfold sep_free.
  revert cur. induction f as [|c f IH]; intros cur; simpl.
  - intros _. by rewrite app_nil_r.
  - intros [Hc Hf]%orb_false_elim. rewrite Ascii.eqb_sym, Hc, IH by done.
    simpl. by rewrite <- app_assoc.
Qed.

Lemma split_chars_sep cur f l :
  sep_free sep f → split_chars sep cur (f ++ sep :: l) = (rev cur ++ f) :: split_chars sep [] l.
Proof.
  unfold sep_free.
  revert cur. induction f as [|c f IH]; intros cur; simpl.
  - intros _. by rewrite Ascii.eqb_refl, app_nil_r.
  - intros [Hc Hf]%orb_false_elim. rewrite Ascii.eqb_sym, Hc, IH by done.
    simpl. by rewrite <- app_assoc.
Qed.

Lemma split_join_chars fields :
  fields ≠ [] → Forall (sep_free sep) fields → split_chars sep [] (join_chars sep fields) = fields.
Proof.
  unfold sep_free.
  intros Hne Hfields. induction Hfields as [|f rest Hf Hrest IH]; [done|].
  destruct rest as [|g rest]; simpl.
  - by rewrite split_chars_field.
  - rewrite split_chars_sep by done. simpl. f_equal. by apply IH.
Qed.

Lemma split_chars_cons cur l : ∃ f rest, split_chars sep cur l = f :: rest.
Proof.
  revert cur. induction l as [|c l IH]; intros cur; simpl; [by eexists _, _|].
  destruct (Ascii.eqb c sep); [by eexists _, _|apply IH].
Qed.

Lemma split_chars_two cur l :
  existsb (Ascii.eqb sep) l = true → ∃ f g rest, split_chars sep cur l = f :: g :: rest.
Proof.
  revert cur. induction l as [|c l IH]; intros cur; simpl; [done|].
  rewrite (Ascii.eqb_sym sep c). destruct (Ascii.eqb c sep); simpl.
  - intros _. destruct (split_chars_cons [] l) as (g & rest & ->). by eexists _, _, _.
  - apply IH.
Qed.

Lemma sep_free_rev l : sep_free sep l → sep_free sep (rev l).
Proof.
  unfold sep_free.
  induction l as [|c l IH]; simpl; [done|].
  intros [Hc Hl]%orb_false_elim. rewrite existsb_app, IH by done. simpl. by rewrite Hc.
Qed.

Lemma split_chars_free cur l :
  sep_free sep cur → Forall (sep_free sep) (split_chars sep cur l).
Proof.
  unfold sep_free.
  revert cur. induction l as [|c l IH]; intros cur Hcur; simpl.
  - constructor; [|done]. by apply sep_free_rev.
  - destruct (Ascii.eqb c sep) eqn:Hc.
    + constructor; [by apply sep_free_rev|by apply IH].
    + apply IH. simpl. by rewrite Ascii.eqb_sym, Hc.
Qed.

Lemma join_split_chars cur l : join_chars sep (split_chars sep cur l) = rev cur ++ l.
Proof.
  revert cur. induction l as [|c l IH]; intros cur; simpl; [by rewrite app_nil_r|].
  destruct (Ascii.eqb_spec c sep) as [->|Hc].
  - destruct (split_chars_cons [] l) as (g & rest & Heq).
    specialize (IH []). rewrite Heq in IH |- *. simpl in IH |- *. by rewrite IH.
  - rewrite IH. simpl. by rewrite <- app_assoc.
Qed.

End SplitFacts.

Lemma str_split_join (sep : ascii) (fields : list string) :
  fields ≠ [] → Forall (λ f, PyStr.has_char sep f = false) fields →
  str_split sep (str_join sep fields) = fields.
Proof.
  intros Hne Hfields. unfold str_split, str_join. rewrite chars_of_chars.
  rewrite split_join_chars.
  - rewrite List.map_map. rewrite <- (List.map_id fields) at 2.
    apply List.map_ext. intros s. apply string_of_list_ascii_of_string.
  - by destruct fields.
  - by apply Forall_map.
Qed.

(** [fidelity_init] finds no password exactly when the credentials text
    holds no colon: [account[1]] is then an [IndexError], and the login is
    given up. *)
Theorem login_arguments_needs_colon (account : string) :
  login_arguments account = Raise (Exn IndexError "list index out of range") ↔
  colon_free account.
Proof.
  unfold login_arguments, str_split, colon_free, PyStr.has_char. split.
  - destruct (existsb (Ascii.eqb ":") (PyStr.chars account)) eqn:Hcolon; [|done].
    destruct (split_chars_two ":" [] _ Hcolon) as (f & g & rest & ->). done.
  - intros Hfree. by rewrite split_chars_field.
Qed.

(** User name, password and secret written with colons between them come
    back as they were, when none of them holds a colon; a text with
    two fields gives no secret, and fields after the third are dropped. *)
Theorem login_arguments_round_trip (username password : string) (others : list string) :
  Forall colon_free (username :: password :: others) →
  login_arguments (str_join ":" (username :: password :: others)) =
    Ok (username, password, head others).
Proof.
  intros Hfree. unfold login_arguments. rewrite str_split_join by done.
  by destruct others.
Qed.

Lemma login_arguments_round_trip_witness :
  login_arguments (str_join ":" ["user"; "pass word"; "JBSWY3DPEHPK3PXP"]) =
    Ok ("user", "pass word", Some "JBSWY3DPEHPK3PXP").
Proof.
  apply (login_arguments_round_trip "user" "pass word" ["JBSWY3DPEHPK3PXP"]).
  repeat constructor.
Defined.

(** The user name, the password and the secret that [fidelity_init] hands
    to [login] never hold a colon: the credentials text is cut at each
    colon, so a password with a colon in it arrives cut short, and what
    follows the colon is taken for the secret. *)
Theorem login_arguments_cut (account username password : string)
    (totp_secret : option string) :
  login_arguments account = Ok (username, password, totp_secret) →
  colon_free username ∧ colon_free password ∧
  (∀ secret, totp_secret = Some secret → colon_free secret) ∧
  ∃ rest, account = str_join ":" (username :: password :: rest) ∧
          totp_secret = head rest.
Proof.
  unfold login_arguments, str_split, str_join, colon_free, PyStr.has_char.
  pose proof (split_chars_free ":" [] (PyStr.chars account) eq_refl) as Hfree.
  unfold sep_free in Hfree.
  pose proof (join_split_chars ":" [] (PyStr.chars account)) as Hjoin.
  destruct (split_chars ":" [] (PyStr.chars account)) as [|u [|p rest]]; [done..|].
  intros [= <- <- <-]. rewrite !chars_of_chars.
  inversion Hfree as [|? ? Hu Hfree']. inversion Hfree' as [|? ? Hp Hrest]. subst.
  split; [done|]. split; [done|]. split.
  - intros secret. destruct rest as [|t rest]; [done|]. intros [= <-].
    rewrite chars_of_chars. by inversion Hrest.
  - exists (map PyStr.of_chars rest). split.
    + cbn [map]. rewrite !chars_of_chars, List.map_map.
      rewrite (List.map_ext _ id), List.map_id by apply chars_of_chars.
      rewrite Hjoin. symmetry. apply string_of_list_ascii_of_string.
    + by destruct rest.
Qed.

Lemma login_arguments_cut_witness :
  colon_free "user" ∧ colon_free "pass" ∧
  (∀ secret, Some "word" = Some secret → colon_free secret) ∧
  ∃ rest, "user:pass:word:JBSWY3DPEHPK3PXP" = str_join ":" ("user" :: "pass" :: rest) ∧
          Some "word" = head rest.
Proof.
  apply (login_arguments_cut "user:pass:word:JBSWY3DPEHPK3PXP" "user" "pass" (Some "word")).
  reflexivity.
Defined.

Lemma list_index_first (account : string) (accounts : list string) :
  account ∈ accounts →
  ∃ j, list_index account accounts = Some j ∧ accounts !! j = Some account ∧
       ∀ k, (k < j)%nat → accounts !! k ≠ Some account.
Proof.
  induction accounts as [|a rest IH]; [by intros ?%elem_of_nil|].
  intros Hin. simpl. destruct (String.eqb_spec a account) as [->|Hne].
  - exists 0%nat. repeat split; [done..|]. lia.
  - apply elem_of_cons in Hin as [->|Hin]; [done|].
    destruct (IH Hin) as (j & -> & Hj & Hfirst). exists (S j).
    repeat split; [done..|]. intros [|k] Hk; simpl; [congruence|]. apply Hfirst. lia.
Qed.

(** In [fidelity_run] a login takes its number from the first place its
    credentials text has in the list: texts that differ from all before them
    are numbered by their place, from 1 on, and a text that comes twice gets
    the number, and so the name, of its first occurrence. *)
Theorem login_numbers_first (accounts : list string) (i : nat) (account : string) :
  accounts !! i = Some account →
  ∃ j, login_numbers accounts !! i = Some (Some (j + 1)%nat) ∧ (j ≤ i)%nat ∧
       accounts !! j = Some account ∧ ∀ k, (k < j)%nat → accounts !! k ≠ Some account.
Proof.
  intros Hi. unfold login_numbers. rewrite list_lookup_fmap, Hi. simpl.
  destruct (list_index_first account accounts) as (j & -> & Hj & Hfirst).
  { by eapply list_elem_of_lookup_2. }
  exists j. repeat split; [|done..].
  destruct (decide (j ≤ i)%nat) as [|Hlt]; [done|].
  destruct (Hfirst i); [lia|done].
Qed.

Lemma login_numbers_first_witness :
  ∃ j, login_numbers (fidelity_accounts "ann:pw1,bob:pw2,ann:pw1") !! 2%nat =
         Some (Some (j + 1)%nat) ∧ (j ≤ 2)%nat ∧
       fidelity_accounts "ann:pw1,bob:pw2,ann:pw1" !! j = Some "ann:pw1" ∧
       ∀ k, (k < j)%nat → fidelity_accounts "ann:pw1,bob:pw2,ann:pw1" !! k ≠ Some "ann:pw1".
Proof.
  apply (login_numbers_first (fidelity_accounts "ann:pw1,bob:pw2,ann:pw1") 2 "ann:pw1").
  reflexivity.
Defined.

(** * The error message of a rejected order *)

Section TrimFacts.
Import PyStr.

Lemma sublist_rev {A : Type} (l1 l2 : list A) :
  l1 `sublist_of` l2 → rev l1 `sublist_of` rev l2.
Proof.
  induction 1 as [|x l1 l2 _ IH|x l1 l2 _ IH]; simpl.
  - constructor.
  - by apply sublist_app.
  - by apply sublist_inserts_r.
Qed.

Lemma sublist_keeps {A : Type} (P : A → Prop) (l1 l2 : list A) :
  l1 `sublist_of` l2 → Forall P l2 → Forall P l1.
Proof.
  induction 1 as [|x l1 l2 _ IH|x l1 l2 _ IH]; [done| |].
  - intros [Hx Hl]%Forall_cons. constructor; auto.
  - intros [_ Hl]%Forall_cons. auto.
Qed.

Lemma filter_error_chars_sub (prev : ascii) (l : list ascii) :
  filter_error_chars prev l `sublist_of` l.
Proof.
  revert prev. induction l as [|c l IH]; intros prev; simpl; [constructor|].
  destruct (_ || _); by constructor.
Qed.

Lemma filter_error_chars_line (prev : ascii) (l : list ascii) :
  Forall (λ c, c ≠ ascii_of_nat 10 ∧ c ≠ ascii_of_nat 9) (filter_error_chars prev l).
Proof.
  revert prev. induction l as [|c l IH]; intros prev; simpl; [constructor|].
  destruct (_ || _) eqn:Hdrop; [apply IH|]. constructor; [|apply IH].
  apply orb_false_elim in Hdrop as [[_ Hnl]%orb_false_elim Htab].
  split; intros ->; [by rewrite Ascii.eqb_refl in Hnl|by rewrite Ascii.eqb_refl in Htab].
Qed.

Lemma remove_sub_chars_sub (old : list ascii) (skip : nat) (l : list ascii) :
  remove_sub_chars old skip l `sublist_of` l.
Proof.
  revert skip. induction l as [|c l IH]; intros skip; [destruct skip; constructor|].
  cbn [remove_sub_chars]. destruct skip; [|by constructor].
  destruct (is_prefix old (c :: l)); by constructor.
Qed.

Lemma lstrip_chars_sub (l : list ascii) : lstrip_chars l `sublist_of` l.
Proof.
  induction l as [|c l IH]; simpl; [constructor|].
  destruct (is_strip_space c); [by constructor|done].
Qed.

(** The trimmed message is the text of the page with characters taken out,
    none added, changed or moved, and it holds no line break and no tab. *)
Theorem trim_error_only_removes (msg : string) :
  chars (trim_error msg) `sublist_of` chars msg ∧
  Forall (λ c, c ≠ ascii_of_nat 10 ∧ c ≠ ascii_of_nat 9) (chars (trim_error msg)).
Proof.
  unfold trim_error, remove_char, strip, remove_sub. rewrite !chars_of_chars.
  set (filtered := filter_error_chars _ _).
  assert (rev (lstrip_chars (rev (lstrip_chars
            (remove_sub_chars (chars "critical") 0 filtered)))) `sublist_of` filtered)
    as Hsub.
  { etransitivity; [|apply remove_sub_chars_sub].
    etransitivity; [|apply lstrip_chars_sub].
    rewrite <- (rev_involutive (lstrip_chars (remove_sub_chars _ _ _))) at 2.
    apply sublist_rev, lstrip_chars_sub. }
  split.
  - etransitivity; [apply sublist_filter|].
    etransitivity; [exact Hsub|apply filter_error_chars_sub].
  - eapply sublist_keeps; [apply sublist_filter|].
    eapply sublist_keeps; [exact Hsub|apply filter_error_chars_line].
Qed.

End TrimFacts.
